(** * ns-thingy: a Nightscout glucose display for the ESP32

    A shallow embedding of [ns-thingy.ino] (the scheduler [loop], the two
    polls [fetchStatus] and [fetchData], and the presenter [updateDisplay],
    [updateLED]) together with the properties its specification states.

    Conventions.
    - The sketch keeps its state in global variables; they are the fields of
      the record [globals], under the names of the source.
    - [unsigned long] is 32 bits wide on the ESP32 and [unsigned long long]
      is 64 bits wide; both are integers of [Z] with the wrap-around written
      out ([u32], [u64]).  [int] is the signed 32-bit range.
    - [float] is IEEE binary32 and [double] binary64, as values of
      [spec_float] in canonical form for their format.
    - Whatever the sketch draws, waits for or sends is an [event] appended to
      the output of the [machine]; what it reads from outside (the clock, the
      WiFi link, an HTTP answer) is an argument of the function that reads.
    - [Serial] logging changes no state and draws nothing; it is left out.
    - [setup], [readConfig] and [createTrendArrow] run once, before the first
      pass of [loop]; they are embedded in the part on start-up, and the
      concrete runs of [loop] start from [power_on (boot ...)]. *)

From Stdlib Require Import ZArith List String Ascii Bool Lia DecimalString.
From Stdlib Require Import SpecFloat.
From ExtLib Require Import Structures.Monad Structures.MonadState.
From ExtLib Require Import Data.Monads.StateMonad.
Import ListNotations.
Import MonadNotation.
Local Open Scope string_scope.
Local Open Scope monad_scope.
Local Open Scope Z_scope.

(** ** Machine integers *)

Module Int.

Definition u32 (z : Z) : Z := z mod 2 ^ 32.
Definition u64 (z : Z) : Z := z mod 2 ^ 64.

Definition INT_MIN : Z := - 2 ^ 31.
Definition INT_MAX : Z := 2 ^ 31 - 1.
Definition in_int (z : Z) : bool := (INT_MIN <=? z) && (z <=? INT_MAX).
Definition in_u64 (z : Z) : bool := (0 <=? z) && (z <? 2 ^ 64).

End Int.
Import Int.

(** ** Floating point: binary32 and binary64 values *)

Module Fp.

Definition of_Z32 (z : Z) : spec_float := binary_normalize 24 128 z 0 false.
Definition of_Z64 (z : Z) : spec_float := binary_normalize 53 1024 z 0 false.

(** Re-rounding of a finite value to another format. *)
Definition reround (prec emax : Z) (x : spec_float) : spec_float :=
  match x with
  | S754_finite s m e => binary_normalize prec emax (cond_Zopp s (Zpos m)) e s
  | _ => x
  end.

(** [(double) f] is exact, [(float) d] rounds to nearest even. *)
Definition to_double (f : spec_float) : spec_float := reround 53 1024 f.
Definition to_float (d : spec_float) : spec_float := reround 24 128 d.

(** The integer part of a value, toward zero; [None] for NaN and infinities. *)
Definition trunc (x : spec_float) : option Z :=
  match x with
  | S754_zero _ => Some 0
  | S754_finite s m e =>
      Some (cond_Zopp s (if 0 <=? e then Zpos m * 2 ^ e else Zpos m / 2 ^ (- e)))
  | _ => None
  end.

(** C's [round]: to the nearest integer, halfway cases away from zero.  The
    result is the integer itself ([None] for NaN and infinities). *)
Definition round_half_away (x : spec_float) : option Z :=
  match x with
  | S754_zero _ => Some 0
  | S754_finite s m e =>
      Some (cond_Zopp s
              (if 0 <=? e then Zpos m * 2 ^ e
               else (2 * Zpos m + 2 ^ (- e)) / (2 * 2 ^ (- e))))
  | _ => None
  end.

Definition mul64 : spec_float -> spec_float -> spec_float := SFmul 53 1024.
Definition div64 : spec_float -> spec_float -> spec_float := SFdiv 53 1024.

(** The literals of the sketch. *)
Definition d18 : spec_float := of_Z64 18.
Definition d30 : spec_float := of_Z64 30.

(** [x > y] and [x < y]; false when either side is NaN. *)
Definition gt (x y : spec_float) : bool := SFltb y x.
Definition lt (x y : spec_float) : bool := SFltb x y.

End Fp.

(** ** Arduino [String] operations used by the sketch *)

Module Str.

Definition tolower (c : ascii) : ascii :=
  let n := N_of_ascii c in
  if ((65 <=? n) && (n <=? 90))%N then ascii_of_N (n + 32) else c.

Fixpoint lower (s : string) : string :=
  match s with
  | EmptyString => EmptyString
  | String c r => String (tolower c) (lower r)
  end.

(** [a.equalsIgnoreCase(b)]: same length and equal after [tolower]. *)
Definition equalsIgnoreCase (a b : string) : bool := String.eqb (lower a) (lower b).

(** [s.startsWith(p)]: compares the characters as they are. *)
Definition startsWith (s p : string) : bool := String.prefix p s.

Definition isEmpty (s : string) : bool := String.eqb s "".

End Str.

(** ** Parsed JSON documents (ArduinoJson)

    A document is what [deserializeJson] built.  The accessors follow the
    library: a missing member or a member of something that is no object is
    the null variant, and a conversion that does not apply yields the zero of
    its type. *)

Module Json.

#[local] Set Warnings "-register-all".

Inductive json : Type :=
| JNull
| JBool (b : bool)
| JInt (z : Z)
| JFloat (d : spec_float)
| JStr (s : string)
| JArr (l : list json)
| JObj (l : list (string * json)).

Fixpoint assoc (k : string) (l : list (string * json)) : option json :=
  match l with
  | [] => None
  | (k', v) :: r => if String.eqb k k' then Some v else assoc k r
  end.

(** [v.containsKey(k)] *)
Definition containsKey (v : json) (k : string) : bool :=
  match v with
  | JObj l => match assoc k l with Some _ => true | None => false end
  | _ => false
  end.

(** [v[k]] *)
Definition member (v : json) (k : string) : json :=
  match v with
  | JObj l => match assoc k l with Some x => x | None => JNull end
  | _ => JNull
  end.

(** [v[i]] *)
Definition element (v : json) (i : nat) : json :=
  match v with
  | JArr l => nth i l JNull
  | _ => JNull
  end.

(** [v.is<JsonArray>()] *)
Definition is_array (v : json) : bool :=
  match v with JArr _ => true | _ => false end.

(** [v.size()] *)
Definition size (v : json) : Z :=
  match v with
  | JArr l => Z.of_nat (List.length l)
  | JObj l => Z.of_nat (List.length l)
  | _ => 0
  end.

Section Conversions.

(** The number a string value holds, as the library reads it when a string
    is asked for a number; and the JSON text of a value that is asked for a
    [String] without being one. *)
Variable parseNumber : string -> json.
Variable serializeJson : json -> string.

(** A floating-point value converts to an integer type when it lies within
    the range of that type, and then loses its fraction; otherwise the result
    is 0. *)
Definition float_as_int (d : spec_float) : Z :=
  match Fp.trunc d with
  | Some z =>
      if SFleb (Fp.of_Z64 INT_MIN) d && SFleb d (Fp.of_Z64 INT_MAX) then z else 0
  | None => 0
  end.

Definition float_as_u64 (d : spec_float) : Z :=
  match Fp.trunc d with
  | Some z =>
      if SFleb (Fp.of_Z64 0) d && SFltb d (Fp.of_Z64 (2 ^ 64)) then z else 0
  | None => 0
  end.

Definition number_as_int (v : json) : Z :=
  match v with
  | JBool b => if b then 1 else 0
  | JInt z => if in_int z then z else 0
  | JFloat d => float_as_int d
  | _ => 0
  end.

Definition number_as_u64 (v : json) : Z :=
  match v with
  | JBool b => if b then 1 else 0
  | JInt z => if in_u64 z then z else 0
  | JFloat d => float_as_u64 d
  | _ => 0
  end.

Definition number_as_float (v : json) : spec_float :=
  match v with
  | JBool b => Fp.of_Z32 (if b then 1 else 0)
  | JInt z => Fp.of_Z32 z
  | JFloat d => Fp.to_float d
  | _ => S754_zero false
  end.

(** [v.as<int>()] *)
Definition as_int (v : json) : Z :=
  match v with
  | JStr s => number_as_int (parseNumber s)
  | _ => number_as_int v
  end.

(** [v.as<unsigned long long>()] *)
Definition as_u64 (v : json) : Z :=
  match v with
  | JStr s => number_as_u64 (parseNumber s)
  | _ => number_as_u64 v
  end.

(** [v.as<float>()] *)
Definition as_float (v : json) : spec_float :=
  match v with
  | JStr s => number_as_float (parseNumber s)
  | _ => number_as_float v
  end.

(** [v.as<String>()] *)
Definition as_String (v : json) : string :=
  match v with
  | JStr s => s
  | _ => serializeJson v
  end.

End Conversions.

End Json.
Import Json.

(** ** What the board and its libraries provide

    Text formatting, the number and text readers of ArduinoJson, the glyph
    metrics and the panel size belong to the Arduino core and to TFT_eSPI,
    not to the sketch.  So does the value a [double] outside the range of
    [int] converts to, which C++ leaves undefined. *)

Class Platform : Type := {
  parseNumber : string -> json;
  serializeJson : json -> string;
  String_of_double : spec_float -> Z -> string;
  textWidth : string -> Z;
  tft_width : Z;
  tft_height : Z;
  int_of_large_double : spec_float -> Z
}.

(** [String(n)] for an integer: its decimal digits. *)
Definition String_of_int (n : Z) : string :=
  DecimalString.NilZero.string_of_int (Z.to_int n).

(** ** Constants of the sketch *)

Definition PIN_NEOPIXEL : Z := 38.

Definition DATA_FETCH_INTERVAL_MS : Z := 30 * 1000.
Definition STATUS_FETCH_INTERVAL_MS : Z := 60 * 60 * 1000.
Definition DISPLAY_UPDATE_INTERVAL_MS : Z := 10 * 1000.
Definition STALE_DATA_THRESHOLD_MS : Z := 13 * 60 * 1000.

Definition HTTP_CODE_OK : Z := 200.

(** ** Output of the sketch *)

Inductive color : Type := TFT_BLACK | TFT_WHITE | TFT_DARKGREY | TFT_LIGHTGREY.
Inductive datum : Type := TL_DATUM | TC_DATUM | MC_DATUM.
Inductive font : Type := FONT4 | FONT8 | GFXFF.
Inductive freefont : Type := FSS12 | FSS18 | FSS24.

Inductive event : Type :=
| SprFillSprite (c : color)
| SprSetTextDatum (d : datum)
| SprSetTextFont (f : font)
| SprSetFreeFont (f : freefont)
| SprSetTextColor (c : color)
| SprDrawString (s : string) (x y : Z) (f : font)
| SprDrawLine (x0 y0 x1 y1 : Z) (c : color)
| SprSetPivot (x y : Z)
| SprPushSprite (x y : Z)
| TrdPushRotated (angle : Z) (transparent : option color)
| Delay (ms : Z)
| NeopixelWrite (pin a b c : Z)
| WiFiMode
| WiFiBegin (ssid password : string)
| HttpGet (url : string)
| HttpEnd.

(** ** State of the sketch *)

Record globals : Type := mkGlobals {
  wifiSSID : string;
  wifiPassword : string;
  nightscoutURL : string;
  accessToken : string;
  mmol : bool;
  useLed : bool;
  ledIntensity : Z;
  lowUrgent : Z;
  lowWarning : Z;
  highWarning : Z;
  highUrgent : Z;
  lastDataFetchTime : Z;
  lastStatusFetchTime : Z;
  lastDisplayUpdateTime : Z;
  lastUpdate : Z;
  lastTimestamp : Z;
  bg : spec_float;
  delta : spec_float;
  trend : string
}.

(** The part of the sprite [spr] that the sketch reads back. *)
Record sprite : Type := mkSprite {
  textDatum : datum;
  pivotX : Z;
  pivotY : Z
}.

Record machine : Type := mkMachine {
  vars : globals;
  spr : sprite;
  out : list event
}.

(** The globals as their initialisers leave them, for a given configuration. *)
Definition boot (ssid pwd url token : string) (mm led : bool) : globals :=
  {| wifiSSID := ssid; wifiPassword := pwd; nightscoutURL := url;
     accessToken := token; mmol := mm; useLed := led; ledIntensity := 64;
     lowUrgent := 55; lowWarning := 70; highWarning := 180; highUrgent := 240;
     lastDataFetchTime := 0; lastStatusFetchTime := 0;
     lastDisplayUpdateTime := 0; lastUpdate := 0; lastTimestamp := 0;
     bg := S754_zero false; delta := S754_zero false; trend := "" |}.

(** [spr] when [setup] has returned: [setPivot(260, 51)], and the datum
    [MC_DATUM] that the [showMessage] of [readConfig] has set. *)
Definition spr_after_setup : sprite :=
  {| textDatum := MC_DATUM; pivotX := 260; pivotY := 51 |}.

Definition power_on (v : globals) : machine :=
  {| vars := v; spr := spr_after_setup; out := [] |}.

(** Assignments to the globals. *)
Definition set_lowUrgent (x : Z) (v : globals) : globals :=
  mkGlobals (wifiSSID v) (wifiPassword v) (nightscoutURL v) (accessToken v)
    (mmol v) (useLed v) (ledIntensity v) x (lowWarning v) (highWarning v)
    (highUrgent v) (lastDataFetchTime v) (lastStatusFetchTime v)
    (lastDisplayUpdateTime v) (lastUpdate v) (lastTimestamp v) (bg v)
    (delta v) (trend v).
Definition set_lowWarning (x : Z) (v : globals) : globals :=
  mkGlobals (wifiSSID v) (wifiPassword v) (nightscoutURL v) (accessToken v)
    (mmol v) (useLed v) (ledIntensity v) (lowUrgent v) x (highWarning v)
    (highUrgent v) (lastDataFetchTime v) (lastStatusFetchTime v)
    (lastDisplayUpdateTime v) (lastUpdate v) (lastTimestamp v) (bg v)
    (delta v) (trend v).
Definition set_highWarning (x : Z) (v : globals) : globals :=
  mkGlobals (wifiSSID v) (wifiPassword v) (nightscoutURL v) (accessToken v)
    (mmol v) (useLed v) (ledIntensity v) (lowUrgent v) (lowWarning v) x
    (highUrgent v) (lastDataFetchTime v) (lastStatusFetchTime v)
    (lastDisplayUpdateTime v) (lastUpdate v) (lastTimestamp v) (bg v)
    (delta v) (trend v).
Definition set_highUrgent (x : Z) (v : globals) : globals :=
  mkGlobals (wifiSSID v) (wifiPassword v) (nightscoutURL v) (accessToken v)
    (mmol v) (useLed v) (ledIntensity v) (lowUrgent v) (lowWarning v)
    (highWarning v) x (lastDataFetchTime v) (lastStatusFetchTime v)
    (lastDisplayUpdateTime v) (lastUpdate v) (lastTimestamp v) (bg v)
    (delta v) (trend v).
Definition set_lastDataFetchTime (x : Z) (v : globals) : globals :=
  mkGlobals (wifiSSID v) (wifiPassword v) (nightscoutURL v) (accessToken v)
    (mmol v) (useLed v) (ledIntensity v) (lowUrgent v) (lowWarning v)
    (highWarning v) (highUrgent v) x (lastStatusFetchTime v)
    (lastDisplayUpdateTime v) (lastUpdate v) (lastTimestamp v) (bg v)
    (delta v) (trend v).
Definition set_lastStatusFetchTime (x : Z) (v : globals) : globals :=
  mkGlobals (wifiSSID v) (wifiPassword v) (nightscoutURL v) (accessToken v)
    (mmol v) (useLed v) (ledIntensity v) (lowUrgent v) (lowWarning v)
    (highWarning v) (highUrgent v) (lastDataFetchTime v) x
    (lastDisplayUpdateTime v) (lastUpdate v) (lastTimestamp v) (bg v)
    (delta v) (trend v).
Definition set_lastDisplayUpdateTime (x : Z) (v : globals) : globals :=
  mkGlobals (wifiSSID v) (wifiPassword v) (nightscoutURL v) (accessToken v)
    (mmol v) (useLed v) (ledIntensity v) (lowUrgent v) (lowWarning v)
    (highWarning v) (highUrgent v) (lastDataFetchTime v)
    (lastStatusFetchTime v) x (lastUpdate v) (lastTimestamp v) (bg v)
    (delta v) (trend v).
Definition set_lastUpdate (x : Z) (v : globals) : globals :=
  mkGlobals (wifiSSID v) (wifiPassword v) (nightscoutURL v) (accessToken v)
    (mmol v) (useLed v) (ledIntensity v) (lowUrgent v) (lowWarning v)
    (highWarning v) (highUrgent v) (lastDataFetchTime v)
    (lastStatusFetchTime v) (lastDisplayUpdateTime v) x (lastTimestamp v)
    (bg v) (delta v) (trend v).
Definition set_lastTimestamp (x : Z) (v : globals) : globals :=
  mkGlobals (wifiSSID v) (wifiPassword v) (nightscoutURL v) (accessToken v)
    (mmol v) (useLed v) (ledIntensity v) (lowUrgent v) (lowWarning v)
    (highWarning v) (highUrgent v) (lastDataFetchTime v)
    (lastStatusFetchTime v) (lastDisplayUpdateTime v) (lastUpdate v) x
    (bg v) (delta v) (trend v).
Definition set_bg (x : spec_float) (v : globals) : globals :=
  mkGlobals (wifiSSID v) (wifiPassword v) (nightscoutURL v) (accessToken v)
    (mmol v) (useLed v) (ledIntensity v) (lowUrgent v) (lowWarning v)
    (highWarning v) (highUrgent v) (lastDataFetchTime v)
    (lastStatusFetchTime v) (lastDisplayUpdateTime v) (lastUpdate v)
    (lastTimestamp v) x (delta v) (trend v).
Definition set_delta (x : spec_float) (v : globals) : globals :=
  mkGlobals (wifiSSID v) (wifiPassword v) (nightscoutURL v) (accessToken v)
    (mmol v) (useLed v) (ledIntensity v) (lowUrgent v) (lowWarning v)
    (highWarning v) (highUrgent v) (lastDataFetchTime v)
    (lastStatusFetchTime v) (lastDisplayUpdateTime v) (lastUpdate v)
    (lastTimestamp v) (bg v) x (trend v).
Definition set_trend (x : string) (v : globals) : globals :=
  mkGlobals (wifiSSID v) (wifiPassword v) (nightscoutURL v) (accessToken v)
    (mmol v) (useLed v) (ledIntensity v) (lowUrgent v) (lowWarning v)
    (highWarning v) (highUrgent v) (lastDataFetchTime v)
    (lastStatusFetchTime v) (lastDisplayUpdateTime v) (lastUpdate v)
    (lastTimestamp v) (bg v) (delta v) x.

(** ** The monad of the sketch: state passing over [machine] *)

Definition M : Type -> Type := state machine.

Definition run {A : Type} (c : M A) (m : machine) : A * machine := runState c m.
Definition result {A : Type} (c : M A) (m : machine) : A := fst (run c m).
Definition after {A : Type} (c : M A) (m : machine) : machine := snd (run c m).

(** The events a command adds to the output. *)
Definition emitted {A : Type} (c : M A) (m : machine) : list event :=
  skipn (List.length (out m)) (out (after c m)).

Definition emit (e : event) : M unit :=
  mkState (fun m => (tt, mkMachine (vars m) (spr m) (out m ++ [e]))).

Definition read : M globals :=
  mkState (fun m => (vars m, m)).

Definition assign (f : globals -> globals) : M unit :=
  mkState (fun m => (tt, mkMachine (f (vars m)) (spr m) (out m))).

Definition read_spr : M sprite :=
  mkState (fun m => (spr m, m)).

Definition when (b : bool) (c : M unit) : M unit :=
  if b then c else ret tt.

(** ** What the sketch reads from outside *)

(** The answer to an HTTP GET: the code [http.GET()] returns, and what
    [deserializeJson] makes of the body ([None]: a deserialization error). *)
Record response : Type := mkResponse {
  httpCode : Z;
  body : option json
}.

(** Everything one pass of [loop] reads, in the order of reading.  The two
    flags [dataFetchFailed] and [statusFetchFailed] are declared without an
    initialiser: what they hold until assigned is given by the pass. *)
Record tick : Type := mkTick {
  t_millis : Z;                 (* millis() on entry *)
  t_wifi : bool;                (* WiFi.status() == WL_CONNECTED on entry *)
  t_link : nat -> bool;         (* the same, at the n-th poll of connectWiFi *)
  t_ip : string;                (* WiFi.localIP().toString() *)
  t_wifi_after : bool;          (* the same, after connectWiFi *)
  t_status_wifi : bool;         (* the same, on entry to fetchStatus *)
  t_status : response;          (* the answer to the status request *)
  t_data_wifi : bool;           (* the same, on entry to fetchData *)
  t_data : response;            (* the answer to the data request *)
  t_data_millis : Z;            (* millis() when fetchData accepts a reading *)
  t_bg_millis : Z;              (* millis() in updateBGValue *)
  t_ts_millis : Z;              (* millis() in updateTimestamp *)
  t_dataFetchFailed : bool;     (* dataFetchFailed before any assignment *)
  t_statusFetchFailed : bool    (* statusFetchFailed before any assignment *)
}.

(** ** The sketch *)

Section Sketch.

Context {board : Platform}.

(** [millis()] returns an [unsigned long]. *)
Definition millis (clock : Z) : Z := u32 clock.

Definition spr_setTextDatum (d : datum) : M unit :=
  mkState (fun m =>
    (tt, mkMachine (vars m) (mkSprite d (pivotX (spr m)) (pivotY (spr m)))
           (out m ++ [SprSetTextDatum d]))).

Definition spr_setPivot (x y : Z) : M unit :=
  mkState (fun m =>
    (tt, mkMachine (vars m) (mkSprite (textDatum (spr m)) x y)
           (out m ++ [SprSetPivot x y]))).

Definition showMessage (line1 line2 : string) (delay_ms : Z) : M unit :=
  emit (SprFillSprite TFT_BLACK) ;;
  spr_setTextDatum MC_DATUM ;;
  emit (SprSetTextFont FONT4) ;;
  emit (SprDrawString line1 (tft_width ÷ 2) (tft_height ÷ 2 - 10) GFXFF) ;;
  when (negb (String.eqb line2 ""))
    (emit (SprDrawString line2 (tft_width ÷ 2) (tft_height ÷ 2 + 20) GFXFF)) ;;
  emit (SprPushSprite 0 0) ;;
  emit (Delay delay_ms).

Definition setLEDColor (r g b : Z) : M unit :=
  v <- read ;;
  when (useLed v) (emit (NeopixelWrite PIN_NEOPIXEL g r b)).

(** The waiting loop of [connectWiFi]: [retries] polls have been answered
    "not connected" so far, [budget] more iterations are allowed.  The
    value is the number of the last poll made. *)
Fixpoint await_link (link : nat -> bool) (budget retries : nat) : M nat :=
  match budget with
  | O => ret retries
  | S budget' =>
      if link retries then ret retries
      else emit (Delay 500) ;; await_link link budget' (S retries)
  end.

Definition connectWiFi (link : nat -> bool) (ip : string) : M unit :=
  v <- read ;;
  setLEDColor 0 0 (ledIntensity v) ;;
  showMessage "Connecting to WiFi" (wifiSSID v) 1000 ;;
  (if negb (String.eqb (wifiSSID v) "") then
     emit WiFiMode ;;
     emit (WiFiBegin (wifiSSID v) (wifiPassword v)) ;;
     last <- await_link link 30 0 ;;
     if link (S last) then showMessage "WiFi connected!" ip 2000
     else showMessage "WiFi connection failed" "Check credentials." 5000
   else showMessage "WiFi error" "No SSID defined." 5000) ;;
  setLEDColor 0 0 0.

Definition request_url (v : globals) (path : string) : string :=
  let url := nightscoutURL v ++ path in
  if negb (Str.isEmpty (accessToken v)) then url ++ ("?token=" ++ accessToken v)
  else url.

(** [round(x * 18.0)] stored into an [int], for an [int] x. *)
Definition mmol_to_mgdl (x : Z) : Z :=
  let product := Fp.mul64 (Fp.of_Z64 x) Fp.d18 in
  match Fp.round_half_away product with
  | Some z => if in_int z then z else int_of_large_double product
  | None => int_of_large_double product
  end.

Definition has_all_thresholds (thresholds : json) : bool :=
  containsKey thresholds "bgHigh" && containsKey thresholds "bgTargetTop" &&
  containsKey thresholds "bgTargetBottom" && containsKey thresholds "bgLow".

Definition units_are_mmol (units : string) : bool :=
  Str.equalsIgnoreCase units "mmol" || Str.equalsIgnoreCase units "mmol/L".

Definition fetchStatus (wifi : bool) (resp : response) : M bool :=
  if negb wifi then ret false else
  v <- read ;;
  emit (HttpGet (request_url v "/api/v1/status.json")) ;;
  if httpCode resp =? HTTP_CODE_OK then
    match body resp with
    | None =>
        showMessage "NS status fetch error" "JSON parse failed" 2000 ;;
        emit HttpEnd ;;
        ret false
    | Some doc =>
        when (containsKey doc "settings" &&
              containsKey (member doc "settings") "thresholds")
          (let thresholds := member (member doc "settings") "thresholds" in
           when (has_all_thresholds thresholds)
             (assign (set_highUrgent (as_int parseNumber (member thresholds "bgHigh"))) ;;
              assign (set_highWarning (as_int parseNumber (member thresholds "bgTargetTop"))) ;;
              assign (set_lowWarning (as_int parseNumber (member thresholds "bgTargetBottom"))) ;;
              assign (set_lowUrgent (as_int parseNumber (member thresholds "bgLow"))) ;;
              let units := as_String serializeJson (member (member doc "settings") "units") in
              when (units_are_mmol units)
                (assign (fun v => set_highUrgent (mmol_to_mgdl (highUrgent v)) v) ;;
                 assign (fun v => set_highWarning (mmol_to_mgdl (highWarning v)) v) ;;
                 assign (fun v => set_lowWarning (mmol_to_mgdl (lowWarning v)) v) ;;
                 assign (fun v => set_lowUrgent (mmol_to_mgdl (lowUrgent v)) v)))) ;;
        emit HttpEnd ;;
        ret true
    end
  else
    showMessage "NS status fetch error" ("HTTP: " ++ String_of_int (httpCode resp)) 2000 ;;
    emit HttpEnd ;;
    ret false.

Definition no_readings (doc : json) : bool :=
  negb (containsKey doc "bgnow") ||
  negb (is_array (member (member doc "bgnow") "sgvs")) ||
  (size (member (member doc "bgnow") "sgvs") =? 0).

Definition fetchData (wifi : bool) (resp : response) (clock : Z) : M bool :=
  if negb wifi then ret false else
  v <- read ;;
  emit (HttpGet (request_url v "/api/v2/properties.json")) ;;
  if httpCode resp =? HTTP_CODE_OK then
    match body resp with
    | None =>
        showMessage "NS data fetch error" "JSON parsing failed" 2000 ;;
        emit HttpEnd ;;
        ret false
    | Some doc =>
        if no_readings doc then
          showMessage "NS data error" "No BG value found" 2000 ;;
          emit HttpEnd ;;
          ret false
        else
          let newTimestamp := as_u64 parseNumber (member (member doc "bgnow") "mills") in
          let first := element (member (member doc "bgnow") "sgvs") 0 in
          when (negb (newTimestamp =? lastTimestamp v))
            (let timestamp := newTimestamp in
             assign (set_bg (as_float parseNumber (member first "mgdl"))) ;;
             assign (set_delta (as_float parseNumber (member (member doc "delta") "mgdl"))) ;;
             assign (set_trend (as_String serializeJson (member first "direction"))) ;;
             v' <- read ;;
             when (Fp.gt (Fp.to_double (bg v')) Fp.d30)
               (assign (set_lastTimestamp timestamp) ;;
                assign (set_lastUpdate (millis clock)))) ;;
          emit HttpEnd ;;
          ret true
    end
  else
    showMessage "NS data fetch error" ("HTTP: " ++ String_of_int (httpCode resp)) 2000 ;;
    emit HttpEnd ;;
    ret false.

Definition getBGValue (v : globals) (rawBG : spec_float) : string :=
  if mmol v then String_of_double (Fp.div64 (Fp.to_double rawBG) Fp.d18) 1
  else String_of_double (Fp.to_double rawBG) 0.

(** [(millis() - lastUpdate) > STALE_DATA_THRESHOLD_MS], the difference
    taken in [unsigned long long]. *)
Definition isStale (clock : Z) (v : globals) : bool :=
  u64 (millis clock - lastUpdate v) >? STALE_DATA_THRESHOLD_MS.

Definition updateBGValue (clock : Z) : M unit :=
  v <- read ;;
  let stale := isStale clock v in
  s <- read_spr ;;
  let td := textDatum s in
  spr_setTextDatum TC_DATUM ;;
  (if stale then emit (SprSetTextColor TFT_DARKGREY)
   else emit (SprSetTextColor TFT_WHITE)) ;;
  let bgString := getBGValue v (bg v) in
  emit (SprDrawString bgString 120 15 FONT8) ;;
  when stale
    (let width := textWidth bgString in
     let strikeY := 52 in
     let strikeX1 := 120 - width ÷ 2 in
     let strikeX2 := 120 + width ÷ 2 in
     emit (SprDrawLine strikeX1 strikeY strikeX2 strikeY TFT_DARKGREY) ;;
     emit (SprDrawLine strikeX1 (strikeY + 1) strikeX2 (strikeY + 1) TFT_DARKGREY)) ;;
  spr_setTextDatum td ;;
  emit (SprSetTextColor TFT_WHITE).

Definition updateDelta : M unit :=
  v <- read ;;
  let prefix := if Fp.gt (delta v) (Fp.of_Z32 0) then "+" else "" in
  s <- read_spr ;;
  let td := textDatum s in
  spr_setTextDatum TC_DATUM ;;
  emit (SprSetTextColor TFT_LIGHTGREY) ;;
  emit (SprSetFreeFont FSS24) ;;
  emit (SprDrawString (prefix ++ getBGValue v (delta v)) 120 110 GFXFF) ;;
  spr_setTextDatum td ;;
  emit (SprSetTextColor TFT_WHITE).

Definition updateTimestamp (clock : Z) : M unit :=
  v <- read ;;
  let minutesDisp :=
    if lastUpdate v >? 0 then
      let age_ms := u32 (u64 (millis clock - lastUpdate v)) in
      String_of_int (age_ms ÷ 60000)
    else "?" in
  spr_setTextDatum TC_DATUM ;;
  emit (SprSetFreeFont FSS18) ;;
  emit (SprDrawString minutesDisp 250 100 GFXFF) ;;
  emit (SprSetFreeFont FSS12) ;;
  emit (SprDrawString "min. ago" 250 135 GFXFF) ;;
  emit (SprSetTextColor TFT_WHITE).

(** Both functions read the global [trend], here their argument. *)
Definition getTrendArrowRotation (trend : string) : Z :=
  if Str.equalsIgnoreCase trend "DoubleUp" then 0
  else if Str.equalsIgnoreCase trend "SingleUp" then 0
  else if Str.equalsIgnoreCase trend "FortyFiveUp" then 45
  else if Str.equalsIgnoreCase trend "Flat" then 90
  else if Str.equalsIgnoreCase trend "FortyFiveDown" then 135
  else if Str.equalsIgnoreCase trend "SingleDown" then 180
  else if Str.equalsIgnoreCase trend "DoubleDown" then 180
  else -1.

Definition isDoubleTrendArrow (trend : string) : bool :=
  Str.startsWith trend "Double".

Definition updateDisplay (bg_clock ts_clock : Z) : M unit :=
  emit (SprFillSprite TFT_BLACK) ;;
  v <- read ;;
  if lastTimestamp v =? 0 then showMessage "Waiting for data..." "" 1000
  else
    updateBGValue bg_clock ;;
    updateDelta ;;
    updateTimestamp ts_clock ;;
    let arrowAngle := getTrendArrowRotation (trend v) in
    when (arrowAngle >=? 0)
      (emit (TrdPushRotated arrowAngle None) ;;
       when (isDoubleTrendArrow (trend v))
         (s <- read_spr ;;
          let pivX := pivotX s in
          let pivY := pivotY s in
          spr_setPivot (pivX + 10) pivY ;;
          emit (TrdPushRotated arrowAngle (Some TFT_BLACK)) ;;
          spr_setPivot pivX pivY)) ;;
    emit (SprPushSprite 0 0).

Definition updateLED : M unit :=
  v <- read ;;
  if lastTimestamp v =? 0 then ret tt
  else if Fp.lt (bg v) (Fp.of_Z32 (lowUrgent v)) || Fp.gt (bg v) (Fp.of_Z32 (highUrgent v)) then
    setLEDColor (ledIntensity v) 0 0
  else if Fp.lt (bg v) (Fp.of_Z32 (lowWarning v)) || Fp.gt (bg v) (Fp.of_Z32 (highWarning v)) then
    setLEDColor (ledIntensity v) (ledIntensity v) 0
  else
    setLEDColor 0 (ledIntensity v) 0.

(** The three statements of the connected branch of [loop].  The first two
    give the value their flag has afterwards. *)
Definition poll_status (t : tick) (currentTime : Z) : M bool :=
  v <- read ;;
  if (u64 (currentTime - lastStatusFetchTime v) >=? STATUS_FETCH_INTERVAL_MS)
     || (lastStatusFetchTime v =? 0)
  then
    status_ok <- fetchStatus (t_status_wifi t) (t_status t) ;;
    let statusFetchFailed := negb status_ok in
    when (negb statusFetchFailed) (assign (set_lastStatusFetchTime currentTime)) ;;
    ret statusFetchFailed
  else ret (t_statusFetchFailed t).

Definition poll_data (t : tick) (currentTime : Z) : M bool :=
  v <- read ;;
  if (u64 (currentTime - lastDataFetchTime v) >=? DATA_FETCH_INTERVAL_MS)
     || (lastDataFetchTime v =? 0)
  then
    data_ok <- fetchData (t_data_wifi t) (t_data t) (t_data_millis t) ;;
    let dataFetchFailed := negb data_ok in
    when (negb dataFetchFailed) (assign (set_lastDataFetchTime currentTime)) ;;
    ret dataFetchFailed
  else ret (t_dataFetchFailed t).

Definition refresh (t : tick) (currentTime : Z)
    (dataFetchFailed statusFetchFailed : bool) : M unit :=
  v <- read ;;
  when ((u64 (currentTime - lastDisplayUpdateTime v) >=? DISPLAY_UPDATE_INTERVAL_MS)
        && negb dataFetchFailed && negb statusFetchFailed)
    (updateDisplay (t_bg_millis t) (t_ts_millis t) ;;
     updateLED ;;
     assign (set_lastDisplayUpdateTime currentTime)).

Definition loop (t : tick) : M unit :=
  let currentTime := millis (t_millis t) in
  if negb (t_wifi t) then
    connectWiFi (t_link t) (t_ip t) ;;
    when (t_wifi_after t)
      (status_ok <- fetchStatus (t_status_wifi t) (t_status t) ;;
       let statusFetchFailed := negb status_ok in
       data_ok <- fetchData (t_data_wifi t) (t_data t) (t_data_millis t) ;;
       let dataFetchFailed := negb data_ok in
       assign (set_lastStatusFetchTime currentTime) ;;
       assign (set_lastDataFetchTime currentTime))
  else
    statusFetchFailed <- poll_status t currentTime ;;
    dataFetchFailed <- poll_data t currentTime ;;
    refresh t currentTime dataFetchFailed statusFetchFailed.

End Sketch.

(** * Vocabulary of the properties *)

(** ** Views of the globals *)

(** The stored reading, in the words of the specification. *)
Record reading : Type := mkReading {
  value : spec_float;
  change : spec_float;
  trendCode : string;
  sourceTimestamp : Z;
  acquiredAt : Z
}.

Definition stored_reading (v : globals) : reading :=
  {| value := bg v; change := delta v; trendCode := trend v;
     sourceTimestamp := lastTimestamp v; acquiredAt := lastUpdate v |}.

Record thresholdSet : Type := mkThresholds {
  th_lowUrgent : Z;
  th_lowWarning : Z;
  th_highWarning : Z;
  th_highUrgent : Z
}.

Definition stored_thresholds (v : globals) : thresholdSet :=
  {| th_lowUrgent := lowUrgent v; th_lowWarning := lowWarning v;
     th_highWarning := highWarning v; th_highUrgent := highUrgent v |}.

Record pollTimers : Type := mkTimers {
  statusTimer : Z;
  dataTimer : Z;
  displayTimer : Z
}.

Definition stored_timers (v : globals) : pollTimers :=
  {| statusTimer := lastStatusFetchTime v; dataTimer := lastDataFetchTime v;
     displayTimer := lastDisplayUpdateTime v |}.

(** A command preserves a view of the globals. *)
Definition preserves {X A : Type} (view : globals -> X) (c : M A) : Prop :=
  forall m, view (vars (after c m)) = view (vars m).

(** A command is silent on the globals when it leaves all of them as they
    were, whatever it draws. *)
Definition keeps_vars {A : Type} (c : M A) : Prop :=
  forall m, vars (after c m) = vars m.

(** ** Readings of an answer, and the conditions of [loop] *)

Section Vocabulary.

Context {board : Platform}.

(** [doc["bgnow"]["mills"].as<unsigned long long>()] *)
Definition mills_of (doc : json) : Z :=
  as_u64 parseNumber (member (member doc "bgnow") "mills").

(** [doc["bgnow"]["sgvs"][0]["mgdl"].as<float>()] *)
Definition mgdl_of (doc : json) : spec_float :=
  as_float parseNumber
    (member (element (member (member doc "bgnow") "sgvs") 0) "mgdl").

(** [doc["settings"]["thresholds"]] and [doc["settings"]["units"].as<String>()] *)
Definition thresholds_of (doc : json) : json :=
  member (member doc "settings") "thresholds".

Definition units_of (doc : json) : string :=
  as_String serializeJson (member (member doc "settings") "units").

End Vocabulary.

(** The conditions under which [loop] starts each of its three actions. *)
Definition status_due (currentTime : Z) (v : globals) : bool :=
  (u64 (currentTime - lastStatusFetchTime v) >=? STATUS_FETCH_INTERVAL_MS)
  || (lastStatusFetchTime v =? 0).

Definition data_due (currentTime : Z) (v : globals) : bool :=
  (u64 (currentTime - lastDataFetchTime v) >=? DATA_FETCH_INTERVAL_MS)
  || (lastDataFetchTime v =? 0).

Definition display_due (currentTime : Z) (v : globals) : bool :=
  u64 (currentTime - lastDisplayUpdateTime v) >=? DISPLAY_UPDATE_INTERVAL_MS.

(** The trend codes [getTrendArrowRotation] knows, compared as it compares. *)
Definition trend_codes : list string :=
  ["DoubleUp"; "SingleUp"; "FortyFiveUp"; "Flat"; "FortyFiveDown";
   "SingleDown"; "DoubleDown"].

Definition recognized (code : string) : bool :=
  existsb (Str.equalsIgnoreCase code) trend_codes.

(** A frame shows the second, offset arrow. *)
Definition second_arrow (e : event) : bool :=
  match e with
  | TrdPushRotated _ (Some _) => true
  | _ => false
  end.

(** A frame strikes the value through. *)
Definition strikethrough (e : event) : bool :=
  match e with
  | SprDrawLine _ _ _ _ TFT_DARKGREY => true
  | _ => false
  end.

(** A frame writes the LED. *)
Definition led_write (e : event) : bool :=
  match e with
  | NeopixelWrite _ _ _ _ => true
  | _ => false
  end.

(** An HTTP request goes out. *)
Definition http_request (e : event) : bool :=
  match e with
  | HttpGet _ => true
  | _ => false
  end.

(** ** A board and some states for concrete runs *)

Definition bench_board : Platform :=
  {| parseNumber := fun _ => JNull;
     serializeJson := fun _ => "null";
     String_of_double := fun d decimals =>
       match Fp.round_half_away d with
       | Some z => String_of_int z
       | None => "nan"
       end;
     textWidth := fun s => 55 * Z.of_nat (String.length s);
     tft_width := 320;
     tft_height := 170;
     int_of_large_double := fun _ => INT_MAX |}.

Definition bench_config : globals :=
  boot "home" "secret" "https://ns.example.org" "" false true.

(** A reading of 120 mg/dL, falling by 2, flat, stamped 1000 by the server
    and accepted at local time 5000. *)
Definition bench_reading : globals :=
  set_lastUpdate 5000
    (set_lastTimestamp 1000
       (set_trend "Flat"
          (set_delta (Fp.of_Z32 (-2))
             (set_bg (Fp.of_Z32 120) bench_config)))).

(** The same, with both polls last done at 4600 and the display last
    refreshed at 5200. *)
Definition bench_running : globals :=
  set_lastDisplayUpdateTime 5200
    (set_lastDataFetchTime 4600
       (set_lastStatusFetchTime 4600 bench_reading)).

(** The body of a data answer. *)
Definition properties_json (mills : Z) (mgdl : json) (direction : string)
    (delta_mgdl : json) : json :=
  JObj [("bgnow", JObj [("mills", JInt mills);
                        ("sgvs", JArr [JObj [("mgdl", mgdl);
                                             ("direction", JStr direction)]])]);
        ("delta", JObj [("mgdl", delta_mgdl)])].

(** The body of a status answer. *)
Definition status_json (units : string) (bgHigh bgTargetTop bgTargetBottom bgLow : json) : json :=
  JObj [("settings",
         JObj [("units", JStr units);
               ("thresholds",
                JObj [("bgHigh", bgHigh); ("bgTargetTop", bgTargetTop);
                      ("bgTargetBottom", bgTargetBottom); ("bgLow", bgLow)])])].

(** A status answer in mmol/L whose thresholds lack [bgLow]. *)
Definition partial_status_json : json :=
  JObj [("settings",
         JObj [("units", JStr "mmol");
               ("thresholds",
                JObj [("bgHigh", JInt 13); ("bgTargetTop", JInt 10);
                      ("bgTargetBottom", JInt 4)])])].

(** The decimal [n / 10] as the parser reads it: the nearest binary64. *)
Definition tenths (n : Z) : json :=
  JFloat (Fp.div64 (Fp.of_Z64 n) (Fp.of_Z64 10)).

Definition ok_with (doc : json) : response :=
  {| httpCode := 200; body := Some doc |}.

Definition server_error : response :=
  {| httpCode := 500; body := None |}.

(** A pass of [loop] that finds the link up and gets these two answers. *)
Definition bench_tick (clock : Z) (status data : response)
    (dataFetchFailed statusFetchFailed : bool) : tick :=
  {| t_millis := clock; t_wifi := true; t_link := fun _ => true;
     t_ip := "192.168.1.20"; t_wifi_after := true;
     t_status_wifi := true; t_status := status;
     t_data_wifi := true; t_data := data; t_data_millis := clock + 400;
     t_bg_millis := clock + 500; t_ts_millis := clock + 510;
     t_dataFetchFailed := dataFetchFailed;
     t_statusFetchFailed := statusFetchFailed |}.

(** A pass that finds the link down and brings it up at the third poll. *)
Definition reconnect_tick (clock : Z) (status data : response) : tick :=
  {| t_millis := clock; t_wifi := false; t_link := fun n => (2 <=? n)%nat;
     t_ip := "192.168.1.20"; t_wifi_after := true;
     t_status_wifi := true; t_status := status;
     t_data_wifi := true; t_data := data; t_data_millis := clock + 3400;
     t_bg_millis := clock + 3500; t_ts_millis := clock + 3510;
     t_dataFetchFailed := false; t_statusFetchFailed := false |}.

(** A pass that finds the link down and does not get it up. *)
Definition offline_tick (clock : Z) : tick :=
  {| t_millis := clock; t_wifi := false; t_link := fun _ => false;
     t_ip := "0.0.0.0"; t_wifi_after := false;
     t_status_wifi := false; t_status := server_error;
     t_data_wifi := false; t_data := server_error; t_data_millis := clock + 21000;
     t_bg_millis := clock + 21000; t_ts_millis := clock + 21000;
     t_dataFetchFailed := false; t_statusFetchFailed := false |}.

(** The body of a data answer that carries a value and no time stamp. *)
Definition unstamped_json : json :=
  JObj [("bgnow", JObj [("sgvs", JArr [JObj [("mgdl", JInt 120)]])])].

(** * Start-up: [setup], [readConfig], [createTrendArrow] *)

(** ** More of the Arduino [String] *)

Module Text.

(** C's [isspace] in the default locale. *)
Definition isspace (c : ascii) : bool :=
  let n := N_of_ascii c in
  ((n =? 32) || ((9 <=? n) && (n <=? 13)))%N.

Fixpoint skip_spaces (s : string) : string :=
  match s with
  | EmptyString => EmptyString
  | String c r => if isspace c then skip_spaces r else s
  end.

(** The string without the white space at its end. *)
Fixpoint drop_trailing_spaces (s : string) : string :=
  match s with
  | EmptyString => EmptyString
  | String c r =>
      match drop_trailing_spaces r with
      | EmptyString => if isspace c then EmptyString else String c EmptyString
      | r' => String c r'
      end
  end.

(** [s.trim()] *)
Definition trim (s : string) : string := drop_trailing_spaces (skip_spaces s).

(** [s.endsWith("/")] *)
Fixpoint endsWithSlash (s : string) : bool :=
  match s with
  | EmptyString => false
  | String c EmptyString => Ascii.eqb c "/"
  | String _ r => endsWithSlash r
  end.

(** [s.remove(s.length() - 1)]: the string without its last character. *)
Fixpoint removeLast (s : string) : string :=
  match s with
  | EmptyString => EmptyString
  | String _ EmptyString => EmptyString
  | String c r => String c (removeLast r)
  end.

(** [while (s.endsWith("/")) s.remove(s.length() - 1);] with at most [budget]
    iterations; [String.length s] of them are enough. *)
Fixpoint strip_slashes_aux (budget : nat) (s : string) : string :=
  match budget with
  | O => s
  | S budget' =>
      if endsWithSlash s then strip_slashes_aux budget' (removeLast s) else s
  end.

Definition strip_slashes (s : string) : string :=
  strip_slashes_aux (String.length s) s.

(** A string of [n] slashes. *)
Fixpoint slashes (n : nat) : string :=
  match n with
  | O => EmptyString
  | S n' => String "/" (slashes n')
  end.

End Text.

(** ** Assignments to the configuration *)

Definition set_wifiSSID (x : string) (v : globals) : globals :=
  mkGlobals x (wifiPassword v) (nightscoutURL v) (accessToken v)
    (mmol v) (useLed v) (ledIntensity v) (lowUrgent v) (lowWarning v)
    (highWarning v) (highUrgent v) (lastDataFetchTime v)
    (lastStatusFetchTime v) (lastDisplayUpdateTime v) (lastUpdate v)
    (lastTimestamp v) (bg v) (delta v) (trend v).
Definition set_wifiPassword (x : string) (v : globals) : globals :=
  mkGlobals (wifiSSID v) x (nightscoutURL v) (accessToken v)
    (mmol v) (useLed v) (ledIntensity v) (lowUrgent v) (lowWarning v)
    (highWarning v) (highUrgent v) (lastDataFetchTime v)
    (lastStatusFetchTime v) (lastDisplayUpdateTime v) (lastUpdate v)
    (lastTimestamp v) (bg v) (delta v) (trend v).
Definition set_nightscoutURL (x : string) (v : globals) : globals :=
  mkGlobals (wifiSSID v) (wifiPassword v) x (accessToken v)
    (mmol v) (useLed v) (ledIntensity v) (lowUrgent v) (lowWarning v)
    (highWarning v) (highUrgent v) (lastDataFetchTime v)
    (lastStatusFetchTime v) (lastDisplayUpdateTime v) (lastUpdate v)
    (lastTimestamp v) (bg v) (delta v) (trend v).
Definition set_accessToken (x : string) (v : globals) : globals :=
  mkGlobals (wifiSSID v) (wifiPassword v) (nightscoutURL v) x
    (mmol v) (useLed v) (ledIntensity v) (lowUrgent v) (lowWarning v)
    (highWarning v) (highUrgent v) (lastDataFetchTime v)
    (lastStatusFetchTime v) (lastDisplayUpdateTime v) (lastUpdate v)
    (lastTimestamp v) (bg v) (delta v) (trend v).
Definition set_mmol (x : bool) (v : globals) : globals :=
  mkGlobals (wifiSSID v) (wifiPassword v) (nightscoutURL v) (accessToken v)
    x (useLed v) (ledIntensity v) (lowUrgent v) (lowWarning v)
    (highWarning v) (highUrgent v) (lastDataFetchTime v)
    (lastStatusFetchTime v) (lastDisplayUpdateTime v) (lastUpdate v)
    (lastTimestamp v) (bg v) (delta v) (trend v).
Definition set_useLed (x : bool) (v : globals) : globals :=
  mkGlobals (wifiSSID v) (wifiPassword v) (nightscoutURL v) (accessToken v)
    (mmol v) x (ledIntensity v) (lowUrgent v) (lowWarning v)
    (highWarning v) (highUrgent v) (lastDataFetchTime v)
    (lastStatusFetchTime v) (lastDisplayUpdateTime v) (lastUpdate v)
    (lastTimestamp v) (bg v) (delta v) (trend v).

(** ** Pins of the SD card *)

Definition SD_CLK_PIN : Z := 14.
Definition SD_CMD_PIN : Z := 15.
Definition SD_D0_PIN : Z := 16.
Definition SD_D1_PIN : Z := 18.
Definition SD_D2_PIN : Z := 17.
Definition SD_D3_PIN : Z := 21.

(** ** Output and state during start-up

    [setup] also drives the panel [tft], the arrow sprite [trd] and the SD
    card; what the functions of the sketch proper emit is wrapped in
    [Draw]. *)

Inductive boot_event : Type :=
| Draw (e : event)
| TftInit
| TftSetRotation (r : Z)
| TftFillScreen (c : color)
| TftSetTextColor (c : color)
| SdSetPins (clk cmd d0 d1 d2 d3 : Z)
| SdBegin
| SdOpen (path : string)
| FileClose
| SprCreateSprite (w h : Z)
| TrdCreateSprite (w h : Z)
| TrdFillSprite (c : color)
| TrdSetPivot (x y : Z)
| TrdDrawLine (x0 y0 x1 y1 : Z) (c : color).

Record boot_machine : Type := mkBoot {
  b_vars : globals;
  b_spr : sprite;
  b_out : list boot_event
}.

Definition B : Type -> Type := state boot_machine.

Definition b_emit (e : boot_event) : B unit :=
  mkState (fun b => (tt, mkBoot (b_vars b) (b_spr b) (b_out b ++ [e]))).

Definition b_assign (f : globals -> globals) : B unit :=
  mkState (fun b => (tt, mkBoot (f (b_vars b)) (b_spr b) (b_out b))).

(** A command of the sketch proper, run during start-up. *)
Definition lift {A : Type} (c : M A) : B A :=
  mkState (fun b =>
    let r := run c (mkMachine (b_vars b) (b_spr b) []) in
    (fst r, mkBoot (vars (snd r)) (spr (snd r))
              (b_out b ++ map Draw (out (snd r))))).

Definition b_when (cond : bool) (c : B unit) : B unit :=
  if cond then c else ret tt.

(** The globals as their initialisers leave them, before [readConfig]. *)
Definition initial_globals : globals := boot "" "" "" "" false false.

(** [spr] as constructed: default datum, pivot at the origin. *)
Definition initial_sprite : sprite :=
  {| textDatum := TL_DATUM; pivotX := 0; pivotY := 0 |}.

Definition reset : boot_machine :=
  {| b_vars := initial_globals; b_spr := initial_sprite; b_out := [] |}.

(** How [setup] ends: in one of its [while(1);], or by returning. *)
Inductive outcome : Type := Halted | Ready.

(** Everything [setup] reads: the results of [SD_MMC.setPins] and
    [SD_MMC.begin], and the file [/config.json]: [None] when it does not
    open, otherwise what [deserializeJson] makes of it ([None]: an error). *)
Record card : Type := mkCard {
  pins_ok : bool;
  mount_ok : bool;
  config_file : option (option json)
}.

Section Boot.

Context {board : Platform}.

(** [v.as<bool>()] for a value that is neither a boolean nor null is the
    library's business. *)
Variable other_as_bool : json -> bool.

Definition as_bool (v : json) : bool :=
  match v with
  | JBool b => b
  | JNull => false
  | _ => other_as_bool v
  end.

Definition readConfig (file : option (option json)) : B bool :=
  lift (showMessage "Reading config..." "" 500) ;;
  b_emit (SdOpen "/config.json") ;;
  match file with
  | None =>
      lift (showMessage "Config error" "Cannot open /config.json file" 3000) ;;
      ret false
  | Some parsed =>
      b_emit FileClose ;;
      match parsed with
      | None =>
          lift (showMessage "Config error" "JSON parse failed" 3000) ;;
          ret false
      | Some doc =>
          b_assign (set_wifiSSID (as_String serializeJson (member doc "wifi_ssid"))) ;;
          b_assign (set_wifiPassword (as_String serializeJson (member doc "wifi_password"))) ;;
          b_assign (set_nightscoutURL (as_String serializeJson (member doc "nightscout_url"))) ;;
          b_assign (set_accessToken (as_String serializeJson (member doc "access_token"))) ;;
          b_assign (set_mmol (containsKey doc "mmol" && as_bool (member doc "mmol"))) ;;
          b_assign (set_useLed (containsKey doc "use_led" && as_bool (member doc "use_led"))) ;;
          b_assign (fun v => set_nightscoutURL (Text.trim (nightscoutURL v)) v) ;;
          b_assign (fun v => set_nightscoutURL (Text.strip_slashes (nightscoutURL v)) v) ;;
          b_when (containsKey doc "rotate" && as_bool (member doc "rotate"))
            (b_emit (TftSetRotation 1)) ;;
          ret true
      end
  end.

Definition createTrendArrow : B unit :=
  b_emit (TrdCreateSprite 50 50) ;;
  b_emit (TrdFillSprite TFT_BLACK) ;;
  b_emit (TrdSetPivot 25 25) ;;
  b_emit (TrdDrawLine 24 1 24 50 TFT_WHITE) ;;
  b_emit (TrdDrawLine 25 1 25 50 TFT_WHITE) ;;
  b_emit (TrdDrawLine 26 1 26 50 TFT_WHITE) ;;
  b_emit (TrdDrawLine 24 0 19 20 TFT_WHITE) ;;
  b_emit (TrdDrawLine 25 0 20 20 TFT_WHITE) ;;
  b_emit (TrdDrawLine 26 0 21 20 TFT_WHITE) ;;
  b_emit (TrdDrawLine 24 0 29 20 TFT_WHITE) ;;
  b_emit (TrdDrawLine 25 0 30 20 TFT_WHITE) ;;
  b_emit (TrdDrawLine 26 0 31 20 TFT_WHITE).

Definition setup (sd : card) : B outcome :=
  b_emit TftInit ;;
  b_emit (TftSetRotation 3) ;;
  b_emit (TftFillScreen TFT_BLACK) ;;
  b_emit (TftSetTextColor TFT_WHITE) ;;
  b_emit (SdSetPins SD_CLK_PIN SD_CMD_PIN SD_D0_PIN SD_D1_PIN SD_D2_PIN SD_D3_PIN) ;;
  if negb (pins_ok sd) then
    lift (showMessage "SD MMC Error" "Pin settings failed!" 5000) ;;
    ret Halted
  else
    b_emit (SprCreateSprite tft_width tft_height) ;;
    lift (spr_setPivot 260 51) ;;
    b_emit SdBegin ;;
    if negb (mount_ok sd) then
      lift (showMessage "SD Card Error" "Initialization failed." 5000) ;;
      ret Halted
    else
      config_ok <- readConfig (config_file sd) ;;
      if negb config_ok then ret Halted
      else
        createTrendArrow ;;
        ret Ready.

End Boot.

(** The machine [loop] starts from when [setup] has returned. *)
Definition hand_over (b : boot_machine) : machine :=
  {| vars := b_vars b; spr := b_spr b; out := [] |}.

(** ** More vocabulary *)

(** Running a start-up command. *)
Definition b_result {A : Type} (c : B A) (b : boot_machine) : A := fst (runState c b).
Definition b_after {A : Type} (c : B A) (b : boot_machine) : boot_machine :=
  snd (runState c b).

(** The events a start-up command adds to the output. *)
Definition b_emitted {A : Type} (c : B A) (b : boot_machine) : list boot_event :=
  skipn (List.length (b_out b)) (b_out (b_after c b)).

Definition arrow_created (e : boot_event) : bool :=
  match e with
  | TrdCreateSprite _ _ => true
  | _ => false
  end.

Definition rotation_set (r : Z) (e : boot_event) : bool :=
  match e with
  | TftSetRotation r' => r' =? r
  | _ => false
  end.

(** The configuration file holds a parsed document. *)
Definition config_of (file : option (option json)) : option json :=
  match file with
  | Some (Some doc) => Some doc
  | _ => None
  end.


(** The configuration, which only [readConfig] writes. *)
Record config : Type := mkConfig {
  cfg_ssid : string;
  cfg_password : string;
  cfg_url : string;
  cfg_token : string;
  cfg_mmol : bool;
  cfg_useLed : bool;
  cfg_ledIntensity : Z
}.

Definition stored_config (v : globals) : config :=
  {| cfg_ssid := wifiSSID v; cfg_password := wifiPassword v;
     cfg_url := nightscoutURL v; cfg_token := accessToken v;
     cfg_mmol := mmol v; cfg_useLed := useLed v;
     cfg_ledIntensity := ledIntensity v |}.

(** A command only adds to the output. *)
Definition appends {A : Type} (c : M A) : Prop :=
  forall m, out (after c m) = (out m ++ emitted c m)%list.

(** Started with a given view of the globals, a command emits only events
    that pass a test. *)
Definition emits_only {X A : Type} (view : globals -> X) (x : X)
    (test : event -> bool) (c : M A) : Prop :=
  forall m, view (vars m) = x -> forallb test (emitted c m) = true.

Definition count_events (test : event -> bool) (l : list event) : nat :=
  List.length (filter test l).

Definition is_delay (ms : Z) (e : event) : bool :=
  match e with
  | Delay d => d =? ms
  | _ => false
  end.

Definition http_end (e : event) : bool :=
  match e with
  | HttpEnd => true
  | _ => false
  end.

Definition first_arrow (e : event) : bool :=
  match e with
  | TrdPushRotated _ None => true
  | _ => false
  end.

Definition push_sprite (e : event) : bool :=
  match e with
  | SprPushSprite _ _ => true
  | _ => false
  end.

Definition wifi_begin (e : event) : bool :=
  match e with
  | WiFiBegin _ _ => true
  | _ => false
  end.

(** The index of the first poll of [connectWiFi] that finds the link up,
    among the first [budget] polls from [retries] on. *)
Fixpoint first_up (link : nat -> bool) (budget retries : nat) : nat :=
  match budget with
  | O => retries
  | S budget' => if link retries then retries else first_up link budget' (S retries)
  end.

(** The integers from [lo] on, [n] of them. *)
Fixpoint Zseq (lo : Z) (n : nat) : list Z :=
  match n with
  | O => []
  | S n' => lo :: Zseq (lo + 1) n'
  end.

(** The three colours of [updateLED], as arguments of [setLEDColor]. *)
Inductive zone : Type := Red | Yellow | Green.

Definition zone_of (v : globals) : zone :=
  if Fp.lt (bg v) (Fp.of_Z32 (lowUrgent v)) || Fp.gt (bg v) (Fp.of_Z32 (highUrgent v))
  then Red
  else if Fp.lt (bg v) (Fp.of_Z32 (lowWarning v)) || Fp.gt (bg v) (Fp.of_Z32 (highWarning v))
  then Yellow
  else Green.

(** What [neopixelWrite] receives for a zone: [setLEDColor (r, g, b)] passes
    [g, r, b]. *)
Definition colour_write (z : zone) (v : globals) : event :=
  match z with
  | Red => NeopixelWrite PIN_NEOPIXEL 0 (ledIntensity v) 0
  | Yellow => NeopixelWrite PIN_NEOPIXEL (ledIntensity v) (ledIntensity v) 0
  | Green => NeopixelWrite PIN_NEOPIXEL (ledIntensity v) 0 0
  end.

Definition zone_write (v : globals) : event := colour_write (zone_of v) v.

(** The zone of a whole number of mg/dL, by integer comparison. *)
Definition int_zone (n : Z) (v : globals) : zone :=
  if (n <? lowUrgent v) || (n >? highUrgent v) then Red
  else if (n <? lowWarning v) || (n >? highWarning v) then Yellow
  else Green.

(** The whole numbers from 0 to 600 with their binary32 values. *)
Definition float_table : list (Z * spec_float) :=
  map (fun z => (z, Fp.of_Z32 z)) (Zseq 0 (Z.to_nat 601)).

(** The running state with the LED switched off. *)
Definition bench_dark : globals := set_useLed false bench_running.

(** A status answer in mg/dL. *)
Definition mgdl_status_json : json :=
  status_json "mg/dl" (JInt 240) (JInt 180) (JInt 70) (JInt 55).

(** What a value that is neither boolean nor null converts to, for concrete
    runs. *)
Definition bench_as_bool (v : json) : bool := true.

(** A configuration file for concrete runs. *)
Definition bench_config_json : json :=
  JObj [("wifi_ssid", JStr "home"); ("wifi_password", JStr "secret");
        ("nightscout_url", JStr "  https://ns.example.org//  ");
        ("access_token", JStr ""); ("use_led", JBool true)].

Definition bench_card : card :=
  {| pins_ok := true; mount_ok := true;
     config_file := Some (Some bench_config_json) |}.

(** What [fetchData] stores from an answer before it tests the value, and
    what it stores once the value has passed the test. *)
Section Answers.

Context {board : Platform}.

Definition stored_answer (doc : json) (v : globals) : globals :=
  set_trend
    (as_String serializeJson
       (member (element (member (member doc "bgnow") "sgvs") 0) "direction"))
    (set_delta (as_float parseNumber (member (member doc "delta") "mgdl"))
       (set_bg (mgdl_of doc) v)).

Definition accepted_answer (doc : json) (clock : Z) (v : globals) : globals :=
  set_lastUpdate (millis clock)
    (set_lastTimestamp (mills_of doc) (stored_answer doc v)).

(** The conditions under which [fetchData] gets as far as the timestamp. *)
Definition data_answer_ok (wifi : bool) (resp : response) : bool :=
  wifi && (httpCode resp =? HTTP_CODE_OK) &&
  match body resp with
  | Some doc => negb (no_readings doc)
  | None => false
  end.

End Answers.

(** The conditions under which [fetchStatus] returns true. *)
Definition status_answer_ok (wifi : bool) (resp : response) : bool :=
  wifi && (httpCode resp =? HTTP_CODE_OK) &&
  match body resp with Some _ => true | None => false end.

(** Tests on events: anything but a write to the LED, anything but a
    request. *)
Definition not_led (e : event) : bool := negb (led_write e).
Definition not_request (e : event) : bool := negb (http_request e).

(** The time spent in [delay], in milliseconds. *)
Fixpoint total_delay (l : list event) : Z :=
  match l with
  | [] => 0
  | Delay ms :: r => ms + total_delay r
  | _ :: r => total_delay r
  end.

(** * Properties *)

(** ** Machine integers *)

Lemma u64_small z : 0 <= z < 2 ^ 64 -> Int.u64 z = z.
Proof. intros H. unfold Int.u64. now apply Z.mod_small. Qed.

Lemma u32_range z : 0 <= Int.u32 z < 2 ^ 32.
Proof. unfold Int.u32. apply Z.mod_pos_bound. reflexivity. Qed.

(** ** Running a command *)

Lemma run_bind {A B : Type} (c : M A) (k : A -> M B) (m : machine) :
  run (bind c k) m = run (k (result c m)) (after c m).
Proof.
  unfold result, after, run. cbn.
  destruct (runState c m) as [a m']. reflexivity.
Qed.

Lemma after_bind {A B : Type} (c : M A) (k : A -> M B) (m : machine) :
  after (bind c k) m = after (k (result c m)) (after c m).
Proof. unfold after at 1 2. now rewrite run_bind. Qed.

Lemma result_bind {A B : Type} (c : M A) (k : A -> M B) (m : machine) :
  result (bind c k) m = result (k (result c m)) (after c m).
Proof. unfold result at 1 2. now rewrite run_bind. Qed.

Lemma after_ret {A : Type} (a : A) (m : machine) : after (ret a) m = m.
Proof. reflexivity. Qed.

Lemma result_ret {A : Type} (a : A) (m : machine) : result (ret a) m = a.
Proof. reflexivity. Qed.

Lemma vars_assign (f : globals -> globals) (m : machine) :
  vars (after (assign f) m) = f (vars m).
Proof. reflexivity. Qed.

Lemma after_when (b : bool) (c : M unit) (m : machine) :
  after (when b c) m = if b then after c m else m.
Proof. now destruct b. Qed.

Lemma keeps_vars_bind {A B : Type} (c : M A) (k : A -> M B) :
  keeps_vars c -> (forall a, keeps_vars (k a)) -> keeps_vars (bind c k).
Proof.
  intros Hc Hk m. rewrite after_bind, Hk. apply Hc.
Qed.

Lemma keeps_vars_ret {A : Type} (a : A) : keeps_vars (ret a : M A).
Proof. intros m. reflexivity. Qed.

Lemma keeps_vars_emit (e : event) : keeps_vars (emit e).
Proof. intros m. reflexivity. Qed.

Lemma keeps_vars_read : keeps_vars read.
Proof. intros m. reflexivity. Qed.

Lemma keeps_vars_read_spr : keeps_vars read_spr.
Proof. intros m. reflexivity. Qed.

Lemma keeps_vars_when (b : bool) (c : M unit) :
  keeps_vars c -> keeps_vars (when b c).
Proof. intros Hc. destruct b; [exact Hc | apply keeps_vars_ret]. Qed.

Lemma keeps_vars_if {A : Type} (b : bool) (c1 c2 : M A) :
  keeps_vars c1 -> keeps_vars c2 -> keeps_vars (if b then c1 else c2).
Proof. now destruct b. Qed.

Lemma keeps_vars_setTextDatum (d : datum) : keeps_vars (spr_setTextDatum d).
Proof. intros m. reflexivity. Qed.

Lemma keeps_vars_setPivot (x y : Z) : keeps_vars (spr_setPivot x y).
Proof. intros m. reflexivity. Qed.

Create HintDb silent discriminated.
#[local] Hint Resolve keeps_vars_ret keeps_vars_emit keeps_vars_read
  keeps_vars_read_spr keeps_vars_when keeps_vars_if keeps_vars_setTextDatum
  keeps_vars_setPivot : silent.

Ltac silent :=
  repeat first
    [ apply keeps_vars_bind; [ | intros ? ]
    | apply keeps_vars_when
    | apply keeps_vars_if
    | solve [ auto with silent ] ].

Section Frames.

Context {board : Platform}.

Lemma keeps_vars_showMessage (l1 l2 : string) (d : Z) :
  keeps_vars (showMessage l1 l2 d).
Proof. unfold showMessage. silent. Qed.

Lemma keeps_vars_setLEDColor (r g b : Z) : keeps_vars (setLEDColor r g b).
Proof. unfold setLEDColor. silent. Qed.

Lemma keeps_vars_await_link (link : nat -> bool) (budget retries : nat) :
  keeps_vars (await_link link budget retries).
Proof.
  revert retries. induction budget as [| budget IH]; intros retries; cbn [await_link].
  - silent.
  - destruct (link retries); silent.
Qed.

Lemma keeps_vars_connectWiFi (link : nat -> bool) (ip : string) :
  keeps_vars (connectWiFi link ip).
Proof.
  unfold connectWiFi. silent;
    auto using keeps_vars_showMessage, keeps_vars_setLEDColor, keeps_vars_await_link.
Qed.

Lemma keeps_vars_updateBGValue (clock : Z) : keeps_vars (updateBGValue clock).
Proof. unfold updateBGValue. silent. Qed.

Lemma keeps_vars_updateDelta : keeps_vars updateDelta.
Proof. unfold updateDelta. silent. Qed.

Lemma keeps_vars_updateTimestamp (clock : Z) : keeps_vars (updateTimestamp clock).
Proof. unfold updateTimestamp. silent. Qed.

Lemma keeps_vars_updateDisplay (c1 c2 : Z) : keeps_vars (updateDisplay c1 c2).
Proof.
  unfold updateDisplay. silent;
    auto using keeps_vars_showMessage, keeps_vars_updateBGValue,
      keeps_vars_updateDelta, keeps_vars_updateTimestamp.
Qed.

Lemma keeps_vars_updateLED : keeps_vars updateLED.
Proof.
  unfold updateLED. silent; auto using keeps_vars_setLEDColor.
Qed.

End Frames.

Lemma keeps_preserves {X A : Type} (view : globals -> X) (c : M A) :
  keeps_vars c -> preserves view c.
Proof. intros H m. now rewrite H. Qed.

Lemma preserves_bind {X A B : Type} (view : globals -> X) (c : M A) (k : A -> M B) :
  preserves view c -> (forall a, preserves view (k a)) -> preserves view (bind c k).
Proof. intros Hc Hk m. rewrite after_bind, Hk. apply Hc. Qed.

Lemma preserves_assign {X : Type} (view : globals -> X) (f : globals -> globals) :
  (forall v, view (f v) = view v) -> preserves view (assign f).
Proof. intros H m. rewrite vars_assign. apply H. Qed.

Lemma preserves_when {X : Type} (view : globals -> X) (b : bool) (c : M unit) :
  preserves view c -> preserves view (when b c).
Proof. intros H. destruct b; [exact H | intros m; reflexivity]. Qed.

Lemma preserves_if {X A : Type} (view : globals -> X) (b : bool) (c1 c2 : M A) :
  preserves view c1 -> preserves view c2 -> preserves view (if b then c1 else c2).
Proof. now destruct b. Qed.

Ltac frame :=
  repeat first
    [ apply preserves_bind; [ | intros ? ]
    | apply preserves_when
    | apply preserves_if
    | apply preserves_assign; intros ?; reflexivity
    | apply keeps_preserves; solve [ auto with silent ] ].

Section FetchFrames.

Context {board : Platform}.

#[local] Hint Resolve keeps_vars_showMessage : silent.

(** [fetchStatus] writes the four thresholds and nothing else. *)
Lemma fetchStatus_preserves_reading (wifi : bool) (resp : response) :
  preserves stored_reading (fetchStatus wifi resp).
Proof.
  unfold fetchStatus. destruct wifi; cbn [negb]; [ | frame ].
  destruct (body resp) as [doc |]; frame.
Qed.

Lemma fetchStatus_preserves_timers (wifi : bool) (resp : response) :
  preserves stored_timers (fetchStatus wifi resp).
Proof.
  unfold fetchStatus. destruct wifi; cbn [negb]; [ | frame ].
  destruct (body resp) as [doc |]; frame.
Qed.

(** [fetchData] writes the reading and nothing else. *)
Lemma fetchData_preserves_thresholds (wifi : bool) (resp : response) (clock : Z) :
  preserves stored_thresholds (fetchData wifi resp clock).
Proof.
  unfold fetchData. destruct wifi; cbn [negb]; [ | frame ].
  destruct (body resp) as [doc |]; frame.
Qed.

Lemma fetchData_preserves_timers (wifi : bool) (resp : response) (clock : Z) :
  preserves stored_timers (fetchData wifi resp clock).
Proof.
  unfold fetchData. destruct wifi; cbn [negb]; [ | frame ].
  destruct (body resp) as [doc |]; frame.
Qed.

End FetchFrames.

Lemma after_read_bind {B : Type} (k : globals -> M B) (m : machine) :
  after (bind read k) m = after (k (vars m)) m.
Proof. now rewrite after_bind. Qed.

Lemma result_read_bind {B : Type} (k : globals -> M B) (m : machine) :
  result (bind read k) m = result (k (vars m)) m.
Proof. now rewrite result_bind. Qed.

Lemma preserved {X A : Type} (view : globals -> X) (c : M A) (m : machine) :
  preserves view c -> view (vars (after c m)) = view (vars m).
Proof. intros H. apply H. Qed.

(** ** The data poll *)

Section DataPoll.

Context {board : Platform}.

#[local] Hint Resolve keeps_vars_showMessage : silent.

(** C4.  A data answer whose [mills] equals the stored [lastTimestamp]
    leaves the stored reading (value, delta, trend, source timestamp and
    acquisition time) as it was, whatever delta and trend the answer
    carries. *)
Theorem fetchData_same_timestamp_keeps_reading
    (wifi : bool) (resp : response) (doc : json) (clock : Z) (m : machine) :
  body resp = Some doc ->
  mills_of doc = lastTimestamp (vars m) ->
  stored_reading (vars (after (fetchData wifi resp clock) m)) =
  stored_reading (vars m).
Proof.
  intros Hbody Hsame. unfold fetchData.
  destruct wifi; cbn [negb]; [ | reflexivity ].
  rewrite after_read_bind, Hbody. fold (mills_of doc).
  rewrite Hsame, Z.eqb_refl. cbn [negb when].
  apply preserved.
  destruct (httpCode resp =? HTTP_CODE_OK); [ destruct (no_readings doc) | ]; frame.
Qed.

End DataPoll.

(** ** The output of a command *)

Lemma skipn_length_app {A : Type} (l k : list A) :
  skipn (List.length l) (l ++ k)%list = k.
Proof. induction l as [| a l IH]; [reflexivity | exact IH]. Qed.

(** ** Before the first reading *)

Section Waiting.

Context {board : Platform}.

(** C10.  While [lastTimestamp] still holds 0, [updateDisplay] draws the
    message "Waiting for data..." and nothing of a value or arrow frame,
    and [updateLED] writes no LED colour. *)
Theorem waiting_for_data (bg_clock ts_clock : Z) (m : machine) :
  lastTimestamp (vars m) = 0 ->
  emitted (updateDisplay bg_clock ts_clock) m =
    [ SprFillSprite TFT_BLACK;
      SprFillSprite TFT_BLACK; SprSetTextDatum MC_DATUM; SprSetTextFont FONT4;
      SprDrawString "Waiting for data..." (tft_width ÷ 2) (tft_height ÷ 2 - 10) GFXFF;
      SprPushSprite 0 0; Delay 1000 ] /\
  emitted updateLED m = [].
Proof.
  intros Hzero. destruct m as [v s o]. cbn [vars] in Hzero.
  split; unfold emitted, after, run, updateLED, updateDisplay, showMessage;
    cbn -[Z.eqb Z.quot Z.sub skipn]; rewrite Hzero; cbn -[Z.quot Z.sub skipn].
  - rewrite <- !app_assoc. apply skipn_length_app.
  - rewrite <- (app_nil_r o) at 2. apply skipn_length_app.
Qed.

End Waiting.

(** ** The status poll *)

Section StatusPoll.

Context {board : Platform}.

#[local] Hint Resolve keeps_vars_showMessage : silent.

Lemma missing_key_not_all (thresholds : json) :
  containsKey thresholds "bgHigh" = false \/
  containsKey thresholds "bgTargetTop" = false \/
  containsKey thresholds "bgTargetBottom" = false \/
  containsKey thresholds "bgLow" = false ->
  has_all_thresholds thresholds = false.
Proof.
  unfold has_all_thresholds.
  intros [H | [H | [H | H]]]; rewrite H;
    repeat first [ rewrite andb_false_r | rewrite andb_false_l ]; reflexivity.
Qed.

(** C6.  A status answer that lacks at least one of [bgHigh],
    [bgTargetTop], [bgTargetBottom], [bgLow] leaves all four stored
    thresholds as they were; the poll still reports success whenever the
    link is up and the HTTP code is 200. *)
Theorem fetchStatus_partial_thresholds_ignored
    (wifi : bool) (resp : response) (doc : json) (m : machine) :
  body resp = Some doc ->
  containsKey (thresholds_of doc) "bgHigh" = false \/
  containsKey (thresholds_of doc) "bgTargetTop" = false \/
  containsKey (thresholds_of doc) "bgTargetBottom" = false \/
  containsKey (thresholds_of doc) "bgLow" = false ->
  stored_thresholds (vars (after (fetchStatus wifi resp) m)) =
    stored_thresholds (vars m) /\
  result (fetchStatus wifi resp) m = wifi && (httpCode resp =? HTTP_CODE_OK).
Proof.
  intros Hbody Hmissing. apply missing_key_not_all in Hmissing.
  unfold thresholds_of in Hmissing. unfold fetchStatus.
  destruct wifi; cbn [negb andb]; [ | split; reflexivity ].
  rewrite after_read_bind, result_read_bind, Hbody.
  cbn zeta. rewrite Hmissing. cbn [when].
  split.
  - apply preserved.
    destruct (httpCode resp =? HTTP_CODE_OK); frame.
  - rewrite result_bind.
    destruct (httpCode resp =? HTTP_CODE_OK);
      repeat (rewrite result_bind); reflexivity.
Qed.

End StatusPoll.

(** ** What the data poll reports *)

Section DataResult.

Context {board : Platform}.

Lemma fetchData_result (wifi : bool) (resp : response) (clock : Z) (m : machine) :
  result (fetchData wifi resp clock) m =
    wifi && (httpCode resp =? HTTP_CODE_OK) &&
    match body resp with
    | Some doc => negb (no_readings doc)
    | None => false
    end.
Proof.
  unfold fetchData. destruct wifi; cbn [negb andb]; [ | reflexivity ].
  rewrite result_read_bind, result_bind.
  destruct (httpCode resp =? HTTP_CODE_OK); cbn [andb].
  - destruct (body resp) as [doc |].
    + destruct (no_readings doc); cbn [negb];
        repeat (rewrite result_bind); reflexivity.
    + repeat (rewrite result_bind); reflexivity.
  - repeat (rewrite result_bind); reflexivity.
Qed.

Lemma no_readings_false (doc : json) :
  no_readings doc = false <->
  containsKey doc "bgnow" = true /\
  is_array (member (member doc "bgnow") "sgvs") = true /\
  size (member (member doc "bgnow") "sgvs") <> 0.
Proof.
  unfold no_readings. rewrite !orb_false_iff, !negb_false_iff, Z.eqb_neq.
  tauto.
Qed.

Lemma poll_data_due (t : tick) (now : Z) (m : machine) :
  data_due now (vars m) = true ->
  let ok := result (fetchData (t_data_wifi t) (t_data t) (t_data_millis t)) m in
  result (poll_data t now) m = negb ok /\
  lastDataFetchTime (vars (after (poll_data t now) m)) =
    if ok then now else lastDataFetchTime (vars m).
Proof.
  intros Hdue ok. unfold poll_data.
  rewrite result_read_bind, after_read_bind.
  fold (data_due now (vars m)). rewrite Hdue.
  rewrite result_bind, after_bind. fold ok.
  rewrite result_bind, after_bind, after_ret, result_ret, after_when.
  split; [ reflexivity | ].
  destruct ok; cbn [negb].
  - rewrite vars_assign. reflexivity.
  - change (dataTimer (stored_timers
              (vars (after (fetchData (t_data_wifi t) (t_data t) (t_data_millis t)) m))) =
            dataTimer (stored_timers (vars m))).
    now rewrite fetchData_preserves_timers.
Qed.

Lemma poll_data_skipped (t : tick) (now : Z) (m : machine) :
  data_due now (vars m) = false ->
  result (poll_data t now) m = t_dataFetchFailed t /\
  after (poll_data t now) m = m.
Proof.
  intros Hdue. unfold poll_data.
  rewrite result_read_bind, after_read_bind.
  fold (data_due now (vars m)). rewrite Hdue. split; reflexivity.
Qed.

End DataResult.

(** ** The scheduler *)

Section Scheduler.

Context {board : Platform}.

Lemma poll_status_due (t : tick) (now : Z) (m : machine) :
  status_due now (vars m) = true ->
  let ok := result (fetchStatus (t_status_wifi t) (t_status t)) m in
  result (poll_status t now) m = negb ok /\
  lastStatusFetchTime (vars (after (poll_status t now) m)) =
    if ok then now else lastStatusFetchTime (vars m).
Proof.
  intros Hdue ok. unfold poll_status.
  rewrite result_read_bind, after_read_bind.
  fold (status_due now (vars m)). rewrite Hdue.
  rewrite result_bind, after_bind. fold ok.
  rewrite result_bind, after_bind, after_ret, result_ret, after_when.
  split; [ reflexivity | ].
  destruct ok; cbn [negb].
  - rewrite vars_assign. reflexivity.
  - change (statusTimer (stored_timers
              (vars (after (fetchStatus (t_status_wifi t) (t_status t)) m))) =
            statusTimer (stored_timers (vars m))).
    now rewrite fetchStatus_preserves_timers.
Qed.

Lemma poll_status_skipped (t : tick) (now : Z) (m : machine) :
  status_due now (vars m) = false ->
  result (poll_status t now) m = t_statusFetchFailed t /\
  after (poll_status t now) m = m.
Proof.
  intros Hdue. unfold poll_status.
  rewrite result_read_bind, after_read_bind.
  fold (status_due now (vars m)). rewrite Hdue. split; reflexivity.
Qed.

(** The refresh runs, and moves its timer, exactly under its condition. *)
Lemma refresh_vars (t : tick) (now : Z) (dataFetchFailed statusFetchFailed : bool)
    (m : machine) :
  vars (after (refresh t now dataFetchFailed statusFetchFailed) m) =
    if display_due now (vars m) && negb dataFetchFailed && negb statusFetchFailed
    then set_lastDisplayUpdateTime now (vars m)
    else vars m.
Proof.
  unfold refresh. rewrite after_read_bind. fold (display_due now (vars m)).
  rewrite after_when.
  destruct (display_due now (vars m) && negb dataFetchFailed && negb statusFetchFailed);
    [ | reflexivity ].
  rewrite !after_bind, vars_assign.
  now rewrite keeps_vars_updateLED, keeps_vars_updateDisplay.
Qed.

(** A pass in which neither poll is due reads both flags as it found them. *)
Lemma loop_idle_pass (t : tick) (m : machine) :
  t_wifi t = true ->
  status_due (millis (t_millis t)) (vars m) = false ->
  data_due (millis (t_millis t)) (vars m) = false ->
  after (loop t) m =
    after (refresh t (millis (t_millis t)) (t_dataFetchFailed t) (t_statusFetchFailed t)) m.
Proof.
  intros Hwifi Hstatus Hdata. unfold loop. rewrite Hwifi. cbn [negb].
  destruct (poll_status_skipped t _ m Hstatus) as [Hs1 Hs2].
  destruct (poll_data_skipped t _ m Hdata) as [Hd1 Hd2].
  rewrite after_bind, Hs1, Hs2, after_bind, Hd1, Hd2. reflexivity.
Qed.

(** The pass that has just brought the link up moves both poll timers,
    whatever the two polls returned. *)
Lemma loop_reconnect_timers (t : tick) (m : machine) :
  t_wifi t = false ->
  t_wifi_after t = true ->
  lastStatusFetchTime (vars (after (loop t) m)) = millis (t_millis t) /\
  lastDataFetchTime (vars (after (loop t) m)) = millis (t_millis t).
Proof.
  intros Hdown Hup. unfold loop. rewrite Hdown. cbn [negb].
  rewrite after_bind, Hup. cbn [when].
  rewrite !after_bind, !vars_assign. split; reflexivity.
Qed.

End Scheduler.

(** ** A successful data poll *)

Section DataSuccess.

Context {board : Platform}.

(** C9.  [fetchData] returns true exactly when the link is up, the HTTP
    code is 200, the body parses and [bgnow.sgvs] is a non-empty array,
    whatever timestamp and value the answer carries; and when the data poll
    is due, a true return clears [dataFetchFailed], moves
    [lastDataFetchTime] to the current time, and lets a due refresh of the
    display run if the status flag is clear as well. *)
Theorem fetchData_reports_success (t : tick) (now : Z) (m : machine) :
  let ok := result (fetchData (t_data_wifi t) (t_data t) (t_data_millis t)) m in
  (ok = true <->
     t_data_wifi t = true /\
     httpCode (t_data t) = HTTP_CODE_OK /\
     exists doc, body (t_data t) = Some doc /\
       containsKey doc "bgnow" = true /\
       is_array (member (member doc "bgnow") "sgvs") = true /\
       size (member (member doc "bgnow") "sgvs") <> 0) /\
  (data_due now (vars m) = true -> ok = true ->
     result (poll_data t now) m = false /\
     lastDataFetchTime (vars (after (poll_data t now) m)) = now /\
     forall m', display_due now (vars m') = true ->
       lastDisplayUpdateTime
         (vars (after (refresh t now (result (poll_data t now) m) false) m')) = now).
Proof.
  intros ok. split.
  - unfold ok. rewrite fetchData_result, !andb_true_iff, Z.eqb_eq. split.
    + intros [[Hwifi Hcode] Hbody]. repeat split; try assumption.
      destruct (body (t_data t)) as [doc |]; [ | discriminate ].
      exists doc. split; [ reflexivity | ].
      apply no_readings_false. now apply negb_true_iff.
    + intros (Hwifi & Hcode & doc & Hbody & Hdoc).
      repeat split; try assumption.
      rewrite Hbody. apply negb_true_iff. now apply no_readings_false.
  - intros Hdue Hok. destruct (poll_data_due t now m Hdue) as [Hres Htimer].
    fold ok in Hres, Htimer. rewrite Hok in Hres, Htimer.
    split; [ exact Hres | ]. split; [ exact Htimer | ].
    intros m' Hdisplay. rewrite Hres, refresh_vars, Hdisplay. reflexivity.
Qed.

End DataSuccess.

(** ** A rejected value *)

Section RejectedValue.

Context {board : Platform}.

(** What [fetchData] does with a new timestamp and a value that fails
    [bg > 30.0]: the timestamp and the acquisition time stay, the value,
    the delta and the trend of the answer are stored. *)
Lemma fetchData_rejected_value
    (resp : response) (doc : json) (clock : Z) (m : machine) :
  httpCode resp = HTTP_CODE_OK ->
  body resp = Some doc ->
  no_readings doc = false ->
  mills_of doc <> lastTimestamp (vars m) ->
  Fp.gt (Fp.to_double (mgdl_of doc)) Fp.d30 = false ->
  result (fetchData true resp clock) m = true /\
  vars (after (fetchData true resp clock) m) =
    set_trend
      (as_String serializeJson
         (member (element (member (member doc "bgnow") "sgvs") 0) "direction"))
      (set_delta (as_float parseNumber (member (member doc "delta") "mgdl"))
         (set_bg (mgdl_of doc) (vars m))).
Proof.
  intros Hcode Hbody Hsome Hnew Hlow. split.
  - rewrite fetchData_result, Hcode, Hbody, Hsome. reflexivity.
  - apply Z.eqb_neq in Hnew. unfold mgdl_of in Hlow.
    unfold fetchData. cbn [negb].
    rewrite after_read_bind, Hcode, Hbody, Hsome. fold (mills_of doc).
    rewrite Hnew. unfold after, run. cbn -[Fp.gt Fp.to_double Fp.d30].
    rewrite Hlow. reflexivity.
Qed.

(** C1, at a failing input.  The stored reading is 120 mg/dL, delta -2,
    "Flat", stamped 1000, accepted at 5000.  The answer is stamped 2000 and
    carries 25 mg/dL, delta 3, "SingleUp".  [fetchData] returns true and
    keeps the timestamp and the acquisition time, but the stored value,
    delta and trend are now those of the rejected answer. *)
Theorem fetchData_rejected_value_is_stored :
  let m := power_on bench_reading in
  let doc := properties_json 2000 (JInt 25) "SingleUp" (JInt 3) in
  let m' := after (fetchData true (ok_with doc) 9000) m in
  mills_of doc = 2000 /\
  Fp.gt (Fp.to_double (mgdl_of doc)) Fp.d30 = false /\
  stored_reading (vars m) =
    {| value := Fp.of_Z32 120; change := Fp.of_Z32 (-2); trendCode := "Flat";
       sourceTimestamp := 1000; acquiredAt := 5000 |} /\
  stored_reading (vars m') =
    {| value := Fp.of_Z32 25; change := Fp.of_Z32 3; trendCode := "SingleUp";
       sourceTimestamp := 1000; acquiredAt := 5000 |} /\
  stored_reading (vars m') <> stored_reading (vars m).
Proof.
  cbv zeta. repeat split; try (vm_compute; reflexivity).
  vm_compute. discriminate.
Qed.

End RejectedValue.

(** ** Thresholds in mmol/L *)

Section MmolThresholds.

Context {board : Platform}.

(** What [fetchStatus] stores from a complete answer in mmol/L: each field
    is first read as an [int], and that integer is multiplied by 18.0. *)
Lemma fetchStatus_mmol_thresholds (resp : response) (doc : json) (m : machine) :
  httpCode resp = HTTP_CODE_OK ->
  body resp = Some doc ->
  containsKey doc "settings" = true ->
  containsKey (member doc "settings") "thresholds" = true ->
  has_all_thresholds (thresholds_of doc) = true ->
  units_are_mmol (units_of doc) = true ->
  stored_thresholds (vars (after (fetchStatus true resp) m)) =
    {| th_lowUrgent :=
         mmol_to_mgdl (as_int parseNumber (member (thresholds_of doc) "bgLow"));
       th_lowWarning :=
         mmol_to_mgdl (as_int parseNumber (member (thresholds_of doc) "bgTargetBottom"));
       th_highWarning :=
         mmol_to_mgdl (as_int parseNumber (member (thresholds_of doc) "bgTargetTop"));
       th_highUrgent :=
         mmol_to_mgdl (as_int parseNumber (member (thresholds_of doc) "bgHigh")) |}.
Proof.
  intros Hcode Hbody Hsettings Hthresholds Hall Hunits.
  unfold thresholds_of in *. unfold units_of in Hunits.
  unfold fetchStatus. cbn [negb].
  rewrite after_read_bind, Hcode, Hbody, Hsettings, Hthresholds.
  cbn zeta. rewrite Hall, Hunits. reflexivity.
Qed.

(** C5, at a failing input.  The answer is in mmol/L with [bgHigh] 13.3,
    [bgTargetTop] 10.0, [bgTargetBottom] 3.9 and [bgLow] 3.0.  Eighteen
    times these values, rounded, is 239, 180, 70 and 54; the sketch stores
    234, 180, 54 and 54. *)
Theorem fetchStatus_mmol_truncates_before_converting :
  let doc := status_json "mmol" (tenths 133) (tenths 100) (tenths 39) (tenths 30) in
  let raw k :=
    match member (thresholds_of doc) k with JFloat d => d | _ => S754_nan end in
  let m' := after (fetchStatus true (ok_with doc)) (power_on bench_reading) in
  has_all_thresholds (thresholds_of doc) = true /\
  units_are_mmol (units_of doc) = true /\
  map (fun k => Fp.round_half_away (Fp.mul64 (raw k) Fp.d18))
    ["bgHigh"; "bgTargetTop"; "bgTargetBottom"; "bgLow"] =
    [Some 239; Some 180; Some 70; Some 54] /\
  [highUrgent (vars m'); highWarning (vars m'); lowWarning (vars m'); lowUrgent (vars m')] =
    [234; 180; 54; 54].
Proof.
  cbv zeta. repeat split; vm_compute; reflexivity.
Qed.

End MmolThresholds.

(** ** The presenter *)

Section Presenter.

Context {board : Platform}.

Lemma rotation_recognized (code : string) :
  (getTrendArrowRotation code >=? 0) = recognized code.
Proof.
  unfold getTrendArrowRotation, recognized, trend_codes. cbn [existsb].
  repeat (destruct (Str.equalsIgnoreCase code _); [ reflexivity | ]).
  reflexivity.
Qed.

Lemma rotation_values (code : string) :
  In (getTrendArrowRotation code) [-1; 0; 45; 90; 135; 180].
Proof.
  unfold getTrendArrowRotation.
  repeat (destruct (Str.equalsIgnoreCase code _); [ cbn; tauto | ]).
  cbn; tauto.
Qed.

(** What [updateBGValue] draws: the strike-through lines appear exactly
    when [isStale] holds. *)
Lemma updateBGValue_strikes_iff_stale (clock : Z) (m : machine) :
  existsb strikethrough (emitted (updateBGValue clock) m) = isStale clock (vars m).
Proof.
  destruct m as [v s o].
  unfold emitted, after, run, updateBGValue. cbn -[isStale skipn Z.quot Z.sub Z.add].
  destruct (isStale clock v); cbn -[skipn Z.quot Z.sub Z.add];
    rewrite <- !app_assoc, skipn_length_app; reflexivity.
Qed.

(** The second arrow of a frame. *)
Lemma updateDisplay_second_arrow (bg_clock ts_clock : Z) (m : machine) :
  existsb second_arrow (emitted (updateDisplay bg_clock ts_clock) m) =
    negb (lastTimestamp (vars m) =? 0) &&
    recognized (trend (vars m)) && isDoubleTrendArrow (trend (vars m)).
Proof.
  destruct m as [v s o]. rewrite <- rotation_recognized.
  unfold emitted, after, run, updateDisplay, showMessage, updateBGValue,
    updateDelta, updateTimestamp.
  cbn -[isStale skipn Z.quot Z.sub Z.add Z.eqb Z.geb Z.gtb getTrendArrowRotation
        isDoubleTrendArrow getBGValue Fp.gt].
  destruct (lastTimestamp v =? 0);
    cbn -[isStale skipn Z.quot Z.sub Z.add Z.eqb Z.geb Z.gtb getTrendArrowRotation
          isDoubleTrendArrow getBGValue Fp.gt].
  - rewrite <- !app_assoc, skipn_length_app. reflexivity.
  - destruct (isStale bg_clock v), (getTrendArrowRotation (trend v) >=? 0),
      (isDoubleTrendArrow (trend v));
      cbn -[skipn Z.quot Z.sub Z.add getTrendArrowRotation getBGValue Fp.gt Z.gtb];
      rewrite <- !app_assoc, skipn_length_app; reflexivity.
Qed.

(** The strike-through of a frame: [updateDisplay] reaches [updateBGValue],
    and with it the staleness test, only past its guard
    [lastTimestamp == 0]. *)
Lemma updateDisplay_strikes (bg_clock ts_clock : Z) (m : machine) :
  existsb strikethrough (emitted (updateDisplay bg_clock ts_clock) m) =
    negb (lastTimestamp (vars m) =? 0) && isStale bg_clock (vars m).
Proof.
  destruct m as [v s o].
  unfold emitted, after, run, updateDisplay, showMessage, updateBGValue,
    updateDelta, updateTimestamp.
  cbn -[isStale skipn Z.quot Z.sub Z.add Z.eqb Z.geb Z.gtb getTrendArrowRotation
        isDoubleTrendArrow getBGValue Fp.gt].
  destruct (lastTimestamp v =? 0);
    cbn -[isStale skipn Z.quot Z.sub Z.add Z.eqb Z.geb Z.gtb getTrendArrowRotation
          isDoubleTrendArrow getBGValue Fp.gt].
  - rewrite <- !app_assoc, skipn_length_app. reflexivity.
  - destruct (isStale bg_clock v), (getTrendArrowRotation (trend v) >=? 0),
      (isDoubleTrendArrow (trend v));
      cbn -[skipn Z.quot Z.sub Z.add getTrendArrowRotation getBGValue Fp.gt Z.gtb];
      rewrite <- !app_assoc, skipn_length_app; reflexivity.
Qed.

End Presenter.

(** ** Staleness *)

Section Staleness.

Context {board : Platform}.

(** C7, as the sketch has it.  [updateBGValue] strikes the value through
    exactly when its test [isStale] holds, and a frame of [updateDisplay]
    has the strike-through exactly when a reading was acquired
    ([lastTimestamp] is not 0) and the test holds.  For a reading whose
    acquisition time [lastUpdate] is not later than the clock, the test
    holds exactly when more than 13 minutes have passed since, and not yet
    at 13 minutes sharp.  While no reading was ever acquired
    ([lastTimestamp] still 0) no frame has the strike-through, whatever the
    clock; and the test alone, with [lastUpdate] still 0, holds only once
    the clock itself has passed 13 minutes. *)
Theorem isStale_exact (clock ts_clock : Z) (m : machine) :
  existsb strikethrough (emitted (updateBGValue clock) m) = isStale clock (vars m) /\
  existsb strikethrough (emitted (updateDisplay clock ts_clock) m) =
    negb (lastTimestamp (vars m) =? 0) && isStale clock (vars m) /\
  (0 <= lastUpdate (vars m) <= millis clock ->
     (isStale clock (vars m) = true <->
        millis clock - lastUpdate (vars m) > 13 * 60 * 1000)) /\
  (lastTimestamp (vars m) = 0 ->
     existsb strikethrough (emitted (updateDisplay clock ts_clock) m) = false) /\
  (lastUpdate (vars m) = 0 ->
     (isStale clock (vars m) = true <-> millis clock > 13 * 60 * 1000)).
Proof.
  assert (Hclock : 0 <= millis clock < 4294967296) by apply u32_range.
  assert (Hsmall : forall d, 0 <= d < 4294967296 -> u64 d = d).
  { intros d Hd. apply u64_small.
    change (2 ^ 64) with 18446744073709551616. lia. }
  assert (Hgt : forall a b, (a >? b) = true <-> a > b).
  { intros a b. rewrite Z.gtb_lt. lia. }
  split; [ | split; [ | split; [ | split ] ] ].
  - apply updateBGValue_strikes_iff_stale.
  - apply updateDisplay_strikes.
  - intros Hrange. unfold isStale. rewrite Hgt, Hsmall by lia. reflexivity.
  - intros Hnone. rewrite updateDisplay_strikes, Hnone. reflexivity.
  - intros Hzero. unfold isStale.
    rewrite Hgt, Hzero, Z.sub_0_r, Hsmall by lia. reflexivity.
Qed.

End Staleness.

(** ** Trend arrows *)

Section TrendArrows.

Context {board : Platform}.

(** C8, as the sketch has it.  "Flat" turns the arrow by 90 degrees,
    "FortyFiveUp" by 45, "SingleDown" by 180; a code that is none of the
    seven known ones gives -1, a known one gives one of 0, 45, 90, 135,
    180; and a frame carries the second, offset arrow exactly when the
    code is a known one and starts with "Double". *)
Theorem trend_arrow_mapping (code : string) (bg_clock ts_clock : Z) (m : machine) :
  getTrendArrowRotation "Flat" = 90 /\
  getTrendArrowRotation "FortyFiveUp" = 45 /\
  getTrendArrowRotation "SingleDown" = 180 /\
  (recognized code = false <-> getTrendArrowRotation code = -1) /\
  (recognized code = true <->
     In (getTrendArrowRotation code) [0; 45; 90; 135; 180]) /\
  existsb second_arrow (emitted (updateDisplay bg_clock ts_clock) m) =
    negb (lastTimestamp (vars m) =? 0) &&
    recognized (trend (vars m)) && Str.startsWith (trend (vars m)) "Double".
Proof.
  split; [ reflexivity | ]. split; [ reflexivity | ]. split; [ reflexivity | ].
  pose proof (rotation_recognized code) as Hrec.
  pose proof (rotation_values code) as Hval.
  split; [ | split ].
  - rewrite <- Hrec. cbn [In] in Hval.
    destruct Hval as [H | [H | [H | [H | [H | [H | []]]]]]];
      rewrite <- H; split; intros; reflexivity || discriminate.
  - rewrite <- Hrec. cbn [In] in Hval |- *.
    destruct Hval as [H | [H | [H | [H | [H | [H | []]]]]]];
      rewrite <- H; split; intros H';
        try reflexivity; try discriminate; try tauto.
    repeat (destruct H' as [H' | H']; [ discriminate | ]). destruct H'.
  - apply updateDisplay_second_arrow.
Qed.

End TrendArrows.

(** ** Passes of the scheduler at given inputs *)

Section Passes.

Context {board : Platform}.

Lemma fetchStatus_result (wifi : bool) (resp : response) (m : machine) :
  result (fetchStatus wifi resp) m =
    wifi && (httpCode resp =? HTTP_CODE_OK) &&
    match body resp with Some _ => true | None => false end.
Proof.
  unfold fetchStatus. destruct wifi; cbn [negb andb]; [ | reflexivity ].
  rewrite result_read_bind, result_bind.
  destruct (httpCode resp =? HTTP_CODE_OK); cbn [andb].
  - destruct (body resp) as [doc |];
      repeat (rewrite result_bind); reflexivity.
  - repeat (rewrite result_bind); reflexivity.
Qed.

(** C2, at a failing input.  The link is up, both polls were last done at
    4600 and the display at 5200; at 20000 neither poll is due and the
    display is.  With [dataFetchFailed] (or [statusFetchFailed]) holding
    true from the start of the pass, nothing is requested, nothing is drawn
    and the display timer stays; only with both holding false does the
    refresh run. *)
Theorem loop_skipped_polls_leave_flags_unset :
  let m := power_on bench_running in
  let pass d s := bench_tick 20000 server_error server_error d s in
  status_due 20000 (vars m) = false /\
  data_due 20000 (vars m) = false /\
  display_due 20000 (vars m) = true /\
  emitted (loop (pass true false)) m = [] /\
  emitted (loop (pass false true)) m = [] /\
  lastDisplayUpdateTime (vars (after (loop (pass true false)) m)) = 5200 /\
  lastDisplayUpdateTime (vars (after (loop (pass false false)) m)) = 20000.
Proof.
  cbv zeta. repeat split; vm_compute; reflexivity.
Qed.

(** C3, at a failing input.  The link is down on entry and comes up in
    [connectWiFi]; both requests are answered with HTTP 500, so both polls
    return false.  Both poll timers, 4600 before, are 20000 afterwards.  On
    a pass that finds the link up and both polls due, the same two answers
    leave both timers at 4600. *)
Theorem loop_reconnect_moves_timers_of_failed_polls :
  let m := power_on bench_running in
  let t := reconnect_tick 20000 server_error server_error in
  let t' := bench_tick 4000000 server_error server_error false false in
  (forall m1, result (fetchStatus (t_status_wifi t) (t_status t)) m1 = false) /\
  (forall m1, result (fetchData (t_data_wifi t) (t_data t) (t_data_millis t)) m1 = false) /\
  lastStatusFetchTime (vars m) = 4600 /\
  lastDataFetchTime (vars m) = 4600 /\
  lastStatusFetchTime (vars (after (loop t) m)) = 20000 /\
  lastDataFetchTime (vars (after (loop t) m)) = 20000 /\
  status_due 4000000 (vars m) = true /\
  data_due 4000000 (vars m) = true /\
  lastStatusFetchTime (vars (after (loop t') m)) = 4600 /\
  lastDataFetchTime (vars (after (loop t') m)) = 4600.
Proof.
  cbv zeta. split; [ | split ].
  - intros m1. rewrite fetchStatus_result. reflexivity.
  - intros m1. rewrite fetchData_result. reflexivity.
  - repeat split; vm_compute; reflexivity.
Qed.

End Passes.

(** ** A first reading, end to end *)

(** The answer [{mills: 1000, sgvs: [{mgdl: 120, direction: "Flat"}],
    delta: {mgdl: -2}}], accepted at local time 5000 from the starting state:
    the reading is stored, the arrow turns by 90 degrees, the LED goes
    green, and the value is struck through from 13 minutes after 5000 on. *)
Example first_reading_scenario :
  let doc := properties_json 1000 (JInt 120) "Flat" (JInt (-2)) in
  let m := after (fetchData (board:=bench_board) true (ok_with doc) 5000)
             (power_on bench_config) in
  vars m = bench_reading /\
  getTrendArrowRotation (trend (vars m)) = 90 /\
  filter led_write (emitted updateLED m) = [NeopixelWrite PIN_NEOPIXEL 64 0 0] /\
  isStale (5000 + 13 * 60 * 1000) (vars m) = false /\
  isStale (5000 + 13 * 60 * 1000 + 1) (vars m) = true.
Proof. cbv zeta. repeat split; vm_compute; reflexivity. Qed.

(** ** Statements that fail as written *)

(** C7, as stated: staleness would hold at every time while no reading was
    ever acquired, and otherwise exactly when more than 13 minutes lie
    between the acquisition and now.  The sketch, started with the bench
    configuration, finds the link down in its first pass and does not get
    it up; the pass at 22.3 s finds it up, polls both endpoints, gets the
    thresholds and a value without a time stamp, and refreshes the display.
    No reading was acquired: the test is false there, and the frame has no
    strike-through.  And a reading acquired 296 ms before [millis()] wraps
    around is struck through 100 ms after the wrap, 396 ms old. *)
Lemma never_acquired_is_not_stale :
  let second := bench_tick 22300 (ok_with mgdl_status_json) (ok_with unstamped_json)
                  true true in
  let m1 := after (loop (board:=bench_board) (offline_tick 1200)) (power_on bench_config) in
  let m2 := after (loop (board:=bench_board) second) m1 in
  let late := set_lastUpdate 4294967000 bench_reading in
  (vars m1 = bench_config /\
   lastTimestamp (vars m2) = 0 /\
   lastUpdate (vars m2) = 0 /\
   lastDisplayUpdateTime (vars m2) = 22300 /\
   existsb strikethrough (emitted (loop (board:=bench_board) second) m1) = false /\
   isStale (t_bg_millis second) (vars m2) = false /\
   ~ (forall clock v,
        lastTimestamp v = 0 -> lastUpdate v = 0 -> isStale clock v = true)) /\
  (millis (2 ^ 32 + 100) = 100 /\
   (2 ^ 32 + 100) - lastUpdate late = 396 /\
   isStale (2 ^ 32 + 100) late = true /\
   existsb strikethrough
     (emitted (updateDisplay (board:=bench_board) (2 ^ 32 + 100) (2 ^ 32 + 110))
        (power_on late)) = true /\
   ~ (forall clock v,
        isStale clock v = true <-> millis clock - lastUpdate v > 13 * 60 * 1000)).
Proof.
  cbv zeta. split.
  - split; [ vm_compute; reflexivity | ].
    split; [ vm_compute; reflexivity | ].
    split; [ vm_compute; reflexivity | ].
    split; [ vm_compute; reflexivity | ].
    split; [ vm_compute; reflexivity | ].
    split; [ vm_compute; reflexivity | ].
    intros Hall. specialize (Hall 22800 bench_config eq_refl eq_refl).
    discriminate Hall.
  - split; [ vm_compute; reflexivity | ].
    split; [ vm_compute; reflexivity | ].
    split; [ vm_compute; reflexivity | ].
    split; [ vm_compute; reflexivity | ].
    intros Hall.
    destruct (Hall (2 ^ 32 + 100) (set_lastUpdate 4294967000 bench_reading))
      as [Hgap _].
    assert (Hstale : isStale (2 ^ 32 + 100)
                       (set_lastUpdate 4294967000 bench_reading) = true)
      by (vm_compute; reflexivity).
    specialize (Hgap Hstale). vm_compute in Hgap. discriminate Hgap.
Qed.

(** C8, as stated: every code that starts with "Double" would bring the
    second arrow.  "DoubleFlat" starts with "Double", is none of the known
    codes, and its frame has no arrow at all. *)
Lemma double_prefix_without_second_arrow :
  let m := power_on (set_trend "DoubleFlat" bench_reading) in
  Str.startsWith (trend (vars m)) "Double" = true /\
  negb (lastTimestamp (vars m) =? 0) = true /\
  getTrendArrowRotation (trend (vars m)) = -1 /\
  existsb second_arrow (emitted (updateDisplay (board:=bench_board) 6000 6010) m) = false /\
  ~ (forall (board : Platform) bg_clock ts_clock m,
       lastTimestamp (vars m) <> 0 ->
       existsb second_arrow (emitted (updateDisplay bg_clock ts_clock) m) =
         Str.startsWith (trend (vars m)) "Double").
Proof.
  cbv zeta.
  assert (Hframe :
    existsb second_arrow
      (emitted (updateDisplay (board:=bench_board) 6000 6010)
         (power_on (set_trend "DoubleFlat" bench_reading))) = false)
    by (vm_compute; reflexivity).
  split; [ reflexivity | ]. split; [ reflexivity | ]. split; [ reflexivity | ].
  split; [ exact Hframe | ].
  intros Hall.
  specialize (Hall bench_board 6000 6010
                (power_on (set_trend "DoubleFlat" bench_reading))).
  rewrite Hframe in Hall.
  assert (Hshown : lastTimestamp
            (vars (power_on (set_trend "DoubleFlat" bench_reading))) <> 0)
    by (cbn; discriminate).
  specialize (Hall Hshown). discriminate Hall.
Qed.

(** ** The theorems at given inputs *)

Lemma fetchData_same_timestamp_keeps_reading_witness :
  let doc := properties_json 1000 (JInt 140) "SingleUp" (JInt 7) in
  let m := power_on bench_reading in
  body (ok_with doc) = Some doc /\
  mills_of (board:=bench_board) doc = lastTimestamp (vars m) /\
  stored_reading (vars (after (fetchData (board:=bench_board) true (ok_with doc) 9000) m)) =
    stored_reading (vars m).
Proof.
  cbv zeta. split; [ reflexivity | ]. split; [ reflexivity | ].
  apply (fetchData_same_timestamp_keeps_reading (board:=bench_board) true
           (ok_with (properties_json 1000 (JInt 140) "SingleUp" (JInt 7)))
           (properties_json 1000 (JInt 140) "SingleUp" (JInt 7))
           9000 (power_on bench_reading)); reflexivity.
Defined.

Lemma fetchStatus_partial_thresholds_ignored_witness :
  let doc := partial_status_json in
  let m := power_on bench_reading in
  containsKey (thresholds_of doc) "bgLow" = false /\
  stored_thresholds (vars (after (fetchStatus (board:=bench_board) true (ok_with doc)) m)) =
    stored_thresholds (vars m) /\
  result (fetchStatus (board:=bench_board) true (ok_with doc)) m = true.
Proof.
  cbv zeta. split; [ reflexivity | ].
  apply (fetchStatus_partial_thresholds_ignored (board:=bench_board) true
           (ok_with partial_status_json) partial_status_json
           (power_on bench_reading)).
  - reflexivity.
  - right. right. right. reflexivity.
Defined.

Lemma fetchData_reports_success_witness :
  let t := bench_tick 40000 server_error
             (ok_with (properties_json 1000 (JInt 25) "Flat" (JInt 0))) false false in
  let m := power_on bench_running in
  data_due 40000 (vars m) = true /\
  result (fetchData (board:=bench_board) (t_data_wifi t) (t_data t) (t_data_millis t)) m = true /\
  result (poll_data (board:=bench_board) t 40000) m = false /\
  lastDataFetchTime (vars (after (poll_data (board:=bench_board) t 40000) m)) = 40000.
Proof.
  cbv zeta. split; [ reflexivity | ]. split; [ reflexivity | ].
  destruct (fetchData_reports_success (board:=bench_board)
              (bench_tick 40000 server_error
                 (ok_with (properties_json 1000 (JInt 25) "Flat" (JInt 0))) false false)
              40000 (power_on bench_running)) as [_ Hloop].
  destruct (Hloop eq_refl eq_refl) as (Hflag & Htimer & _).
  split; [ exact Hflag | exact Htimer ].
Defined.

Lemma waiting_for_data_witness :
  let m := power_on bench_config in
  lastTimestamp (vars m) = 0 /\
  emitted (updateDisplay (board:=bench_board) 1000 1010) m =
    [ SprFillSprite TFT_BLACK;
      SprFillSprite TFT_BLACK; SprSetTextDatum MC_DATUM; SprSetTextFont FONT4;
      SprDrawString "Waiting for data..." 160 75 GFXFF;
      SprPushSprite 0 0; Delay 1000 ] /\
  emitted updateLED m = [].
Proof.
  cbv zeta. split; [ reflexivity | ].
  apply (waiting_for_data (board:=bench_board) 1000 1010 (power_on bench_config)).
  reflexivity.
Defined.

Lemma isStale_exact_witness :
  let m := power_on bench_reading in
  let m0 := power_on bench_config in
  0 <= lastUpdate (vars m) <= millis 785000 /\
  (isStale 785000 (vars m) = true <->
     millis 785000 - lastUpdate (vars m) > 13 * 60 * 1000) /\
  isStale 785000 (vars m) = false /\
  isStale 785001 (vars m) = true /\
  existsb strikethrough (emitted (updateDisplay (board:=bench_board) 785001 785011) m) =
    true /\
  lastTimestamp (vars m0) = 0 /\
  lastUpdate (vars m0) = 0 /\
  existsb strikethrough (emitted (updateDisplay (board:=bench_board) 900000 900010) m0) =
    false /\
  (isStale 900000 (vars m0) = true <-> millis 900000 > 13 * 60 * 1000).
Proof.
  cbv zeta.
  assert (Hrange : 0 <= lastUpdate (vars (power_on bench_reading)) <= millis 785000)
    by (vm_compute; split; discriminate).
  destruct (isStale_exact (board:=bench_board) 785000 785010 (power_on bench_reading))
    as (_ & _ & Hstrict & _).
  destruct (isStale_exact (board:=bench_board) 785001 785011 (power_on bench_reading))
    as (_ & Hframe & _).
  destruct (isStale_exact (board:=bench_board) 900000 900010 (power_on bench_config))
    as (_ & _ & _ & Hnone & Hzero).
  split; [ exact Hrange | ].
  split; [ exact (Hstrict Hrange) | ].
  split; [ reflexivity | ]. split; [ reflexivity | ].
  split; [ rewrite Hframe; reflexivity | ].
  split; [ reflexivity | ]. split; [ reflexivity | ].
  split; [ exact (Hnone eq_refl) | exact (Hzero eq_refl) ].
Defined.

Lemma trend_arrow_mapping_witness :
  let m := power_on (set_trend "DoubleUp" bench_reading) in
  recognized "NOT COMPUTABLE" = false /\
  getTrendArrowRotation "NOT COMPUTABLE" = -1 /\
  existsb second_arrow (emitted (updateDisplay (board:=bench_board) 6000 6010) m) = true.
Proof.
  cbv zeta. split; [ reflexivity | ].
  pose proof (trend_arrow_mapping (board:=bench_board) "NOT COMPUTABLE" 6000 6010
                (power_on (set_trend "DoubleUp" bench_reading)))
    as (_ & _ & _ & Hunknown & _ & Hsecond).
  split.
  - apply Hunknown. reflexivity.
  - rewrite Hsecond. reflexivity.
Defined.

(** * Further properties of the sketch *)

(** ** Output only grows *)

Lemma emitted_bind {A B : Type} (c : M A) (k : A -> M B) (m : machine) :
  appends c -> (forall a, appends (k a)) ->
  emitted (bind c k) m =
    (emitted c m ++ emitted (k (result c m)) (after c m))%list.
Proof.
  intros Hc Hk. unfold emitted at 1.
  rewrite after_bind, Hk, Hc, <- app_assoc. apply skipn_length_app.
Qed.

Lemma appends_bind {A B : Type} (c : M A) (k : A -> M B) :
  appends c -> (forall a, appends (k a)) -> appends (bind c k).
Proof.
  intros Hc Hk m. rewrite emitted_bind by assumption.
  rewrite after_bind, Hk, Hc. apply eq_sym, app_assoc.
Qed.

Lemma appends_silent {A : Type} (c : M A) :
  (forall m, out (after c m) = out m) -> appends c.
Proof.
  intros H m. unfold emitted. rewrite H, skipn_all.
  apply eq_sym, app_nil_r.
Qed.

Lemma appends_one {A : Type} (c : M A) (e : event) :
  (forall m, out (after c m) = (out m ++ [e])%list) -> appends c.
Proof.
  intros H m. unfold emitted. rewrite H. now rewrite skipn_length_app.
Qed.

Lemma appends_ret {A : Type} (a : A) : appends (ret a : M A).
Proof. apply appends_silent. reflexivity. Qed.

Lemma appends_read : appends read.
Proof. apply appends_silent. reflexivity. Qed.

Lemma appends_read_spr : appends read_spr.
Proof. apply appends_silent. reflexivity. Qed.

Lemma appends_assign (f : globals -> globals) : appends (assign f).
Proof. apply appends_silent. reflexivity. Qed.

Lemma appends_emit (e : event) : appends (emit e).
Proof. apply (appends_one _ e). reflexivity. Qed.

Lemma appends_setTextDatum (d : datum) : appends (spr_setTextDatum d).
Proof. apply (appends_one _ (SprSetTextDatum d)). reflexivity. Qed.

Lemma appends_setPivot (x y : Z) : appends (spr_setPivot x y).
Proof. apply (appends_one _ (SprSetPivot x y)). reflexivity. Qed.

Lemma appends_when (b : bool) (c : M unit) : appends c -> appends (when b c).
Proof. intros H. destruct b; [ exact H | apply appends_ret ]. Qed.

Lemma appends_if {A : Type} (b : bool) (c1 c2 : M A) :
  appends c1 -> appends c2 -> appends (if b then c1 else c2).
Proof. now destruct b. Qed.

Lemma emitted_ret {A : Type} (a : A) (m : machine) : emitted (ret a : M A) m = [].
Proof.
  unfold emitted. change (out (after (ret a : M A) m)) with (out m).
  apply skipn_all.
Qed.

Lemma emitted_emit (e : event) (m : machine) : emitted (emit e) m = [e].
Proof. unfold emitted. cbn. apply skipn_length_app. Qed.

Lemma emitted_read_bind {B : Type} (k : globals -> M B) (m : machine) :
  emitted (bind read k) m = emitted (k (vars m)) m.
Proof. unfold emitted. now rewrite after_read_bind. Qed.

Lemma emitted_when (b : bool) (c : M unit) (m : machine) :
  emitted (when b c) m = if b then emitted c m else [].
Proof. destruct b; [ reflexivity | apply emitted_ret ]. Qed.

Create HintDb growing discriminated.
#[local] Hint Resolve appends_ret appends_read appends_read_spr appends_assign
  appends_emit appends_setTextDatum appends_setPivot : growing.

Ltac growing :=
  repeat match goal with
    | |- forall _, appends _ => intros ?
    | |- appends (bind _ _) => apply appends_bind; [ | intros ? ]
    | |- appends (when _ _) => apply appends_when
    | |- appends (if _ then _ else _) => apply appends_if
    | |- appends (let _ := _ in _) => cbv zeta
    | |- appends _ => solve [ auto with growing ]
    end.

Section Growing.

Context {board : Platform}.

Lemma appends_showMessage (l1 l2 : string) (d : Z) : appends (showMessage l1 l2 d).
Proof. unfold showMessage. growing. Qed.

Lemma appends_setLEDColor (r g b : Z) : appends (setLEDColor r g b).
Proof. unfold setLEDColor. growing. Qed.

Lemma appends_await_link (link : nat -> bool) (budget retries : nat) :
  appends (await_link link budget retries).
Proof.
  revert retries. induction budget as [| budget IH]; intros retries; cbn [await_link].
  - growing.
  - destruct (link retries); growing.
Qed.

#[local] Hint Resolve appends_showMessage appends_setLEDColor appends_await_link : growing.

Lemma appends_connectWiFi (link : nat -> bool) (ip : string) :
  appends (connectWiFi link ip).
Proof. unfold connectWiFi. growing. Qed.

Lemma appends_fetchStatus (wifi : bool) (resp : response) :
  appends (fetchStatus wifi resp).
Proof.
  unfold fetchStatus. destruct wifi; cbn [negb]; [ | growing ].
  destruct (body resp) as [doc |]; growing.
Qed.

Lemma appends_fetchData (wifi : bool) (resp : response) (clock : Z) :
  appends (fetchData wifi resp clock).
Proof.
  unfold fetchData. destruct wifi; cbn [negb]; [ | growing ].
  destruct (body resp) as [doc |]; growing.
Qed.

Lemma appends_updateBGValue (clock : Z) : appends (updateBGValue clock).
Proof. unfold updateBGValue. growing. Qed.

Lemma appends_updateDelta : appends updateDelta.
Proof. unfold updateDelta. growing. Qed.

Lemma appends_updateTimestamp (clock : Z) : appends (updateTimestamp clock).
Proof. unfold updateTimestamp. growing. Qed.

#[local] Hint Resolve appends_updateBGValue appends_updateDelta
  appends_updateTimestamp appends_fetchStatus appends_fetchData
  appends_connectWiFi : growing.

Lemma appends_updateDisplay (c1 c2 : Z) : appends (updateDisplay c1 c2).
Proof. unfold updateDisplay. growing. Qed.

Lemma appends_updateLED : appends updateLED.
Proof. unfold updateLED. growing. Qed.

#[local] Hint Resolve appends_updateDisplay appends_updateLED : growing.

Lemma appends_poll_status (t : tick) (now : Z) : appends (poll_status t now).
Proof. unfold poll_status. growing. Qed.

Lemma appends_poll_data (t : tick) (now : Z) : appends (poll_data t now).
Proof. unfold poll_data. growing. Qed.

Lemma appends_refresh (t : tick) (now : Z) (d s : bool) : appends (refresh t now d s).
Proof. unfold refresh. growing. Qed.

#[local] Hint Resolve appends_poll_status appends_poll_data appends_refresh : growing.

Lemma appends_loop (t : tick) : appends (loop t).
Proof. unfold loop. growing. Qed.

End Growing.

(** ** What each poll writes *)

Lemma preserves_read {X : Type} (view : globals -> X) : preserves view read.
Proof. intros m. reflexivity. Qed.

Section PollFrames.

Context {board : Platform}.

#[local] Hint Resolve keeps_vars_showMessage : silent.

Lemma fetchStatus_preserves_config (wifi : bool) (resp : response) :
  preserves stored_config (fetchStatus wifi resp).
Proof.
  unfold fetchStatus. destruct wifi; cbn [negb]; [ | frame ].
  destruct (body resp) as [doc |]; frame.
Qed.

Lemma fetchData_preserves_config (wifi : bool) (resp : response) (clock : Z) :
  preserves stored_config (fetchData wifi resp clock).
Proof.
  unfold fetchData. destruct wifi; cbn [negb]; [ | frame ].
  destruct (body resp) as [doc |]; frame.
Qed.

(** X1.  [fetchStatus] writes the four thresholds and nothing else: the
    stored reading, the three timers and the configuration come out of
    every call as they went in. *)
Theorem fetchStatus_writes_only_thresholds
    (wifi : bool) (resp : response) (m : machine) :
  let m' := after (fetchStatus wifi resp) m in
  stored_reading (vars m') = stored_reading (vars m) /\
  stored_timers (vars m') = stored_timers (vars m) /\
  stored_config (vars m') = stored_config (vars m).
Proof.
  cbv zeta. split; [ | split ].
  - apply fetchStatus_preserves_reading.
  - apply fetchStatus_preserves_timers.
  - apply fetchStatus_preserves_config.
Qed.

(** X2.  [fetchData] writes the stored reading and nothing else: the four
    thresholds, the three timers and the configuration come out of every
    call as they went in. *)
Theorem fetchData_writes_only_reading
    (wifi : bool) (resp : response) (clock : Z) (m : machine) :
  let m' := after (fetchData wifi resp clock) m in
  stored_thresholds (vars m') = stored_thresholds (vars m) /\
  stored_timers (vars m') = stored_timers (vars m) /\
  stored_config (vars m') = stored_config (vars m).
Proof.
  cbv zeta. split; [ | split ].
  - apply fetchData_preserves_thresholds.
  - apply fetchData_preserves_timers.
  - apply fetchData_preserves_config.
Qed.

(** The globals after [fetchData], in closed form. *)
Lemma fetchData_vars (wifi : bool) (resp : response) (clock : Z) (m : machine) :
  vars (after (fetchData wifi resp clock) m) =
    match body resp with
    | Some doc =>
        if data_answer_ok wifi resp && negb (mills_of doc =? lastTimestamp (vars m))
        then
          if Fp.gt (Fp.to_double (mgdl_of doc)) Fp.d30
          then accepted_answer doc clock (vars m)
          else stored_answer doc (vars m)
        else vars m
    | None => vars m
    end.
Proof.
  unfold data_answer_ok, fetchData.
  destruct wifi; cbn [negb andb]; [ | now destruct (body resp) ].
  rewrite after_read_bind.
  destruct (httpCode resp =? HTTP_CODE_OK); cbn [andb].
  - destruct (body resp) as [doc |].
    + destruct (no_readings doc); cbn [negb andb].
      * rewrite after_bind. now rewrite !keeps_vars_bind by silent.
      * fold (mills_of doc).
        destruct (mills_of doc =? lastTimestamp (vars m)); cbn [negb].
        -- reflexivity.
        -- unfold after, run, mgdl_of, accepted_answer, stored_answer, mgdl_of.
           cbn -[Fp.gt Fp.to_double Fp.d30 millis].
           now destruct (Fp.gt _ _).
    + rewrite after_bind. now rewrite !keeps_vars_bind by silent.
  - assert (H : forall c : M bool, keeps_vars c ->
                vars (after (emit (HttpGet (request_url (vars m) "/api/v2/properties.json")) ;; c) m)
                = vars m).
    { intros c Hc. rewrite after_bind. now rewrite Hc. }
    destruct (body resp); apply H; silent.
Qed.

End PollFrames.

(** ** The data poll, case by case *)

Section DataCases.

Context {board : Platform}.

#[local] Hint Resolve keeps_vars_showMessage : silent.

Lemma fetchData_result_ok (wifi : bool) (resp : response) (clock : Z) (m : machine) :
  result (fetchData wifi resp clock) m = data_answer_ok wifi resp.
Proof. apply fetchData_result. Qed.

(** X3.  Whenever [fetchData] returns false (link down, HTTP code other
    than 200, body that does not parse, no non-empty [bgnow.sgvs] array) it
    has changed none of the globals. *)
Theorem fetchData_failure_keeps_globals
    (wifi : bool) (resp : response) (clock : Z) (m : machine) :
  result (fetchData wifi resp clock) m = false ->
  vars (after (fetchData wifi resp clock) m) = vars m.
Proof.
  rewrite fetchData_result_ok, fetchData_vars. intros Hfail.
  rewrite Hfail. now destruct (body resp).
Qed.

(** X4.  An answer with a timestamp other than the stored one and a value
    that passes [bg > 30.0] is accepted: value, delta and trend are those of
    the answer, [lastTimestamp] is its [mills], [lastUpdate] is the local
    clock at that moment, and everything else is as before. *)
Theorem fetchData_accepts_new_reading
    (resp : response) (doc : json) (clock : Z) (m : machine) :
  httpCode resp = HTTP_CODE_OK ->
  body resp = Some doc ->
  no_readings doc = false ->
  mills_of doc <> lastTimestamp (vars m) ->
  Fp.gt (Fp.to_double (mgdl_of doc)) Fp.d30 = true ->
  result (fetchData true resp clock) m = true /\
  vars (after (fetchData true resp clock) m) = accepted_answer doc clock (vars m) /\
  lastTimestamp (vars (after (fetchData true resp clock) m)) = mills_of doc /\
  lastUpdate (vars (after (fetchData true resp clock) m)) = millis clock /\
  bg (vars (after (fetchData true resp clock) m)) = mgdl_of doc.
Proof.
  intros Hcode Hbody Hsome Hnew Hvalid.
  assert (Hok : data_answer_ok true resp = true).
  { unfold data_answer_ok. now rewrite Hcode, Hbody, Hsome. }
  apply Z.eqb_neq in Hnew.
  assert (Hvars : vars (after (fetchData true resp clock) m) =
                  accepted_answer doc clock (vars m)).
  { now rewrite fetchData_vars, Hbody, Hok, Hnew, Hvalid. }
  rewrite fetchData_result_ok, Hvars. repeat split. exact Hok.
Qed.

(** X5.  Receiving the same answer a second time changes nothing: the
    globals after two calls of [fetchData] with one answer are those after
    the first call, whatever the clock shows at the second. *)
Theorem fetchData_same_answer_twice
    (wifi : bool) (resp : response) (clock clock' : Z) (m : machine) :
  vars (after (fetchData wifi resp clock') (after (fetchData wifi resp clock) m)) =
  vars (after (fetchData wifi resp clock) m).
Proof.
  rewrite (fetchData_vars wifi resp clock').
  destruct (body resp) as [doc |] eqn:Hbody; [ | reflexivity ].
  rewrite (fetchData_vars wifi resp clock), Hbody.
  destruct (data_answer_ok wifi resp); cbn [andb]; [ | reflexivity ].
  destruct (mills_of doc =? lastTimestamp (vars m)) eqn:Hsame; cbn [negb].
  - now rewrite Hsame.
  - destruct (Fp.gt (Fp.to_double (mgdl_of doc)) Fp.d30) eqn:Hvalid.
    + change (lastTimestamp (accepted_answer doc clock (vars m))) with (mills_of doc).
      now rewrite Z.eqb_refl.
    + change (lastTimestamp (stored_answer doc (vars m))) with (lastTimestamp (vars m)).
      rewrite Hsame. reflexivity.
Qed.

(** X6.  [lastTimestamp] and [lastUpdate] are written together or not at
    all: after any call of [fetchData] either both are as before, or
    [lastTimestamp] is the [mills] of the answer, [lastUpdate] is the local
    clock, and the stored value is one that passes [bg > 30.0]. *)
Theorem fetchData_stamps_move_together
    (wifi : bool) (resp : response) (clock : Z) (m : machine) :
  let v' := vars (after (fetchData wifi resp clock) m) in
  (lastTimestamp v' = lastTimestamp (vars m) /\ lastUpdate v' = lastUpdate (vars m)) \/
  (exists doc, body resp = Some doc /\
     lastTimestamp v' = mills_of doc /\
     lastUpdate v' = millis clock /\
     Fp.gt (Fp.to_double (bg v')) Fp.d30 = true).
Proof.
  cbv zeta. rewrite fetchData_vars.
  destruct (body resp) as [doc |]; [ | left; split; reflexivity ].
  destruct (data_answer_ok wifi resp && negb (mills_of doc =? lastTimestamp (vars m)));
    [ | left; split; reflexivity ].
  destruct (Fp.gt (Fp.to_double (mgdl_of doc)) Fp.d30) eqn:Hvalid.
  - right. exists doc. repeat split. exact Hvalid.
  - left. split; reflexivity.
Qed.

(** X7.  A missing [bgnow.mills] reads as timestamp 0: before the first
    reading ([lastTimestamp] still 0) an answer without it is never stored,
    whatever value it carries. *)
Theorem fetchData_without_mills_before_first_reading
    (wifi : bool) (resp : response) (doc : json) (clock : Z) (m : machine) :
  body resp = Some doc ->
  containsKey (member doc "bgnow") "mills" = false ->
  lastTimestamp (vars m) = 0 ->
  mills_of doc = 0 /\
  vars (after (fetchData wifi resp clock) m) = vars m.
Proof.
  intros Hbody Hmissing Hzero.
  assert (Hmills : mills_of doc = 0).
  { unfold mills_of.
    destruct (member doc "bgnow") as [ | b | z | d | s | l | l ];
      cbn [member containsKey] in *; try reflexivity.
    destruct (assoc "mills" l); [ discriminate | reflexivity ]. }
  split; [ exact Hmills | ].
  rewrite fetchData_vars, Hbody, Hmills, Hzero. cbn [Z.eqb negb].
  now rewrite andb_false_r.
Qed.

End DataCases.

(** ** The status poll, case by case *)

Section StatusCases.

Context {board : Platform}.

#[local] Hint Resolve keeps_vars_showMessage : silent.

Lemma fetchStatus_result_ok (wifi : bool) (resp : response) (m : machine) :
  result (fetchStatus wifi resp) m = status_answer_ok wifi resp.
Proof. apply fetchStatus_result. Qed.

(** X8.  Whenever [fetchStatus] returns false (link down, HTTP code other
    than 200, body that does not parse) it has changed none of the
    globals. *)
Theorem fetchStatus_failure_keeps_globals
    (wifi : bool) (resp : response) (m : machine) :
  result (fetchStatus wifi resp) m = false ->
  vars (after (fetchStatus wifi resp) m) = vars m.
Proof.
  rewrite fetchStatus_result_ok. unfold status_answer_ok, fetchStatus.
  destruct wifi; cbn [negb andb]; [ | reflexivity ].
  rewrite after_read_bind, after_bind.
  destruct (httpCode resp =? HTTP_CODE_OK); cbn [andb].
  - destruct (body resp) as [doc |]; [ discriminate | ].
    intros _. now rewrite !keeps_vars_bind by silent.
  - intros _. now rewrite !keeps_vars_bind by silent.
Qed.

(** X9.  With all four thresholds present and units that are neither
    "mmol" nor "mmol/L", [fetchStatus] stores each threshold as the [int]
    the answer gives, without conversion. *)
Theorem fetchStatus_mgdl_thresholds (resp : response) (doc : json) (m : machine) :
  httpCode resp = HTTP_CODE_OK ->
  body resp = Some doc ->
  containsKey doc "settings" = true ->
  containsKey (member doc "settings") "thresholds" = true ->
  has_all_thresholds (thresholds_of doc) = true ->
  units_are_mmol (units_of doc) = false ->
  stored_thresholds (vars (after (fetchStatus true resp) m)) =
    {| th_lowUrgent := as_int parseNumber (member (thresholds_of doc) "bgLow");
       th_lowWarning := as_int parseNumber (member (thresholds_of doc) "bgTargetBottom");
       th_highWarning := as_int parseNumber (member (thresholds_of doc) "bgTargetTop");
       th_highUrgent := as_int parseNumber (member (thresholds_of doc) "bgHigh") |}.
Proof.
  intros Hcode Hbody Hsettings Hthresholds Hall Hunits.
  unfold thresholds_of in *. unfold units_of in Hunits.
  unfold fetchStatus. cbn [negb].
  rewrite after_read_bind, Hcode, Hbody, Hsettings, Hthresholds.
  cbn zeta. rewrite Hall, Hunits. reflexivity.
Qed.

Lemma Zseq_In (x lo : Z) (n : nat) :
  lo <= x < lo + Z.of_nat n -> In x (Zseq lo n).
Proof.
  revert lo. induction n as [| n IH]; intros lo Hx.
  - lia.
  - cbn [Zseq In]. destruct (Z.eq_dec lo x) as [-> | Hne]; [ now left | right ].
    apply IH. lia.
Qed.

(** X10.  For an integer threshold between -20000 and 20000 the conversion
    [round(x * 18.0)] stored into an [int] is exactly eighteen times the
    integer. *)
Theorem mmol_to_mgdl_exact (x : Z) :
  -20000 <= x <= 20000 -> mmol_to_mgdl x = 18 * x.
Proof.
  intros Hx.
  assert (Hall : forallb (fun z => mmol_to_mgdl z =? 18 * z)
                   (Zseq (-20000) (Z.to_nat 40001)) = true)
    by (vm_compute; reflexivity).
  rewrite forallb_forall in Hall. apply Z.eqb_eq, Hall, Zseq_In.
  rewrite Z2Nat.id by discriminate. lia.
Qed.

End StatusCases.

(** ** Requests *)

Section Requests.

Context {board : Platform}.

Ltac run_out :=
  unfold emitted, after, run;
  cbn -[skipn Z.eqb Z.quot Z.sub Z.add String_of_int Fp.gt Fp.to_double Fp.d30
        request_url no_readings has_all_thresholds units_are_mmol containsKey
        member element as_int as_u64 as_float as_String mmol_to_mgdl millis].

Ltac close_out :=
  cbn -[skipn Z.eqb Z.quot Z.sub Z.add String_of_int request_url];
  rewrite <- ?app_assoc; rewrite skipn_length_app; repeat split.

Lemma fetchStatus_requests (resp : response) (m : machine) :
  let status := emitted (fetchStatus true resp) m in
  hd_error status = Some (HttpGet (request_url (vars m) "/api/v1/status.json")) /\
  last status HttpEnd = HttpEnd /\
  count_events http_request status = 1%nat /\
  count_events http_end status = 1%nat /\ status <> [].
Proof.
  destruct m as [v s o]. cbn [vars].
  unfold fetchStatus, showMessage. run_out.
  destruct (httpCode resp =? HTTP_CODE_OK); [ destruct (body resp) as [doc |] | ].
  - run_out.
    destruct (containsKey doc "settings" &&
              containsKey (member doc "settings") "thresholds"); run_out;
      [ destruct (has_all_thresholds (member (member doc "settings") "thresholds"));
        run_out;
        [ destruct (units_are_mmol
                      (as_String serializeJson (member (member doc "settings") "units")))
        | ]
      | ]; close_out; discriminate.
  - close_out. discriminate.
  - close_out. discriminate.
Qed.

Lemma fetchData_requests (resp : response) (clock : Z) (m : machine) :
  let data := emitted (fetchData true resp clock) m in
  hd_error data = Some (HttpGet (request_url (vars m) "/api/v2/properties.json")) /\
  last data HttpEnd = HttpEnd /\
  count_events http_request data = 1%nat /\
  count_events http_end data = 1%nat /\ data <> [].
Proof.
  destruct m as [v s o]. cbn [vars].
  unfold fetchData, showMessage. run_out.
  destruct (httpCode resp =? HTTP_CODE_OK); [ destruct (body resp) as [doc |] | ].
  - destruct (no_readings doc); run_out.
    + close_out. discriminate.
    + destruct (as_u64 parseNumber (member (member doc "bgnow") "mills") =? lastTimestamp v);
        run_out; [ close_out; discriminate | ].
      destruct (Fp.gt _ _); close_out; discriminate.
  - close_out. discriminate.
  - close_out. discriminate.
Qed.

(** X11.  A poll that finds the link down sends nothing and draws nothing.
    One that finds it up sends exactly one request, to its own endpoint,
    first of all, and ends the connection exactly once, last of all, on
    every path, error paths included. *)
Theorem fetch_sends_one_request_and_ends_it
    (wifi : bool) (resp : response) (clock : Z) (m : machine) :
  let status := emitted (fetchStatus wifi resp) m in
  let data := emitted (fetchData wifi resp clock) m in
  (wifi = false -> status = [] /\ data = []) /\
  (wifi = true ->
     hd_error status = Some (HttpGet (request_url (vars m) "/api/v1/status.json")) /\
     hd_error data = Some (HttpGet (request_url (vars m) "/api/v2/properties.json")) /\
     last status HttpEnd = HttpEnd /\ last data HttpEnd = HttpEnd /\
     count_events http_request status = 1%nat /\
     count_events http_request data = 1%nat /\
     count_events http_end status = 1%nat /\
     count_events http_end data = 1%nat /\
     status <> [] /\ data <> []).
Proof.
  cbv zeta. split; intros ->.
  - split; unfold fetchStatus, fetchData; cbn [negb]; apply emitted_ret.
  - destruct (fetchStatus_requests resp m) as (? & ? & ? & ? & ?).
    destruct (fetchData_requests resp clock m) as (? & ? & ? & ? & ?).
    repeat split; assumption.
Qed.

End Requests.

(** ** A pass of [loop], field by field *)

Section Passes2.

Context {board : Platform}.

Lemma poll_status_vars (t : tick) (now : Z) (m : machine) :
  vars (after (poll_status t now) m) =
    if status_due now (vars m) then
      let v1 := vars (after (fetchStatus (t_status_wifi t) (t_status t)) m) in
      if status_answer_ok (t_status_wifi t) (t_status t)
      then set_lastStatusFetchTime now v1 else v1
    else vars m.
Proof.
  unfold poll_status. rewrite after_read_bind. fold (status_due now (vars m)).
  destruct (status_due now (vars m)); [ | reflexivity ].
  rewrite after_bind, fetchStatus_result_ok, after_bind, after_ret, after_when.
  cbv zeta. now destruct (status_answer_ok _ _).
Qed.

Lemma poll_status_result (t : tick) (now : Z) (m : machine) :
  result (poll_status t now) m =
    if status_due now (vars m)
    then negb (status_answer_ok (t_status_wifi t) (t_status t))
    else t_statusFetchFailed t.
Proof.
  unfold poll_status. rewrite result_read_bind. fold (status_due now (vars m)).
  destruct (status_due now (vars m)); [ | reflexivity ].
  now rewrite result_bind, fetchStatus_result_ok, result_bind.
Qed.

Lemma poll_data_vars (t : tick) (now : Z) (m : machine) :
  vars (after (poll_data t now) m) =
    if data_due now (vars m) then
      let v1 := vars (after (fetchData (t_data_wifi t) (t_data t) (t_data_millis t)) m) in
      if data_answer_ok (t_data_wifi t) (t_data t)
      then set_lastDataFetchTime now v1 else v1
    else vars m.
Proof.
  unfold poll_data. rewrite after_read_bind. fold (data_due now (vars m)).
  destruct (data_due now (vars m)); [ | reflexivity ].
  rewrite after_bind, fetchData_result_ok, after_bind, after_ret, after_when.
  cbv zeta. now destruct (data_answer_ok _ _).
Qed.

Lemma poll_data_result (t : tick) (now : Z) (m : machine) :
  result (poll_data t now) m =
    if data_due now (vars m)
    then negb (data_answer_ok (t_data_wifi t) (t_data t))
    else t_dataFetchFailed t.
Proof.
  unfold poll_data. rewrite result_read_bind. fold (data_due now (vars m)).
  destruct (data_due now (vars m)); [ | reflexivity ].
  now rewrite result_bind, fetchData_result_ok, result_bind.
Qed.

Lemma timers_after_fetchStatus (wifi : bool) (resp : response) (m : machine) :
  let v1 := vars (after (fetchStatus wifi resp) m) in
  lastStatusFetchTime v1 = lastStatusFetchTime (vars m) /\
  lastDataFetchTime v1 = lastDataFetchTime (vars m) /\
  lastDisplayUpdateTime v1 = lastDisplayUpdateTime (vars m).
Proof.
  pose proof (fetchStatus_preserves_timers wifi resp m) as H.
  cbv zeta. unfold stored_timers in H. now inversion H.
Qed.

Lemma timers_after_fetchData (wifi : bool) (resp : response) (clock : Z) (m : machine) :
  let v1 := vars (after (fetchData wifi resp clock) m) in
  lastStatusFetchTime v1 = lastStatusFetchTime (vars m) /\
  lastDataFetchTime v1 = lastDataFetchTime (vars m) /\
  lastDisplayUpdateTime v1 = lastDisplayUpdateTime (vars m).
Proof.
  pose proof (fetchData_preserves_timers wifi resp clock m) as H.
  cbv zeta. unfold stored_timers in H. now inversion H.
Qed.

Lemma loop_connected (t : tick) (m : machine) :
  t_wifi t = true ->
  let now := millis (t_millis t) in
  let m1 := after (poll_status t now) m in
  let m2 := after (poll_data t now) m1 in
  after (loop t) m =
    after (refresh t now (result (poll_data t now) m1) (result (poll_status t now) m)) m2.
Proof.
  intros Hwifi. cbv zeta. unfold loop. rewrite Hwifi. cbn [negb].
  now rewrite !after_bind.
Qed.

(** X12.  The three timers after a pass that finds the link up.  Each poll
    timer moves to the current time exactly when its poll was due and
    succeeded, and is otherwise untouched; the display timer moves exactly
    when the display was due and neither flag was set, a flag being the
    failure of a poll that ran and whatever it held before for one that did
    not. *)
Theorem loop_connected_timers (t : tick) (m : machine) :
  t_wifi t = true ->
  let now := millis (t_millis t) in
  let v := vars m in
  let status_ok := status_answer_ok (t_status_wifi t) (t_status t) in
  let data_ok := data_answer_ok (t_data_wifi t) (t_data t) in
  let statusFetchFailed :=
    if status_due now v then negb status_ok else t_statusFetchFailed t in
  let dataFetchFailed :=
    if data_due now v then negb data_ok else t_dataFetchFailed t in
  stored_timers (vars (after (loop t) m)) =
    {| statusTimer :=
         if status_due now v && status_ok then now else lastStatusFetchTime v;
       dataTimer :=
         if data_due now v && data_ok then now else lastDataFetchTime v;
       displayTimer :=
         if display_due now v && negb dataFetchFailed && negb statusFetchFailed
         then now else lastDisplayUpdateTime v |}.
Proof.
  intros Hwifi. cbv zeta. rewrite (loop_connected t m Hwifi). cbv zeta.
  set (now := millis (t_millis t)).
  set (m1 := after (poll_status t now) m).
  assert (H1 : lastStatusFetchTime (vars m1) =
                 (if status_due now (vars m) && status_answer_ok (t_status_wifi t) (t_status t)
                  then now else lastStatusFetchTime (vars m)) /\
               lastDataFetchTime (vars m1) = lastDataFetchTime (vars m) /\
               lastDisplayUpdateTime (vars m1) = lastDisplayUpdateTime (vars m)).
  { unfold m1. rewrite poll_status_vars.
    destruct (timers_after_fetchStatus (t_status_wifi t) (t_status t) m) as (Hs & Hd & Hp).
    destruct (status_due now (vars m)); cbn [andb]; [ | repeat split ].
    cbv zeta. destruct (status_answer_ok _ _); repeat split; assumption. }
  destruct H1 as (Hs1 & Hd1 & Hp1).
  set (m2 := after (poll_data t now) m1).
  assert (Hdue : data_due now (vars m1) = data_due now (vars m)).
  { unfold data_due. now rewrite Hd1. }
  assert (H2 : lastStatusFetchTime (vars m2) = lastStatusFetchTime (vars m1) /\
               lastDataFetchTime (vars m2) =
                 (if data_due now (vars m) && data_answer_ok (t_data_wifi t) (t_data t)
                  then now else lastDataFetchTime (vars m)) /\
               lastDisplayUpdateTime (vars m2) = lastDisplayUpdateTime (vars m)).
  { unfold m2. rewrite poll_data_vars, Hdue.
    destruct (timers_after_fetchData (t_data_wifi t) (t_data t) (t_data_millis t) m1)
      as (Hs & Hd & Hp).
    destruct (data_due now (vars m)); cbn [andb]; [ | repeat split; assumption ].
    cbv zeta. destruct (data_answer_ok _ _); repeat split; cbn; congruence. }
  destruct H2 as (Hs2 & Hd2 & Hp2).
  assert (Hdisp : display_due now (vars m2) = display_due now (vars m)).
  { unfold display_due. now rewrite Hp2. }
  rewrite refresh_vars, Hdisp, poll_data_result, poll_status_result, Hdue.
  unfold stored_timers.
  destruct (display_due now (vars m) && _ && _);
    cbn [lastStatusFetchTime lastDataFetchTime lastDisplayUpdateTime
         set_lastDisplayUpdateTime];
    now rewrite Hs2, Hs1, Hd2, ?Hp2.
Qed.

End Passes2.

(** ** Events a command never emits *)

Lemma preserves_compose {X Y A : Type} (view : globals -> X) (f : X -> Y) (c : M A) :
  preserves view c -> preserves (fun v => f (view v)) c.
Proof. intros H m. cbv beta. now rewrite H. Qed.

Lemma emits_only_bind {X A B : Type} (view : globals -> X) (x : X)
    (test : event -> bool) (c : M A) (k : A -> M B) :
  appends c -> (forall a, appends (k a)) -> preserves view c ->
  emits_only view x test c -> (forall a, emits_only view x test (k a)) ->
  emits_only view x test (bind c k).
Proof.
  intros Hac Hak Hp Hc Hk m Hx.
  rewrite emitted_bind, forallb_app by assumption.
  rewrite (Hc m Hx), Hk; [ reflexivity | ]. now rewrite Hp.
Qed.

Lemma emits_only_silent {X A : Type} (view : globals -> X) (x : X)
    (test : event -> bool) (c : M A) :
  (forall m, emitted c m = []) -> emits_only view x test c.
Proof. intros H m _. now rewrite H. Qed.

Lemma emits_only_ret {X A : Type} (view : globals -> X) (x : X)
    (test : event -> bool) (a : A) :
  emits_only view x test (ret a : M A).
Proof. apply emits_only_silent. intros m. apply emitted_ret. Qed.

Lemma emitted_silent {A : Type} (c : M A) (m : machine) :
  out (after c m) = out m -> emitted c m = [].
Proof. intros H. unfold emitted. rewrite H. apply skipn_all. Qed.

Lemma emits_only_read {X : Type} (view : globals -> X) (x : X) (test : event -> bool) :
  emits_only view x test read.
Proof. apply emits_only_silent. intros m. now apply emitted_silent. Qed.

Lemma emits_only_read_spr {X : Type} (view : globals -> X) (x : X) (test : event -> bool) :
  emits_only view x test read_spr.
Proof. apply emits_only_silent. intros m. now apply emitted_silent. Qed.

Lemma emits_only_assign {X : Type} (view : globals -> X) (x : X) (test : event -> bool)
    (f : globals -> globals) :
  emits_only view x test (assign f).
Proof. apply emits_only_silent. intros m. now apply emitted_silent. Qed.

Lemma emits_only_emit {X : Type} (view : globals -> X) (x : X) (test : event -> bool)
    (e : event) :
  test e = true -> emits_only view x test (emit e).
Proof. intros H m _. rewrite emitted_emit. cbn. now rewrite H. Qed.

Lemma emits_only_setTextDatum {X : Type} (view : globals -> X) (x : X)
    (test : event -> bool) (d : datum) :
  test (SprSetTextDatum d) = true -> emits_only view x test (spr_setTextDatum d).
Proof.
  intros H m _. unfold emitted. cbn. rewrite skipn_length_app. cbn. now rewrite H.
Qed.

Lemma emits_only_setPivot {X : Type} (view : globals -> X) (x : X)
    (test : event -> bool) (px py : Z) :
  test (SprSetPivot px py) = true -> emits_only view x test (spr_setPivot px py).
Proof.
  intros H m _. unfold emitted. cbn. rewrite skipn_length_app. cbn. now rewrite H.
Qed.

Lemma emits_only_when {X : Type} (view : globals -> X) (x : X) (test : event -> bool)
    (b : bool) (c : M unit) :
  emits_only view x test c -> emits_only view x test (when b c).
Proof. intros H. destruct b; [ exact H | apply emits_only_ret ]. Qed.

Lemma emits_only_if {X A : Type} (view : globals -> X) (x : X) (test : event -> bool)
    (b : bool) (c1 c2 : M A) :
  emits_only view x test c1 -> emits_only view x test c2 ->
  emits_only view x test (if b then c1 else c2).
Proof. now destruct b. Qed.

Lemma emits_only_filter {X A : Type} (view : globals -> X) (x : X)
    (test : event -> bool) (c : M A) (m : machine) :
  emits_only view x (fun e => negb (test e)) c -> view (vars m) = x ->
  filter test (emitted c m) = [].
Proof.
  intros H Hx. specialize (H m Hx). induction (emitted c m) as [| e l IH].
  - reflexivity.
  - cbn in H |- *. apply andb_true_iff in H. destruct H as [He Hl].
    apply negb_true_iff in He. rewrite He. now apply IH.
Qed.

Create HintDb framing discriminated.
Create HintDb muted discriminated.

#[local] Hint Resolve emits_only_ret emits_only_read emits_only_read_spr
  emits_only_assign : muted.

Ltac framing :=
  repeat match goal with
    | |- preserves _ (bind _ _) => apply preserves_bind; [ | intros ? ]
    | |- preserves _ (when _ _) => apply preserves_when
    | |- preserves _ (if _ then _ else _) => apply preserves_if
    | |- preserves _ (let _ := _ in _) => cbv zeta
    | |- preserves _ (assign _) => apply preserves_assign; intros ?; reflexivity
    | |- preserves _ _ =>
        first [ solve [ auto with framing ]
              | apply keeps_preserves; solve [ auto with silent ] ]
    end.

Ltac muted :=
  repeat match goal with
    | |- emits_only _ _ _ (bind _ _) =>
        apply emits_only_bind;
          [ solve [ growing ]
          | intros ?; solve [ growing ]
          | solve [ framing ]
          |
          | intros ? ]
    | |- emits_only _ _ _ (when _ _) => apply emits_only_when
    | |- emits_only _ _ _ (if _ then _ else _) => apply emits_only_if
    | |- emits_only _ _ _ (let _ := _ in _) => cbv zeta
    | |- emits_only _ _ _ (emit _) => apply emits_only_emit; reflexivity
    | |- emits_only _ _ _ (spr_setTextDatum _) =>
        apply emits_only_setTextDatum; reflexivity
    | |- emits_only _ _ _ (spr_setPivot _ _) =>
        apply emits_only_setPivot; reflexivity
    | |- emits_only _ _ _ _ => solve [ auto with muted ]
    end.

Lemma preserves_useLed {A : Type} (c : M A) :
  preserves stored_config c -> preserves useLed c.
Proof. intros H m. exact (f_equal cfg_useLed (H m)). Qed.

Section Configuration.

Context {board : Platform}.

#[local] Hint Resolve keeps_vars_showMessage keeps_vars_setLEDColor
  keeps_vars_await_link keeps_vars_connectWiFi keeps_vars_updateBGValue
  keeps_vars_updateDelta keeps_vars_updateTimestamp keeps_vars_updateDisplay
  keeps_vars_updateLED : silent.
#[local] Hint Resolve fetchStatus_preserves_config fetchData_preserves_config : framing.

Lemma poll_status_preserves_config (t : tick) (now : Z) :
  preserves stored_config (poll_status t now).
Proof. unfold poll_status. framing. Qed.

Lemma poll_data_preserves_config (t : tick) (now : Z) :
  preserves stored_config (poll_data t now).
Proof. unfold poll_data. framing. Qed.

Lemma refresh_preserves_config (t : tick) (now : Z) (d s : bool) :
  preserves stored_config (refresh t now d s).
Proof. unfold refresh. framing. Qed.

#[local] Hint Resolve poll_status_preserves_config poll_data_preserves_config
  refresh_preserves_config : framing.

(** X13.  No pass of [loop] changes the configuration: the WiFi
    credentials, the server address, the token, the unit and LED settings
    and the LED intensity are after every pass what [readConfig] left. *)
Theorem loop_keeps_configuration (t : tick) (m : machine) :
  stored_config (vars (after (loop t) m)) = stored_config (vars m).
Proof. apply preserved. unfold loop. framing. Qed.

End Configuration.

(** ** The LED when it is switched off *)

Section LedOff.

Context {board : Platform}.

#[local] Hint Resolve keeps_vars_showMessage keeps_vars_setLEDColor
  keeps_vars_await_link keeps_vars_connectWiFi keeps_vars_updateBGValue
  keeps_vars_updateDelta keeps_vars_updateTimestamp keeps_vars_updateDisplay
  keeps_vars_updateLED : silent.
#[local] Hint Resolve appends_showMessage appends_setLEDColor appends_await_link
  appends_connectWiFi appends_fetchStatus appends_fetchData
  appends_updateBGValue appends_updateDelta appends_updateTimestamp
  appends_updateDisplay appends_updateLED appends_poll_status
  appends_poll_data appends_refresh : growing.

Local Abbreviation dark := (emits_only useLed false not_led).

Lemma dark_config {A : Type} (c : M A) :
  preserves stored_config c -> preserves useLed c.
Proof. apply preserves_useLed. Qed.

#[local] Hint Resolve dark_config : framing.
#[local] Hint Resolve fetchStatus_preserves_config fetchData_preserves_config
  poll_status_preserves_config poll_data_preserves_config
  refresh_preserves_config : framing.

Lemma dark_setLEDColor (r g b : Z) : dark (setLEDColor r g b).
Proof.
  intros m Hoff. unfold setLEDColor.
  rewrite emitted_read_bind, Hoff. cbn [when]. now rewrite emitted_ret.
Qed.

Lemma dark_showMessage (l1 l2 : string) (d : Z) : dark (showMessage l1 l2 d).
Proof. unfold showMessage. muted. Qed.

#[local] Hint Resolve dark_setLEDColor dark_showMessage : muted.

Lemma dark_await_link (link : nat -> bool) (budget retries : nat) :
  dark (await_link link budget retries).
Proof.
  revert retries. induction budget as [| budget IH]; intros retries; cbn [await_link].
  - muted.
  - destruct (link retries); muted.
Qed.

#[local] Hint Resolve dark_await_link : muted.

Lemma dark_connectWiFi (link : nat -> bool) (ip : string) : dark (connectWiFi link ip).
Proof. unfold connectWiFi. muted. Qed.

Lemma dark_fetchStatus (wifi : bool) (resp : response) : dark (fetchStatus wifi resp).
Proof.
  unfold fetchStatus. destruct wifi; cbn [negb]; [ | muted ].
  destruct (body resp) as [doc |]; muted.
Qed.

Lemma dark_fetchData (wifi : bool) (resp : response) (clock : Z) :
  dark (fetchData wifi resp clock).
Proof.
  unfold fetchData. destruct wifi; cbn [negb]; [ | muted ].
  destruct (body resp) as [doc |]; muted.
Qed.

Lemma dark_updateBGValue (clock : Z) : dark (updateBGValue clock).
Proof. unfold updateBGValue. muted. Qed.

Lemma dark_updateDelta : dark updateDelta.
Proof. unfold updateDelta. muted. Qed.

Lemma dark_updateTimestamp (clock : Z) : dark (updateTimestamp clock).
Proof. unfold updateTimestamp. muted. Qed.

#[local] Hint Resolve dark_connectWiFi dark_fetchStatus dark_fetchData
  dark_updateBGValue dark_updateDelta dark_updateTimestamp : muted.

Lemma dark_updateDisplay (c1 c2 : Z) : dark (updateDisplay c1 c2).
Proof. unfold updateDisplay. muted. Qed.

Lemma dark_updateLED : dark updateLED.
Proof. unfold updateLED. muted. Qed.

#[local] Hint Resolve dark_updateDisplay dark_updateLED : muted.

Lemma dark_poll_status (t : tick) (now : Z) : dark (poll_status t now).
Proof. unfold poll_status. muted. Qed.

Lemma dark_poll_data (t : tick) (now : Z) : dark (poll_data t now).
Proof. unfold poll_data. muted. Qed.

Lemma dark_refresh (t : tick) (now : Z) (d s : bool) : dark (refresh t now d s).
Proof. unfold refresh. muted. Qed.

#[local] Hint Resolve dark_poll_status dark_poll_data dark_refresh : muted.

Lemma dark_loop (t : tick) : dark (loop t).
Proof. unfold loop. muted. Qed.

(** X14.  With [use_led] off, no pass of [loop] writes the LED: neither the
    blue of [connectWiFi] nor any colour of [updateLED]. *)
Theorem loop_led_disabled_never_written (t : tick) (m : machine) :
  useLed (vars m) = false ->
  filter led_write (emitted (loop t) m) = [].
Proof.
  intros Hoff.
  apply (emits_only_filter useLed false led_write (loop t) m); [ | exact Hoff ].
  exact (dark_loop t).
Qed.

End LedOff.

(** ** A pass that finds the link down *)

Section LinkDown.

Context {board : Platform}.

#[local] Hint Resolve keeps_vars_showMessage keeps_vars_setLEDColor
  keeps_vars_await_link : silent.
#[local] Hint Resolve appends_showMessage appends_setLEDColor appends_await_link
  appends_connectWiFi appends_fetchStatus appends_fetchData : growing.

Local Abbreviation quiet := (emits_only (fun _ : globals => tt) tt not_request).

Lemma quiet_showMessage (l1 l2 : string) (d : Z) : quiet (showMessage l1 l2 d).
Proof. unfold showMessage. muted. Qed.

Lemma quiet_setLEDColor (r g b : Z) : quiet (setLEDColor r g b).
Proof. unfold setLEDColor. muted. Qed.

#[local] Hint Resolve quiet_showMessage quiet_setLEDColor : muted.

Lemma quiet_await_link (link : nat -> bool) (budget retries : nat) :
  quiet (await_link link budget retries).
Proof.
  revert retries. induction budget as [| budget IH]; intros retries; cbn [await_link].
  - muted.
  - destruct (link retries); muted.
Qed.

#[local] Hint Resolve quiet_await_link : muted.

Lemma quiet_connectWiFi (link : nat -> bool) (ip : string) : quiet (connectWiFi link ip).
Proof. unfold connectWiFi. muted. Qed.

Lemma loop_link_down (t : tick) (m : machine) :
  t_wifi t = false ->
  after (loop t) m =
    after (when (t_wifi_after t)
             (status_ok <- fetchStatus (t_status_wifi t) (t_status t) ;;
              data_ok <- fetchData (t_data_wifi t) (t_data t) (t_data_millis t) ;;
              assign (set_lastStatusFetchTime (millis (t_millis t))) ;;
              assign (set_lastDataFetchTime (millis (t_millis t)))))
      (after (connectWiFi (t_link t) (t_ip t)) m).
Proof.
  intros Hdown. unfold loop. rewrite Hdown. cbn [negb].
  now rewrite after_bind.
Qed.


End LinkDown.

(** ** How long [connectWiFi] waits *)

Lemma total_delay_app (l k : list event) :
  total_delay (l ++ k) = total_delay l + total_delay k.
Proof.
  induction l as [| e l IH]; [ reflexivity | ].
  cbn [app total_delay]. destruct e; rewrite IH; lia.
Qed.

Lemma first_up_bounds (link : nat -> bool) (budget retries : nat) :
  (retries <= first_up link budget retries <= retries + budget)%nat.
Proof.
  revert retries. induction budget as [| budget IH]; intros retries; cbn [first_up].
  - lia.
  - destruct (link retries); [ lia | ]. specialize (IH (S retries)). lia.
Qed.

Section Waiting2.

Context {board : Platform}.

#[local] Hint Resolve appends_showMessage appends_setLEDColor appends_await_link : growing.

Lemma await_link_first_up (link : nat -> bool) (budget retries : nat) (m : machine) :
  result (await_link link budget retries) m = first_up link budget retries /\
  vars (after (await_link link budget retries) m) = vars m /\
  total_delay (emitted (await_link link budget retries) m) =
    500 * (Z.of_nat (first_up link budget retries) - Z.of_nat retries).
Proof.
  revert retries m. induction budget as [| budget IH]; intros retries m;
    cbn [await_link first_up].
  - rewrite emitted_ret. cbn [total_delay]. repeat split. lia.
  - destruct (link retries).
    + rewrite emitted_ret. cbn [total_delay]. repeat split. lia.
    + rewrite result_bind, after_bind, emitted_bind by growing.
      destruct (IH (S retries) (after (emit (Delay 500)) m)) as (Hr & Hv & Hd).
      rewrite Hr, Hv, total_delay_app, Hd, emitted_emit. cbn [total_delay].
      repeat split.
      pose proof (first_up_bounds link budget (S retries)). lia.
Qed.

Lemma showMessage_delay (l1 l2 : string) (d : Z) (m : machine) :
  total_delay (emitted (showMessage l1 l2 d) m) = d.
Proof.
  destruct m as [v s o]. unfold emitted, after, run, showMessage.
  cbn -[skipn Z.quot Z.sub Z.add].
  destruct (negb (l2 =? "")%string); cbn -[skipn Z.quot Z.sub Z.add];
    rewrite <- !app_assoc, skipn_length_app; cbn [app total_delay]; lia.
Qed.

Lemma setLEDColor_delay (r g b : Z) (m : machine) :
  total_delay (emitted (setLEDColor r g b) m) = 0.
Proof.
  unfold setLEDColor. rewrite emitted_read_bind, emitted_when.
  destruct (useLed (vars m)); [ now rewrite emitted_emit | reflexivity ].
Qed.

(** X16.  [connectWiFi] waits a bounded time.  With an SSID it spends one
    second on its first message, half a second for every poll that finds
    the link down, at most thirty of them, and two seconds on success or
    five on failure; without an SSID six seconds in all.  That is never more
    than 21 seconds, and no global changes. *)
Theorem connectWiFi_waits_bounded (link : nat -> bool) (ip : string) (m : machine) :
  let polls := first_up link 30 0 in
  let waited := total_delay (emitted (connectWiFi link ip) m) in
  (polls <= 30)%nat /\
  waited =
    (if String.eqb (wifiSSID (vars m)) "" then 6000
     else 1000 + 500 * Z.of_nat polls + if link (S polls) then 2000 else 5000) /\
  waited <= 21000 /\
  vars (after (connectWiFi link ip) m) = vars m.
Proof.
  cbv zeta. pose proof (first_up_bounds link 30 0) as Hpolls.
  assert (Hwait : total_delay (emitted (connectWiFi link ip) m) =
    (if String.eqb (wifiSSID (vars m)) "" then 6000
     else 1000 + 500 * Z.of_nat (first_up link 30 0) +
          if link (S (first_up link 30 0)) then 2000 else 5000)).
  { unfold connectWiFi. rewrite emitted_read_bind.
    rewrite emitted_bind by growing. rewrite total_delay_app, setLEDColor_delay.
    rewrite emitted_bind by growing. rewrite total_delay_app, showMessage_delay.
    rewrite emitted_bind by growing.
    rewrite total_delay_app, setLEDColor_delay.
    destruct (String.eqb (wifiSSID (vars m)) ""); cbn [negb].
    - rewrite showMessage_delay. reflexivity.
    - rewrite emitted_bind by growing. rewrite total_delay_app, emitted_emit.
      rewrite emitted_bind by growing. rewrite total_delay_app, emitted_emit.
      rewrite emitted_bind by growing.
      match goal with
      | |- context [ emitted (await_link link 30 0) ?m0 ] =>
          destruct (await_link_first_up link 30 0 m0) as (Hr & _ & Hd)
      end.
      rewrite total_delay_app, Hd, Hr.
      destruct (link (S (first_up link 30 0))); rewrite showMessage_delay;
        cbn [total_delay]; lia. }
  split; [ lia | ]. split; [ exact Hwait | ]. split.
  - rewrite Hwait. destruct (String.eqb (wifiSSID (vars m)) ""); [ lia | ].
    destruct (link (S (first_up link 30 0))); lia.
  - apply keeps_vars_connectWiFi.
Qed.

End Waiting2.

(** ** Drawing *)

Section Drawing.

Context {board : Platform}.

Ltac draw_out :=
  unfold emitted, after, run;
  cbn -[skipn Z.eqb Z.geb Z.gtb Z.quot Z.sub Z.add String_of_int isStale
        getTrendArrowRotation isDoubleTrendArrow getBGValue Fp.gt Fp.lt
        Fp.of_Z32 millis u32 u64 zone_write].

(** X17.  Drawing changes no data: [showMessage], [updateDisplay] and
    [updateLED] leave every global as it was. *)
Theorem drawing_keeps_globals
    (l1 l2 : string) (d bg_clock ts_clock : Z) (m : machine) :
  vars (after (showMessage l1 l2 d) m) = vars m /\
  vars (after (updateDisplay bg_clock ts_clock) m) = vars m /\
  vars (after updateLED m) = vars m.
Proof.
  split; [ apply keeps_vars_showMessage | ].
  split; [ apply keeps_vars_updateDisplay | apply keeps_vars_updateLED ].
Qed.

(** X18.  [updateBGValue] and [updateDelta] put back the text datum they
    found, and [updateDisplay] puts back the pivot it moves for the second
    arrow: after a frame the pivot of [spr] is where it was. *)
Theorem drawing_restores_sprite_state (bg_clock ts_clock : Z) (m : machine) :
  spr (after (updateBGValue bg_clock) m) = spr m /\
  spr (after updateDelta m) = spr m /\
  pivotX (spr (after (updateDisplay bg_clock ts_clock) m)) = pivotX (spr m) /\
  pivotY (spr (after (updateDisplay bg_clock ts_clock) m)) = pivotY (spr m).
Proof.
  destruct m as [v [td px py] o].
  split; [ | split; [ | split ] ].
  - unfold updateBGValue. draw_out. now destruct (isStale bg_clock v).
  - unfold updateDelta. draw_out. reflexivity.
  - unfold updateDisplay, showMessage, updateBGValue, updateDelta, updateTimestamp.
    draw_out. destruct (lastTimestamp v =? 0); draw_out; [ reflexivity | ].
    destruct (isStale bg_clock v), (getTrendArrowRotation (trend v) >=? 0),
      (isDoubleTrendArrow (trend v)); reflexivity.
  - unfold updateDisplay, showMessage, updateBGValue, updateDelta, updateTimestamp.
    draw_out. destruct (lastTimestamp v =? 0); draw_out; [ reflexivity | ].
    destruct (isStale bg_clock v), (getTrendArrowRotation (trend v) >=? 0),
      (isDoubleTrendArrow (trend v)); reflexivity.
Qed.

Lemma equalsIgnoreCase_lower (a b : string) :
  Str.equalsIgnoreCase a b = true <-> Str.lower a = Str.lower b.
Proof. unfold Str.equalsIgnoreCase. apply String.eqb_eq. Qed.

(** X19.  The rotation of the arrow does not depend on the case of the
    letters of the trend code: two codes that [equalsIgnoreCase] holds equal
    get the same rotation. *)
Theorem rotation_ignores_case (a b : string) :
  Str.equalsIgnoreCase a b = true ->
  getTrendArrowRotation a = getTrendArrowRotation b /\ recognized a = recognized b.
Proof.
  intros Hab. apply equalsIgnoreCase_lower in Hab.
  unfold getTrendArrowRotation, recognized, trend_codes, Str.equalsIgnoreCase.
  cbn [existsb]. rewrite Hab. split; reflexivity.
Qed.

(** X20.  The age that [updateTimestamp] draws.  With a reading acquired at
    a time not after the clock, it is the whole minutes since then; with
    [lastUpdate] at 0 it is a question mark. *)
Theorem updateTimestamp_draws_minutes (clock : Z) (m : machine) :
  0 <= lastUpdate (vars m) <= millis clock ->
  emitted (updateTimestamp clock) m =
    [ SprSetTextDatum TC_DATUM; SprSetFreeFont FSS18;
      SprDrawString
        (if lastUpdate (vars m) =? 0 then "?"
         else String_of_int ((millis clock - lastUpdate (vars m)) / 60000))
        250 100 GFXFF;
      SprSetFreeFont FSS12; SprDrawString "min. ago" 250 135 GFXFF;
      SprSetTextColor TFT_WHITE ].
Proof.
  intros Hrange. destruct m as [v s o]. cbn [vars] in *.
  assert (Hclock : 0 <= millis clock < 4294967296) by apply u32_range.
  assert (Htext :
    (if lastUpdate v >? 0
     then String_of_int (u32 (u64 (millis clock - lastUpdate v)) ÷ 60000)
     else "?") =
    (if lastUpdate v =? 0 then "?"
     else String_of_int ((millis clock - lastUpdate v) / 60000))).
  { destruct (Z.eqb_spec (lastUpdate v) 0) as [-> | Hne].
    - reflexivity.
    - replace (lastUpdate v >? 0) with true by (symmetry; apply Z.gtb_lt; lia).
      assert (H64 : u64 (millis clock - lastUpdate v) = millis clock - lastUpdate v).
      { apply u64_small. change (2 ^ 64) with 18446744073709551616. lia. }
      assert (H32 : u32 (millis clock - lastUpdate v) = millis clock - lastUpdate v).
      { unfold u32. apply Z.mod_small. change (2 ^ 32) with 4294967296. lia. }
      rewrite H64, H32. now rewrite Z.quot_div_nonneg by lia. }
  unfold updateTimestamp. draw_out. rewrite Htext.
  rewrite <- !app_assoc. apply skipn_length_app.
Qed.

(** [updateLED] writes the LED once, with the colour of the zone the stored
    value lies in, when a reading is stored and the LED is enabled, and not
    at all otherwise. *)
Lemma updateLED_writes_zone_colour (m : machine) :
  emitted updateLED m =
    if negb (lastTimestamp (vars m) =? 0) && useLed (vars m)
    then [zone_write (vars m)] else [].
Proof.
  destruct m as [v s o]. cbn [vars].
  unfold updateLED, setLEDColor, zone_write, colour_write, zone_of.
  unfold emitted, after, run.
  cbn -[skipn Z.eqb Fp.gt Fp.lt Fp.of_Z32].
  destruct (lastTimestamp v =? 0); cbn -[skipn Fp.gt Fp.lt Fp.of_Z32];
    [ apply skipn_all | ].
  destruct (Fp.lt (bg v) (Fp.of_Z32 (lowUrgent v)) || Fp.gt (bg v) (Fp.of_Z32 (highUrgent v)));
    [ | destruct (Fp.lt (bg v) (Fp.of_Z32 (lowWarning v))
                  || Fp.gt (bg v) (Fp.of_Z32 (highWarning v))) ];
    cbn -[skipn]; destruct (useLed v); cbn -[skipn];
    try apply skipn_all; apply skipn_length_app.
Qed.

(** X22.  A frame with a reading: it starts by clearing the sprite, pushes
    the sprite to the panel once, last of all, never calls [delay], and
    carries the first arrow exactly when the trend code is a known one. *)
Theorem updateDisplay_frame_shape (bg_clock ts_clock : Z) (m : machine) :
  lastTimestamp (vars m) <> 0 ->
  let frame := emitted (updateDisplay bg_clock ts_clock) m in
  hd_error frame = Some (SprFillSprite TFT_BLACK) /\
  last frame (Delay 0) = SprPushSprite 0 0 /\
  count_events push_sprite frame = 1%nat /\
  total_delay frame = 0 /\
  count_events first_arrow frame =
    (if recognized (trend (vars m)) then 1%nat else 0%nat).
Proof.
  intros Hshown. apply Z.eqb_neq in Hshown. cbv zeta.
  destruct m as [v s o]. cbn [vars] in *. rewrite <- rotation_recognized.
  unfold updateDisplay, showMessage, updateBGValue, updateDelta, updateTimestamp.
  draw_out. rewrite Hshown. draw_out.
  destruct (isStale bg_clock v), (getTrendArrowRotation (trend v) >=? 0),
    (isDoubleTrendArrow (trend v));
    cbn -[skipn Z.quot Z.sub Z.add getTrendArrowRotation getBGValue Fp.gt Z.gtb
          String_of_int millis u32 u64];
    rewrite <- !app_assoc, skipn_length_app; repeat split.
Qed.

End Drawing.

(** ** The zones of the LED *)

Lemma float_table_In (n : Z) :
  0 <= n <= 600 -> In (n, Fp.of_Z32 n) float_table.
Proof.
  intros Hn. unfold float_table.
  apply (in_map (fun z => (z, Fp.of_Z32 z))). apply Zseq_In.
  rewrite Z2Nat.id by discriminate. lia.
Qed.

(** On whole numbers from 0 to 600 the comparisons of [float] agree with
    those of the integers. *)
Lemma of_Z32_compare (a b : Z) :
  0 <= a <= 600 -> 0 <= b <= 600 ->
  Fp.lt (Fp.of_Z32 a) (Fp.of_Z32 b) = (a <? b) /\
  Fp.gt (Fp.of_Z32 a) (Fp.of_Z32 b) = (a >? b).
Proof.
  intros Ha Hb.
  assert (Hall :
    forallb (fun x =>
      forallb (fun y =>
        Bool.eqb (Fp.lt (snd x) (snd y)) (fst x <? fst y) &&
        Bool.eqb (Fp.gt (snd x) (snd y)) (fst x >? fst y)) float_table)
      float_table = true) by (vm_compute; reflexivity).
  rewrite forallb_forall in Hall.
  specialize (Hall _ (float_table_In a Ha)). rewrite forallb_forall in Hall.
  specialize (Hall _ (float_table_In b Hb)). cbn [fst snd] in Hall.
  apply andb_true_iff in Hall. destruct Hall as [Hlt Hgt].
  split; now apply Bool.eqb_prop.
Qed.

(** X21.  The colour of the LED for a stored value of [n] mg/dL, with [n]
    and the four thresholds whole numbers from 0 to 600: red when [n] is
    below [lowUrgent] or above [highUrgent], else yellow when it is below
    [lowWarning] or above [highWarning], else green; a value equal to a
    threshold is inside.  [updateLED] writes that colour once when a reading
    is stored and the LED is enabled, and nothing otherwise. *)
Theorem updateLED_zone_by_thresholds (n : Z) (m : machine) :
  bg (vars m) = Fp.of_Z32 n ->
  0 <= n <= 600 ->
  0 <= lowUrgent (vars m) <= 600 -> 0 <= lowWarning (vars m) <= 600 ->
  0 <= highWarning (vars m) <= 600 -> 0 <= highUrgent (vars m) <= 600 ->
  emitted updateLED m =
    if negb (lastTimestamp (vars m) =? 0) && useLed (vars m)
    then [colour_write (int_zone n (vars m)) (vars m)] else [].
Proof.
  intros Hbg Hn Hlu Hlw Hhw Hhu.
  rewrite updateLED_writes_zone_colour.
  unfold zone_write, zone_of, int_zone. rewrite Hbg.
  destruct (of_Z32_compare n (lowUrgent (vars m)) Hn Hlu) as [-> _].
  destruct (of_Z32_compare n (highUrgent (vars m)) Hn Hhu) as [_ ->].
  destruct (of_Z32_compare n (lowWarning (vars m)) Hn Hlw) as [-> _].
  destruct (of_Z32_compare n (highWarning (vars m)) Hn Hhw) as [_ ->].
  reflexivity.
Qed.

(** ** The server address *)

Lemma removeLast_length (s : string) :
  String.length (Text.removeLast s) = pred (String.length s).
Proof.
  induction s as [| c r IH]; [ reflexivity | ].
  destruct r as [| c' r']; [ reflexivity | ].
  change (Text.removeLast (String c (String c' r')))
    with (String c (Text.removeLast (String c' r'))).
  cbn [String.length]. rewrite IH. reflexivity.
Qed.

Lemma endsWithSlash_split (s : string) :
  Text.endsWithSlash s = true -> s = Text.removeLast s ++ "/".
Proof.
  induction s as [| c r IH]; [ discriminate | ].
  destruct r as [| c' r'].
  - cbn. intros H. apply Ascii.eqb_eq in H. now subst c.
  - change (Text.endsWithSlash (String c (String c' r')))
      with (Text.endsWithSlash (String c' r')).
    change (Text.removeLast (String c (String c' r')))
      with (String c (Text.removeLast (String c' r'))).
    intros H. cbn [append]. now rewrite <- IH.
Qed.

Lemma slashes_snoc (n : nat) : Text.slashes n ++ "/" = Text.slashes (S n).
Proof.
  induction n as [| n IH]; [ reflexivity | ].
  cbn [Text.slashes append] in *. now rewrite IH.
Qed.

Lemma append_slashes_assoc (s : string) (n : nat) :
  (s ++ Text.slashes n) ++ "/" = s ++ Text.slashes (S n).
Proof.
  induction s as [| c r IH]; [ apply slashes_snoc | ].
  cbn [append]. now rewrite IH.
Qed.

Lemma append_empty (s : string) : s ++ "" = s.
Proof. induction s as [| c r IH]; [ reflexivity | ]. cbn [append]. now rewrite IH. Qed.

Lemma strip_slashes_aux_spec (budget : nat) (s : string) :
  (String.length s <= budget)%nat ->
  Text.endsWithSlash (Text.strip_slashes_aux budget s) = false /\
  exists n, s = Text.strip_slashes_aux budget s ++ Text.slashes n.
Proof.
  revert s. induction budget as [| budget IH]; intros s Hlen.
  - destruct s; [ | cbn in Hlen; lia ].
    split; [ reflexivity | ]. now exists 0%nat.
  - cbn [Text.strip_slashes_aux].
    destruct (Text.endsWithSlash s) eqn:Hslash.
    + destruct (IH (Text.removeLast s)) as [Hend [n Hn]].
      { rewrite removeLast_length. lia. }
      split; [ exact Hend | ]. exists (S n).
      rewrite <- append_slashes_assoc, <- Hn. now apply endsWithSlash_split.
    + split; [ exact Hslash | ]. exists 0%nat. now rewrite append_empty.
Qed.

(** X23.  The loop that strips the server address ends with an address
    that has no slash at its end, and takes away slashes at the end and
    nothing else. *)
Theorem strip_slashes_spec (s : string) :
  Text.endsWithSlash (Text.strip_slashes s) = false /\
  exists n, s = Text.strip_slashes s ++ Text.slashes n.
Proof. apply strip_slashes_aux_spec. apply le_n. Qed.

(** ** Reading the configuration *)

Section Config.

Context {board : Platform}.
Variable other_as_bool : json -> bool.

Ltac boot_out :=
  unfold b_emitted, b_after, b_result, readConfig, setup, createTrendArrow, lift,
    showMessage, run;
  cbn -[skipn Z.quot Z.sub Z.add Text.trim Text.strip_slashes containsKey member
        as_String as_bool].

(** X24.  [readConfig] returns true exactly when [/config.json] opens and
    parses.  When it returns false it has changed none of the globals. *)
Theorem readConfig_failure_keeps_globals
    (file : option (option json)) (b : boot_machine) :
  (b_result (readConfig other_as_bool file) b = true <->
     exists doc, file = Some (Some doc)) /\
  (b_result (readConfig other_as_bool file) b = false ->
     b_vars (b_after (readConfig other_as_bool file) b) = b_vars b).
Proof.
  destruct b as [v s o]. destruct file as [[doc |] |]; boot_out.
  - destruct (containsKey doc "rotate" && as_bool other_as_bool (member doc "rotate")).
    + split; [ split; [ intros _; now exists doc | reflexivity ] | discriminate ].
    + split; [ split; [ intros _; now exists doc | reflexivity ] | discriminate ].
  - split; [ split; [ discriminate | intros [doc H]; discriminate ] | reflexivity ].
  - split; [ split; [ discriminate | intros [doc H]; discriminate ] | reflexivity ].
Qed.

Lemma member_present (doc : json) (k : string) (x : json) :
  member doc k = x -> x <> JNull -> containsKey doc k = true.
Proof.
  unfold member, containsKey. destruct doc; try congruence.
  destruct (assoc k l); congruence.
Qed.

(** X25.  What [readConfig] stores from a configuration that parses.  The
    server address is the given one without the white space around it and
    then without the slashes at its end, so it never ends in a slash; [mmol]
    and [use_led] are false when their key is absent and the given boolean
    when it is there; thresholds, timers, reading and LED intensity are not
    touched; and the panel is turned to rotation 1 exactly when [rotate] is
    set. *)
Theorem readConfig_stores_configuration (doc : json) (b : boot_machine) :
  let c := readConfig other_as_bool (Some (Some doc)) in
  let v' := b_vars (b_after c b) in
  let given := as_String serializeJson (member doc "nightscout_url") in
  nightscoutURL v' = Text.strip_slashes (Text.trim given) /\
  Text.endsWithSlash (nightscoutURL v') = false /\
  (exists n, Text.trim given = nightscoutURL v' ++ Text.slashes n) /\
  (containsKey doc "mmol" = false -> mmol v' = false) /\
  (containsKey doc "use_led" = false -> useLed v' = false) /\
  (forall flag, member doc "mmol" = JBool flag -> mmol v' = flag) /\
  (forall flag, member doc "use_led" = JBool flag -> useLed v' = flag) /\
  stored_thresholds v' = stored_thresholds (b_vars b) /\
  stored_timers v' = stored_timers (b_vars b) /\
  stored_reading v' = stored_reading (b_vars b) /\
  ledIntensity v' = ledIntensity (b_vars b) /\
  List.length (filter (rotation_set 1) (b_emitted c b)) =
    (if containsKey doc "rotate" && as_bool other_as_bool (member doc "rotate")
     then 1%nat else 0%nat).
Proof.
  cbv zeta. destruct b as [v s o].
  destruct (strip_slashes_aux_spec
              (String.length
                 (Text.trim (as_String serializeJson (member doc "nightscout_url"))))
              (Text.trim (as_String serializeJson (member doc "nightscout_url")))
              (le_n _))
    as [Hend Hsplit].
  fold (Text.strip_slashes
          (Text.trim (as_String serializeJson (member doc "nightscout_url"))))
    in Hend, Hsplit.
  assert (Hvars :
    b_vars (b_after (readConfig other_as_bool (Some (Some doc))) (mkBoot v s o)) =
    set_nightscoutURL
      (Text.strip_slashes
         (Text.trim (as_String serializeJson (member doc "nightscout_url"))))
      (set_useLed (containsKey doc "use_led" && as_bool other_as_bool (member doc "use_led"))
         (set_mmol (containsKey doc "mmol" && as_bool other_as_bool (member doc "mmol"))
            (set_accessToken (as_String serializeJson (member doc "access_token"))
               (set_wifiPassword (as_String serializeJson (member doc "wifi_password"))
                  (set_wifiSSID (as_String serializeJson (member doc "wifi_ssid")) v)))))).
  { boot_out.
    destruct (containsKey doc "rotate" && as_bool other_as_bool (member doc "rotate"));
      reflexivity. }
  rewrite Hvars. cbn [nightscoutURL set_nightscoutURL mmol useLed set_useLed set_mmol
    b_vars].
  split; [ reflexivity | ]. split; [ exact Hend | ]. split; [ exact Hsplit | ].
  split; [ intros ->; reflexivity | ]. split; [ intros ->; reflexivity | ].
  split.
  { intros flag Hflag.
    rewrite (member_present doc "mmol" (JBool flag) Hflag) by discriminate.
    now rewrite Hflag. }
  split.
  { intros flag Hflag.
    rewrite (member_present doc "use_led" (JBool flag) Hflag) by discriminate.
    now rewrite Hflag. }
  split; [ reflexivity | ]. split; [ reflexivity | ]. split; [ reflexivity | ].
  split; [ reflexivity | ].
  boot_out.
  destruct (containsKey doc "rotate" && as_bool other_as_bool (member doc "rotate"));
    cbn -[skipn Z.quot Z.sub Z.add]; rewrite <- ?app_assoc, skipn_length_app; reflexivity.
Qed.

End Config.

(** ** Start-up *)

Section Setup.

Context {board : Platform}.
Variable other_as_bool : json -> bool.

Ltac setup_out :=
  unfold b_emitted, b_after, b_result, setup, readConfig, createTrendArrow, lift,
    showMessage, spr_setPivot, run;
  cbn -[skipn Z.quot Z.sub Z.add Text.trim Text.strip_slashes containsKey member
        as_String as_bool].

Ltac setup_cases sd :=
  destruct sd as [pins mount file];
  destruct pins, mount, file as [[doc |] |]; setup_out;
  try (destruct (containsKey doc "rotate" && as_bool other_as_bool (member doc "rotate"));
       cbn -[skipn Z.quot Z.sub Z.add Text.trim Text.strip_slashes containsKey member
             as_String as_bool]).

(** X26.  [setup] returns, instead of halting in one of its endless loops,
    exactly when the SD pins are accepted, the card mounts and
    [/config.json] opens and parses.  Only then is the arrow sprite
    created, and then the pivot of [spr] is at (260, 51).  Halting or not,
    [setup] leaves thresholds, timers and reading as the initialisers set
    them. *)
Theorem setup_outcome (sd : card) (b : boot_machine) :
  let c := setup other_as_bool sd in
  (b_result c b = Ready <->
     pins_ok sd = true /\ mount_ok sd = true /\
     exists doc, config_file sd = Some (Some doc)) /\
  List.length (filter arrow_created (b_emitted c b)) =
    match b_result c b with Ready => 1%nat | Halted => 0%nat end /\
  (b_result c b = Ready ->
     pivotX (b_spr (b_after c b)) = 260 /\ pivotY (b_spr (b_after c b)) = 51) /\
  stored_thresholds (b_vars (b_after c b)) = stored_thresholds (b_vars b) /\
  stored_timers (b_vars (b_after c b)) = stored_timers (b_vars b) /\
  stored_reading (b_vars (b_after c b)) = stored_reading (b_vars b).
Proof.
  cbv zeta. destruct b as [v s o]. setup_cases sd;
    (split;
     [ split;
       [ try discriminate; intros _; repeat split; eexists; reflexivity
       | try reflexivity;
         intros (Hp & Hm & d & Hd); discriminate ]
     | split;
       [ rewrite <- ?app_assoc, skipn_length_app; reflexivity
       | split; [ try discriminate; intros _; split; reflexivity
                | repeat split ] ] ]).
Qed.

End Setup.

(** ** The first pass after start-up *)

Lemma count_events_app (test : event -> bool) (l k : list event) :
  count_events test (l ++ k) = (count_events test l + count_events test k)%nat.
Proof. unfold count_events. now rewrite filter_app, length_app. Qed.

Section FirstPass.

Context {board : Platform}.
Variable other_as_bool : json -> bool.

#[local] Hint Resolve keeps_vars_showMessage keeps_vars_setLEDColor
  keeps_vars_updateBGValue keeps_vars_updateDelta keeps_vars_updateTimestamp
  keeps_vars_updateDisplay keeps_vars_updateLED : silent.
#[local] Hint Resolve appends_showMessage appends_setLEDColor
  appends_fetchStatus appends_fetchData appends_updateBGValue appends_updateDelta
  appends_updateTimestamp appends_updateDisplay appends_updateLED
  appends_poll_status appends_poll_data appends_refresh
  appends_connectWiFi appends_assign : growing.

Local Abbreviation quiet := (emits_only (fun _ : globals => tt) tt not_request).

Lemma quiet_updateBGValue (clock : Z) : quiet (updateBGValue clock).
Proof. unfold updateBGValue. muted. Qed.

Lemma quiet_updateDelta : quiet updateDelta.
Proof. unfold updateDelta. muted. Qed.

Lemma quiet_updateTimestamp (clock : Z) : quiet (updateTimestamp clock).
Proof. unfold updateTimestamp. muted. Qed.

#[local] Hint Resolve quiet_showMessage quiet_setLEDColor quiet_updateBGValue
  quiet_updateDelta quiet_updateTimestamp : muted.

Lemma quiet_updateDisplay (c1 c2 : Z) : quiet (updateDisplay c1 c2).
Proof. unfold updateDisplay. muted. Qed.

Lemma quiet_updateLED : quiet updateLED.
Proof. unfold updateLED. muted. Qed.

#[local] Hint Resolve quiet_updateDisplay quiet_updateLED : muted.

Lemma quiet_refresh (t : tick) (now : Z) (d s : bool) : quiet (refresh t now d s).
Proof. unfold refresh. muted. Qed.

Lemma refresh_requests (t : tick) (now : Z) (d s : bool) (m : machine) :
  count_events http_request (emitted (refresh t now d s) m) = 0%nat.
Proof.
  unfold count_events.
  rewrite (emits_only_filter (fun _ : globals => tt) tt http_request
             (refresh t now d s) m (quiet_refresh t now d s) eq_refl).
  reflexivity.
Qed.

Lemma emitted_assign (f : globals -> globals) (m : machine) :
  emitted (assign f) m = [].
Proof. now apply emitted_silent. Qed.

Lemma poll_status_requests (t : tick) (now : Z) (m : machine) :
  count_events http_request (emitted (poll_status t now) m) =
    if status_due now (vars m) && t_status_wifi t then 1%nat else 0%nat.
Proof.
  unfold poll_status. rewrite emitted_read_bind. fold (status_due now (vars m)).
  destruct (status_due now (vars m)); cbn [andb]; [ | now rewrite emitted_ret ].
  rewrite emitted_bind by growing. rewrite count_events_app.
  cbv zeta. rewrite emitted_bind by growing. rewrite count_events_app.
  rewrite emitted_when, emitted_ret.
  assert (Hrest : forall (b : bool) (m0 : machine),
            count_events http_request
              (if b then emitted (assign (set_lastStatusFetchTime now)) m0 else []) = 0%nat).
  { intros b m0. destruct b; [ now rewrite emitted_assign | reflexivity ]. }
  rewrite Hrest. cbn [count_events filter List.length]. rewrite !Nat.add_0_r.
  destruct (t_status_wifi t).
  - now destruct (fetchStatus_requests (t_status t) m) as (_ & _ & -> & _).
  - unfold fetchStatus. cbn [negb]. now rewrite emitted_ret.
Qed.

Lemma poll_data_requests (t : tick) (now : Z) (m : machine) :
  count_events http_request (emitted (poll_data t now) m) =
    if data_due now (vars m) && t_data_wifi t then 1%nat else 0%nat.
Proof.
  unfold poll_data. rewrite emitted_read_bind. fold (data_due now (vars m)).
  destruct (data_due now (vars m)); cbn [andb]; [ | now rewrite emitted_ret ].
  rewrite emitted_bind by growing. rewrite count_events_app.
  cbv zeta. rewrite emitted_bind by growing. rewrite count_events_app.
  rewrite emitted_when, emitted_ret.
  assert (Hrest : forall (b : bool) (m0 : machine),
            count_events http_request
              (if b then emitted (assign (set_lastDataFetchTime now)) m0 else []) = 0%nat).
  { intros b m0. destruct b; [ now rewrite emitted_assign | reflexivity ]. }
  rewrite Hrest. cbn [count_events filter List.length]. rewrite !Nat.add_0_r.
  destruct (t_data_wifi t).
  - now destruct (fetchData_requests (t_data t) (t_data_millis t) m) as (_ & _ & -> & _).
  - unfold fetchData. cbn [negb]. now rewrite emitted_ret.
Qed.

Lemma loop_request_count (t : tick) (m : machine) :
  t_wifi t = true ->
  count_events http_request (emitted (loop t) m) =
    ((if status_due (millis (t_millis t)) (vars m) && t_status_wifi t then 1 else 0) +
     (if data_due (millis (t_millis t)) (vars m) && t_data_wifi t then 1 else 0))%nat.
Proof.
  intros Hwifi. unfold loop. rewrite Hwifi. cbn [negb].
  rewrite emitted_bind by growing. rewrite count_events_app, poll_status_requests.
  rewrite emitted_bind by growing. rewrite count_events_app, poll_data_requests.
  rewrite refresh_requests, Nat.add_0_r.
  assert (Hdue : data_due (millis (t_millis t))
                   (vars (after (poll_status t (millis (t_millis t))) m)) =
                 data_due (millis (t_millis t)) (vars m)).
  { unfold data_due. rewrite poll_status_vars.
    destruct (timers_after_fetchStatus (t_status_wifi t) (t_status t) m) as (_ & Hd & _).
    destruct (status_due _ _); [ | reflexivity ].
    cbv zeta. destruct (status_answer_ok _ _); cbn; now rewrite Hd. }
  now rewrite Hdue.
Qed.

(** X27.  The requests of a pass that finds the link up: one for each poll
    that is due and still finds the link up, and none from the refresh. *)
Theorem loop_connected_requests (t : tick) (m : machine) :
  t_wifi t = true ->
  let now := millis (t_millis t) in
  count_events http_request (emitted (loop t) m) =
    ((if status_due now (vars m) && t_status_wifi t then 1 else 0) +
     (if data_due now (vars m) && t_data_wifi t then 1 else 0))%nat.
Proof. intros Hwifi. cbv zeta. now apply loop_request_count. Qed.

Lemma loop_reconnect_request_count (t : tick) (m : machine) :
  t_wifi t = false ->
  t_wifi_after t = true ->
  count_events http_request (emitted (loop t) m) =
    ((if t_status_wifi t then 1 else 0) + (if t_data_wifi t then 1 else 0))%nat.
Proof.
  intros Hdown Hup. unfold loop. rewrite Hdown, Hup. cbn [negb when].
  rewrite emitted_bind by growing. rewrite count_events_app.
  assert (Hquiet : count_events http_request
                     (emitted (connectWiFi (t_link t) (t_ip t)) m) = 0%nat).
  { unfold count_events.
    rewrite (emits_only_filter (fun _ : globals => tt) tt http_request
               (connectWiFi (t_link t) (t_ip t)) m
               (quiet_connectWiFi (t_link t) (t_ip t)) eq_refl).
    reflexivity. }
  rewrite Hquiet. cbn [Nat.add].
  rewrite emitted_bind by growing. rewrite count_events_app. cbv zeta.
  rewrite emitted_bind by growing. rewrite count_events_app.
  rewrite emitted_bind by growing. rewrite !emitted_assign.
  cbn [app count_events filter List.length]. rewrite Nat.add_0_r.
  f_equal.
  - destruct (t_status_wifi t).
    + now destruct (fetchStatus_requests (t_status t)
                      (after (connectWiFi (t_link t) (t_ip t)) m)) as (_ & _ & -> & _).
    + unfold fetchStatus. cbn [negb]. now rewrite emitted_ret.
  - destruct (t_data_wifi t).
    + now destruct (fetchData_requests (t_data t) (t_data_millis t)
                      (after (fetchStatus (t_status_wifi t) (t_status t))
                         (after (connectWiFi (t_link t) (t_ip t)) m)))
        as (_ & _ & -> & _).
    + unfold fetchData. cbn [negb]. now rewrite emitted_ret.
Qed.

(** X28.  Start-up and the first pass together.  When [setup] returns, the
    sprite has its pivot at (260, 51) and the datum of the last message, no
    reading is stored and the thresholds are the defaults 55, 70, 180 and
    240.  [setup] does not start the WiFi; the first pass, finding the link
    down, goes through [connectWiFi], and if that brings the link up and
    both polls still find it up, the pass requests both endpoints, whatever
    the clock shows, sets both poll timers to the current time and leaves
    the display timer at its 0. *)
Theorem first_pass_reconnects (sd : card) (t : tick) :
  b_result (setup other_as_bool sd) reset = Ready ->
  t_wifi t = false -> t_wifi_after t = true ->
  t_status_wifi t = true -> t_data_wifi t = true ->
  let m := hand_over (b_after (setup other_as_bool sd) reset) in
  spr m = spr_after_setup /\
  lastTimestamp (vars m) = 0 /\
  stored_thresholds (vars m) =
    {| th_lowUrgent := 55; th_lowWarning := 70;
       th_highWarning := 180; th_highUrgent := 240 |} /\
  count_events http_request (emitted (loop t) m) = 2%nat /\
  stored_timers (vars (after (loop t) m)) =
    {| statusTimer := millis (t_millis t); dataTimer := millis (t_millis t);
       displayTimer := 0 |}.
Proof.
  intros Hready Hdown Hup Hstatus Hdata. cbv zeta.
  assert (Hstart :
    let b := b_after (setup other_as_bool sd) reset in
    b_spr b = spr_after_setup /\
    lastTimestamp (b_vars b) = 0 /\ lastDisplayUpdateTime (b_vars b) = 0 /\
    stored_thresholds (b_vars b) =
      {| th_lowUrgent := 55; th_lowWarning := 70;
         th_highWarning := 180; th_highUrgent := 240 |}).
  { cbv zeta. revert Hready. unfold reset.
    destruct sd as [pins mount file];
      destruct pins, mount, file as [[doc |] |];
      unfold b_result, b_after, setup, readConfig, createTrendArrow, lift, showMessage,
        spr_setPivot, spr_setTextDatum, run;
      cbn -[Z.quot Z.sub Z.add Text.trim Text.strip_slashes containsKey member
            as_String as_bool];
      try discriminate;
      destruct (containsKey doc "rotate" && as_bool other_as_bool (member doc "rotate"));
      intros _; repeat split. }
  cbv zeta in Hstart. destruct Hstart as (Hspr & Hts & Hdisplay & Hth).
  unfold hand_over at 1 2 3. cbn [spr vars].
  split; [ exact Hspr | ]. split; [ exact Hts | ]. split; [ exact Hth | ].
  split.
  - rewrite (loop_reconnect_request_count t _ Hdown Hup), Hstatus, Hdata.
    reflexivity.
  - destruct (loop_reconnect_timers t
                (hand_over (b_after (setup other_as_bool sd) reset)) Hdown Hup)
      as [Hst Hdt].
    unfold stored_timers. rewrite Hst, Hdt. f_equal.
    rewrite (loop_link_down t _ Hdown), Hup. cbn [when].
    rewrite !after_bind, !vars_assign.
    cbn [lastDisplayUpdateTime set_lastDataFetchTime set_lastStatusFetchTime].
    destruct (timers_after_fetchData (t_data_wifi t) (t_data t) (t_data_millis t)
                (after (fetchStatus (t_status_wifi t) (t_status t))
                   (after (connectWiFi (t_link t) (t_ip t))
                      (hand_over (b_after (setup other_as_bool sd) reset)))))
      as (_ & _ & ->).
    destruct (timers_after_fetchStatus (t_status_wifi t) (t_status t)
                (after (connectWiFi (t_link t) (t_ip t))
                   (hand_over (b_after (setup other_as_bool sd) reset))))
      as (_ & _ & ->).
    rewrite keeps_vars_connectWiFi. exact Hdisplay.
Qed.

End FirstPass.

(** ** The further properties at given inputs *)

Lemma fetchData_failure_keeps_globals_witness :
  let m := power_on bench_reading in
  result (fetchData (board:=bench_board) true server_error 9000) m = false /\
  vars (after (fetchData (board:=bench_board) true server_error 9000) m) = vars m.
Proof.
  cbv zeta. split; [ reflexivity | ].
  apply (fetchData_failure_keeps_globals (board:=bench_board) true server_error 9000
           (power_on bench_reading)).
  reflexivity.
Defined.

Lemma fetchData_accepts_new_reading_witness :
  let doc := properties_json 2000 (JInt 140) "SingleUp" (JInt 7) in
  let m := power_on bench_reading in
  let m' := after (fetchData (board:=bench_board) true (ok_with doc) 9000) m in
  mills_of (board:=bench_board) doc <> lastTimestamp (vars m) /\
  lastTimestamp (vars m') = 2000 /\
  lastUpdate (vars m') = 9000 /\
  bg (vars m') = Fp.of_Z32 140.
Proof.
  cbv zeta. split; [ discriminate | ].
  destruct (fetchData_accepts_new_reading (board:=bench_board)
              (ok_with (properties_json 2000 (JInt 140) "SingleUp" (JInt 7)))
              (properties_json 2000 (JInt 140) "SingleUp" (JInt 7))
              9000 (power_on bench_reading))
    as (_ & _ & Hts & Hup & Hbg);
    try reflexivity; try discriminate.
  rewrite Hts, Hup, Hbg. repeat split.
Defined.

Lemma fetchData_without_mills_before_first_reading_witness :
  let doc := JObj [("bgnow", JObj [("sgvs", JArr [JObj [("mgdl", JInt 120)]])])] in
  let m := power_on bench_config in
  containsKey (member doc "bgnow") "mills" = false /\
  lastTimestamp (vars m) = 0 /\
  vars (after (fetchData (board:=bench_board) true (ok_with doc) 9000) m) = vars m.
Proof.
  cbv zeta. split; [ reflexivity | ]. split; [ reflexivity | ].
  apply (fetchData_without_mills_before_first_reading (board:=bench_board) true
           (ok_with (JObj [("bgnow", JObj [("sgvs", JArr [JObj [("mgdl", JInt 120)]])])]))
           (JObj [("bgnow", JObj [("sgvs", JArr [JObj [("mgdl", JInt 120)]])])])
           9000 (power_on bench_config)); reflexivity.
Defined.

Lemma fetchStatus_failure_keeps_globals_witness :
  let m := power_on bench_reading in
  result (fetchStatus (board:=bench_board) true server_error) m = false /\
  vars (after (fetchStatus (board:=bench_board) true server_error) m) = vars m.
Proof.
  cbv zeta. split; [ reflexivity | ].
  apply (fetchStatus_failure_keeps_globals (board:=bench_board) true server_error
           (power_on bench_reading)).
  reflexivity.
Defined.

Lemma fetchStatus_mgdl_thresholds_witness :
  let m := power_on bench_reading in
  units_are_mmol (units_of (board:=bench_board) mgdl_status_json) = false /\
  stored_thresholds
    (vars (after (fetchStatus (board:=bench_board) true (ok_with mgdl_status_json)) m)) =
    {| th_lowUrgent := 55; th_lowWarning := 70;
       th_highWarning := 180; th_highUrgent := 240 |}.
Proof.
  cbv zeta. split; [ reflexivity | ].
  rewrite (fetchStatus_mgdl_thresholds (board:=bench_board) (ok_with mgdl_status_json)
             mgdl_status_json (power_on bench_reading));
    reflexivity.
Defined.

Lemma mmol_to_mgdl_exact_witness :
  -20000 <= 13 <= 20000 /\ mmol_to_mgdl (board:=bench_board) 13 = 234.
Proof.
  split; [ split; discriminate | ].
  apply (mmol_to_mgdl_exact (board:=bench_board) 13). split; discriminate.
Defined.

Lemma fetch_sends_one_request_and_ends_it_witness :
  let m := power_on bench_reading in
  count_events http_request
    (emitted (fetchData (board:=bench_board) true server_error 9000) m) = 1%nat /\
  count_events http_end
    (emitted (fetchData (board:=bench_board) true server_error 9000) m) = 1%nat /\
  emitted (fetchStatus (board:=bench_board) false server_error) m = [].
Proof.
  cbv zeta.
  destruct (fetch_sends_one_request_and_ends_it (board:=bench_board) true server_error
              9000 (power_on bench_reading)) as [_ Hup].
  destruct (fetch_sends_one_request_and_ends_it (board:=bench_board) false server_error
              9000 (power_on bench_reading)) as [Hdown _].
  destruct (Hup eq_refl) as (_ & _ & _ & _ & _ & Hreq & _ & Hend & _).
  destruct (Hdown eq_refl) as (Hnone & _).
  split; [ exact Hreq | ]. split; [ exact Hend | exact Hnone ].
Defined.

Lemma loop_connected_timers_witness :
  let t := bench_tick 40000 server_error
             (ok_with (properties_json 2000 (JInt 140) "SingleUp" (JInt 7)))
             false false in
  let m := power_on bench_running in
  t_wifi t = true /\
  stored_timers (vars (after (loop (board:=bench_board) t) m)) =
    {| statusTimer := 4600; dataTimer := 40000; displayTimer := 40000 |}.
Proof.
  cbv zeta. split; [ reflexivity | ].
  rewrite (loop_connected_timers (board:=bench_board)
             (bench_tick 40000 server_error
                (ok_with (properties_json 2000 (JInt 140) "SingleUp" (JInt 7)))
                false false)
             (power_on bench_running) eq_refl).
  reflexivity.
Defined.

Lemma loop_led_disabled_never_written_witness :
  let t := bench_tick 40000 server_error
             (ok_with (properties_json 2000 (JInt 140) "SingleUp" (JInt 7)))
             false false in
  let m := power_on bench_dark in
  useLed (vars m) = false /\
  filter led_write (emitted (loop (board:=bench_board) t) m) = [].
Proof.
  cbv zeta. split; [ reflexivity | ].
  apply (loop_led_disabled_never_written (board:=bench_board)). reflexivity.
Defined.


Lemma rotation_ignores_case_witness :
  Str.equalsIgnoreCase "flat" "FLAT" = true /\
  getTrendArrowRotation "flat" = getTrendArrowRotation "FLAT".
Proof.
  split; [ reflexivity | ].
  apply (rotation_ignores_case "flat" "FLAT"). reflexivity.
Defined.

Lemma updateTimestamp_draws_minutes_witness :
  let m := power_on bench_reading in
  0 <= lastUpdate (vars m) <= millis 305000 /\
  emitted (updateTimestamp 305000) m =
    [ SprSetTextDatum TC_DATUM; SprSetFreeFont FSS18;
      SprDrawString "5" 250 100 GFXFF;
      SprSetFreeFont FSS12; SprDrawString "min. ago" 250 135 GFXFF;
      SprSetTextColor TFT_WHITE ].
Proof.
  cbv zeta. split; [ split; discriminate | ].
  rewrite (updateTimestamp_draws_minutes 305000 (power_on bench_reading)).
  - reflexivity.
  - split; discriminate.
Defined.

Lemma updateLED_zone_by_thresholds_witness :
  let m := power_on (set_bg (Fp.of_Z32 70) bench_reading) in
  bg (vars m) = Fp.of_Z32 70 /\
  lowWarning (vars m) = 70 /\
  emitted updateLED m = [NeopixelWrite PIN_NEOPIXEL 64 0 0].
Proof.
  cbv zeta. split; [ reflexivity | ]. split; [ reflexivity | ].
  rewrite (updateLED_zone_by_thresholds 70
             (power_on (set_bg (Fp.of_Z32 70) bench_reading)));
    try reflexivity; split; discriminate.
Defined.

Lemma updateDisplay_frame_shape_witness :
  let m := power_on bench_reading in
  lastTimestamp (vars m) <> 0 /\
  count_events push_sprite
    (emitted (updateDisplay (board:=bench_board) 6000 6010) m) = 1%nat /\
  count_events first_arrow
    (emitted (updateDisplay (board:=bench_board) 6000 6010) m) = 1%nat.
Proof.
  cbv zeta. split; [ discriminate | ].
  destruct (updateDisplay_frame_shape (board:=bench_board) 6000 6010
              (power_on bench_reading)) as (_ & _ & Hpush & _ & Harrow).
  - discriminate.
  - split; [ exact Hpush | exact Harrow ].
Defined.

Lemma readConfig_failure_keeps_globals_witness :
  b_result (readConfig (board:=bench_board) bench_as_bool (Some None)) reset = false /\
  b_vars (b_after (readConfig (board:=bench_board) bench_as_bool (Some None)) reset) =
    initial_globals.
Proof.
  split; [ reflexivity | ].
  destruct (readConfig_failure_keeps_globals (board:=bench_board) bench_as_bool
              (Some None) reset) as [_ Hkeep].
  exact (Hkeep eq_refl).
Defined.

Lemma readConfig_stores_configuration_witness :
  let v' := b_vars (b_after (readConfig (board:=bench_board) bench_as_bool
                               (Some (Some bench_config_json))) reset) in
  containsKey bench_config_json "mmol" = false /\
  member bench_config_json "use_led" = JBool true /\
  nightscoutURL v' = "https://ns.example.org" /\
  mmol v' = false /\
  useLed v' = true.
Proof.
  cbv zeta. split; [ reflexivity | ]. split; [ reflexivity | ].
  destruct (readConfig_stores_configuration (board:=bench_board) bench_as_bool
              bench_config_json reset)
    as (Hurl & _ & _ & Hmmol & _ & _ & Hled & _).
  split; [ rewrite Hurl; reflexivity | ].
  split; [ exact (Hmmol eq_refl) | exact (Hled true eq_refl) ].
Defined.

Lemma setup_outcome_witness :
  pins_ok bench_card = true /\ mount_ok bench_card = true /\
  config_file bench_card = Some (Some bench_config_json) /\
  b_result (setup (board:=bench_board) bench_as_bool bench_card) reset = Ready /\
  b_vars (b_after (setup (board:=bench_board) bench_as_bool bench_card) reset) =
    bench_config.
Proof.
  split; [ reflexivity | ]. split; [ reflexivity | ]. split; [ reflexivity | ].
  destruct (setup_outcome (board:=bench_board) bench_as_bool bench_card reset)
    as [[_ Hready] _].
  split; [ | reflexivity ].
  apply Hready. repeat split. now exists bench_config_json.
Defined.

Lemma loop_connected_requests_witness :
  let t := bench_tick 40000 server_error server_error false false in
  let m := power_on bench_running in
  t_wifi t = true /\
  count_events http_request (emitted (loop (board:=bench_board) t) m) = 1%nat.
Proof.
  cbv zeta. split; [ reflexivity | ].
  rewrite (loop_connected_requests (board:=bench_board)
             (bench_tick 40000 server_error server_error false false)
             (power_on bench_running) eq_refl).
  reflexivity.
Defined.

Lemma first_pass_reconnects_witness :
  let t := reconnect_tick 1200 server_error server_error in
  let m := hand_over (b_after (setup (board:=bench_board) bench_as_bool bench_card) reset) in
  b_result (setup (board:=bench_board) bench_as_bool bench_card) reset = Ready /\
  t_wifi t = false /\ t_wifi_after t = true /\
  t_status_wifi t = true /\ t_data_wifi t = true /\
  count_events http_request (emitted (loop (board:=bench_board) t) m) = 2%nat /\
  stored_timers (vars (after (loop (board:=bench_board) t) m)) =
    {| statusTimer := 1200; dataTimer := 1200; displayTimer := 0 |}.
Proof.
  cbv zeta. split; [ reflexivity | ].
  split; [ reflexivity | ]. split; [ reflexivity | ].
  split; [ reflexivity | ]. split; [ reflexivity | ].
  pose proof (first_pass_reconnects (board:=bench_board) bench_as_bool bench_card
                (reconnect_tick 1200 server_error server_error)
                eq_refl eq_refl eq_refl eq_refl eq_refl)
    as (_ & _ & _ & Hcount & Htimers).
  split; [ exact Hcount | exact Htimers ].
Defined.
